(** * Quality rating engine of the dashboard (metrics/quality_rating.py)

    A shallow embedding of [QualityRatingCalculator] and
    [QualityReportGenerator], together with the helper of
    metrics/maintainability_metrics.py, and the properties the
    specification states about them.

    Python's [float] is IEEE 754 binary64: it is modelled by Rocq's
    primitive floats, whose operations are the same correctly rounded
    ones.  Python's [int] is unbounded: it is modelled by [Z].  The
    parsed reports are dictionaries with string keys: they are finite maps
    ([gmap string pyval]).  Exceptions are an error monad; the methods of
    the calculator run in a state-and-error monad over the calculator
    object. *)

From Stdlib Require Import ZArith Floats Lia Bool List.
From stdpp Require Import base option list gmap strings pretty.

Set Warnings "-inexact-float,-register-all".

Local Open Scope string_scope.
Local Open Scope Z_scope.

(** ** Python values and exceptions *)

(** The values that occur in the parsed reports and in the detail records
    the calculator builds. *)
Inductive pyval : Type :=
| PInt (z : Z)
| PFloat (f : float)
| PStr (s : string)
| PList (l : list pyval)
| PDict (d : gmap string pyval).

Inductive pyexc : Type :=
| KeyError (key : string)
| AttributeError
| TypeError
| ValueError
| ZeroDivisionError
| OverflowError.

Inductive result (A : Type) : Type :=
| Ok (a : A)
| Raise (e : pyexc).
Arguments Ok {A} a.
Arguments Raise {A} e.

#[export] Instance result_ret : MRet result := fun A a => Ok a.
#[export] Instance result_bind : MBind result := fun A B k m =>
  match m with
  | Ok a => k a
  | Raise e => Raise e
  end.

(** ** Numbers *)

Module Num.

(** [float(z)] for a Python int: the nearest double, ties to even;
    OverflowError when that is not finite. *)
Definition float_of_Z (z : Z) : result float :=
  let f := SF2Prim (binary_normalize prec emax z 0 false) in
  if is_infinity f then Raise OverflowError else Ok f.

Definition Z2SF (z : Z) : spec_float :=
  match z with
  | Z0 => S754_zero false
  | Zpos p => S754_finite false p 0
  | Zneg p => S754_finite true p 0
  end.

(** [a / b] on two Python ints with [b <> 0]: the correctly rounded
    quotient of the exact integers; OverflowError when it is not finite. *)
Definition int_truediv (a b : Z) : result float :=
  let f := SF2Prim (SFdiv prec emax (Z2SF a) (Z2SF b)) in
  if is_infinity f then Raise OverflowError else Ok f.

(** Exact comparison of an int with a float, as Python does it (no
    conversion of the int): [None] when the float is NaN. *)
Definition Z_float_compare (z : Z) (f : float) : option comparison :=
  match Prim2SF f with
  | S754_nan => None
  | S754_infinity s => Some (if s then Gt else Lt)
  | S754_zero _ => Some (z ?= 0)
  | S754_finite s m e =>
      let fm := if s then Zneg m else Zpos m in
      Some (if 0 <=? e then z ?= fm * 2 ^ e else z * 2 ^ (- e) ?= fm)
  end.

Definition float_compare (x y : float) : option comparison :=
  match PrimFloat.compare x y with
  | FEq => Some Eq
  | FLt => Some Lt
  | FGt => Some Gt
  | FNotComparable => None
  end.

(** Three-way comparison of two numbers; TypeError on anything else
    (the calculator orders numbers only). *)
Definition compare (a b : pyval) : result (option comparison) :=
  match a, b with
  | PInt x, PInt y => Ok (Some (x ?= y))
  | PInt x, PFloat y => Ok (Z_float_compare x y)
  | PFloat x, PInt y => Ok (option_map CompOpp (Z_float_compare y x))
  | PFloat x, PFloat y => Ok (float_compare x y)
  | _, _ => Raise TypeError
  end.

(** [a <= b] and [a < b]. *)
Definition le (a b : pyval) : result bool :=
  c ← compare a b;
  Ok match c with Some Lt | Some Eq => true | _ => false end.

Definition lt (a b : pyval) : result bool :=
  c ← compare a b;
  Ok match c with Some Lt => true | _ => false end.

(** [a >= b] and [a > b]. *)
Definition ge (a b : pyval) : result bool :=
  c ← compare a b;
  Ok match c with Some Gt | Some Eq => true | _ => false end.

Definition gt (a b : pyval) : result bool :=
  c ← compare a b;
  Ok match c with Some Gt => true | _ => false end.

(** [v == n] for an int literal [n]: never raises, False for a value
    that is not a number. *)
Definition eq_int (v : pyval) (n : Z) : bool :=
  match v with
  | PInt z => z =? n
  | PFloat f =>
      match Z_float_compare n f with Some Eq => true | _ => false end
  | _ => false
  end.

(** The usual arithmetic conversions: an int meeting a float is converted
    to a float first. *)
Definition add (a b : pyval) : result pyval :=
  match a, b with
  | PInt x, PInt y => Ok (PInt (x + y))
  | PInt x, PFloat y => fx ← float_of_Z x; Ok (PFloat (fx + y))
  | PFloat x, PInt y => fy ← float_of_Z y; Ok (PFloat (x + fy))
  | PFloat x, PFloat y => Ok (PFloat (x + y))
  | PStr x, PStr y => Ok (PStr (x +:+ y))
  | PList x, PList y => Ok (PList (x ++ y))
  | _, _ => Raise TypeError
  end.

Definition sub (a b : pyval) : result pyval :=
  match a, b with
  | PInt x, PInt y => Ok (PInt (x - y))
  | PInt x, PFloat y => fx ← float_of_Z x; Ok (PFloat (fx - y))
  | PFloat x, PInt y => fy ← float_of_Z y; Ok (PFloat (x - fy))
  | PFloat x, PFloat y => Ok (PFloat (x - y))
  | _, _ => Raise TypeError
  end.

(** [w * v] for a float [w]: a product with a float on the left is
    numeric or a TypeError (no sequence repetition). *)
Definition fmul (w : float) (v : pyval) : result pyval :=
  match v with
  | PInt y => fy ← float_of_Z y; Ok (PFloat (w * fy))
  | PFloat y => Ok (PFloat (w * y))
  | _ => Raise TypeError
  end.

(** [a * b]: numbers multiply, a sequence is repeated by an int. *)
Definition mul (a b : pyval) : result pyval :=
  match a, b with
  | PInt x, PInt y => Ok (PInt (x * y))
  | PFloat x, _ => fmul x b
  | PInt x, PFloat y => fx ← float_of_Z x; Ok (PFloat (fx * y))
  | PStr x, PInt n | PInt n, PStr x =>
      Ok (PStr (String.concat "" (replicate (Z.to_nat n) x)))
  | PList x, PInt n | PInt n, PList x =>
      Ok (PList (concat (replicate (Z.to_nat n) x)))
  | _, _ => Raise TypeError
  end.

(** True division [a / b]. *)
Definition truediv (a b : pyval) : result pyval :=
  match a, b with
  | PInt x, PInt y =>
      if y =? 0 then Raise ZeroDivisionError
      else f ← int_truediv x y; Ok (PFloat f)
  | PInt x, PFloat y =>
      fx ← float_of_Z x;
      if (y =? 0)%float then Raise ZeroDivisionError else Ok (PFloat (fx / y))
  | PFloat x, PInt y =>
      fy ← float_of_Z y;
      if y =? 0 then Raise ZeroDivisionError else Ok (PFloat (x / fy))
  | PFloat x, PFloat y =>
      if (y =? 0)%float then Raise ZeroDivisionError else Ok (PFloat (x / y))
  | _, _ => Raise TypeError
  end.

(** [min(a, b)]: the first argument unless the second is smaller. *)
Definition min (a b : pyval) : result pyval :=
  c ← lt b a;
  Ok (if (c : bool) then b else a).

End Num.

(** ** Text formatting of numbers *)

Module Fmt.

Definition zeros (n : nat) : string := String.concat "" (replicate n "0").

(** Quotient of two non-negative integers rounded to nearest, ties to even. *)
Definition div_half_even (a b : Z) : Z :=
  let q := a / b in
  match 2 * (a mod b) ?= b with
  | Lt => q
  | Gt => q + 1
  | Eq => if Z.even q then q else q + 1
  end.

(** The digits of [n >= 0] with a decimal point before the last [d]. *)
Definition place_point (d : nat) (n : Z) : string :=
  let s := pretty (Z.to_N n) in
  let s := zeros (S d - String.length s) +:+ s in
  let k := (String.length s - d)%nat in
  match d with
  | O => s
  | _ => String.substring 0 k s +:+ "." +:+ String.substring k d s
  end.

(** [format(f, '.<d>f')] for a float: the exact binary value rounded to
    [d] decimals, ties to even. *)
Definition fixed_float (d : nat) (f : float) : string :=
  match Prim2SF f with
  | S754_nan => "nan"
  | S754_infinity s => if s then "-inf" else "inf"
  | S754_zero s => (if s then "-" else "") +:+ place_point d 0
  | S754_finite s m e =>
      let n := Zpos m * 10 ^ Z.of_nat d in
      let r := if 0 <=? e then n * 2 ^ e else div_half_even n (2 ^ (- e)) in
      (if s then "-" else "") +:+ place_point d r
  end.

(** [f'{v:.<d>f}']: an int is converted to a float first; a string has no
    such format code, a list or a dict no format specification at all. *)
Definition fixed (d : nat) (v : pyval) : result string :=
  match v with
  | PInt z => f ← Num.float_of_Z z; Ok (fixed_float d f)
  | PFloat f => Ok (fixed_float d f)
  | PStr _ => Raise ValueError
  | PList _ | PDict _ => Raise TypeError
  end.

(** *** [repr] of a float: the shortest decimal that reads back as the
    same double, the closest one when several are as short. *)

Section Shortest.
(** The double is [m * 2^e]. Everything is counted in quarters of its
    unit in the last place: the double itself is [4 * m], and the
    decimals that read back as it lie between [lo] and [hi]. *)
Variables (m : positive) (e : Z).

Definition lo : Z :=
  if (Zpos m =? 2 ^ 52) && (-1074 <? e) then 4 * Zpos m - 1 else 4 * Zpos m - 2.
Definition hi : Z := 4 * Zpos m + 2.
Definition closed : bool := Z.even (Zpos m).

(** [c * 10^p] against [x] quarters: both sides scaled to integers. *)
Definition side (p : Z) : Z * Z :=
  (2 ^ Z.max (2 - e) 0 * 10 ^ Z.max p 0, 2 ^ Z.max (e - 2) 0 * 10 ^ Z.max (- p) 0).

Definition dec_compare (c p x : Z) : comparison :=
  let '(a, b) := side p in c * a ?= x * b.

Definition inside (c p : Z) : bool :=
  match dec_compare c p lo, dec_compare c p hi with
  | Gt, Lt => true
  | Eq, (Lt | Eq) | Gt, Eq => closed
  | _, _ => false
  end.

(** The first power of ten above the double. *)
Definition decpt : Z :=
  let d := (Z.log2 (Zpos m) + e) * 30103 / 100000 in
  if negb (match dec_compare 1 (d + 1) (4 * Zpos m) with Gt => true | _ => false end)
  then d + 2
  else if negb (match dec_compare 1 d (4 * Zpos m) with Gt => true | _ => false end)
  then d + 1 else d.

(** The best decimal with [k] digits, when one reads back. *)
Definition candidate (k : Z) : option (Z * Z) :=
  let p := decpt - k in
  let '(a, b) := side p in
  let c := (4 * Zpos m * b) / a in
  let c' := c + 1 in
  let down := inside c p in
  let up := inside c' p in
  let nearer_up :=
    match 2 * (4 * Zpos m * b) ?= (c + c') * a with
    | Gt => true
    | Lt => false
    | Eq => Z.odd c
    end in
  if down && up then Some (if nearer_up then c' else c, p)
  else if down then Some (c, p)
  else if up then Some (c', p)
  else None.

Fixpoint shortest_from (fuel : nat) (k : Z) : Z * Z :=
  match fuel with
  | O => (0, 0)
  | S fuel' =>
      match candidate k with
      | Some r => r
      | None => shortest_from fuel' (k + 1)
      end
  end.

Definition shortest : Z * Z := shortest_from 17 1.
End Shortest.

Fixpoint strip_zeros (fuel : nat) (c p : Z) : Z * Z :=
  match fuel with
  | O => (c, p)
  | S fuel' => if (c mod 10 =? 0) && (0 <? c) then strip_zeros fuel' (c / 10) (p + 1) else (c, p)
  end.

Definition repr_float (f : float) : string :=
  match Prim2SF f with
  | S754_nan => "nan"
  | S754_infinity s => if s then "-inf" else "inf"
  | S754_zero s => if s then "-0.0" else "0.0"
  | S754_finite s m e =>
      let '(c, p) := shortest m e in
      let '(c, p) := strip_zeros 18 c p in
      let ds := pretty (Z.to_N c) in
      let k := String.length ds in
      let point := Z.of_nat k + p in
      (if s then "-" else "") +:+
      (if (-4 <? point) && (point <=? 16) then
         if point <=? 0 then "0." +:+ zeros (Z.to_nat (- point)) +:+ ds
         else if Z.of_nat k <=? point then ds +:+ zeros (Z.to_nat p) +:+ ".0"
         else String.substring 0 (Z.to_nat point) ds +:+ "." +:+
              String.substring (Z.to_nat point) (k - Z.to_nat point) ds
       else
         let x := point - 1 in
         String.substring 0 1 ds +:+
         (if (1 <? k)%nat then "." +:+ String.substring 1 (k - 1) ds else "") +:+
         "e" +:+ (if x <? 0 then "-" else "+") +:+
         (if Z.abs x <? 10 then "0" else "") +:+ pretty (Z.to_N (Z.abs x)))
  end.

(** [str(v)], as an f-string without a format specification uses it, for
    the values the reports print this way. *)
Definition str (v : pyval) : result string :=
  match v with
  | PInt z => Ok (pretty z)
  | PFloat f => Ok (repr_float f)
  | PStr s => Ok s
  | PList _ | PDict _ => Raise TypeError
  end.

End Fmt.

(** ** Dictionaries *)

Abbreviation dict := (gmap string pyval).

Module Dict.

(** [d.get(key, default)] *)
Definition get (d : dict) (key : string) (dflt : pyval) : pyval :=
  default dflt (d !! key).

(** [d[key]] *)
Definition subscript {V : Type} (d : gmap string V) (key : string) : result V :=
  match d !! key with
  | Some v => Ok v
  | None => Raise (KeyError key)
  end.

(** [v[key]] on a value: only a dict takes a string key. *)
Definition item (v : pyval) (key : string) : result pyval :=
  match v with
  | PDict d => subscript d key
  | _ => Raise TypeError
  end.

(** [key in d] *)
Definition contains (d : dict) (key : string) : bool :=
  match d !! key with Some _ => true | None => false end.

(** [v[k1][k2]...] *)
Definition path (v : pyval) (keys : list string) : result pyval :=
  foldl (fun r key => v' ← r; item v' key) (Ok v) keys.

(** [v.get(key, default)] on a value: only a dict has the method. *)
Definition get_of (v : pyval) (key : string) (dflt : pyval) : result pyval :=
  match v with
  | PDict d => Ok (get d key dflt)
  | _ => Raise AttributeError
  end.

(** Truth value of [self.junit_data] or [self.jacoco_data]: None and the
    empty dict are false. *)
Definition truth (o : option dict) : bool :=
  match o with
  | None => false
  | Some d => negb (size d =? 0)%nat
  end.

(** A dict display [{k1: v1, ..., kn: vn}]. *)
Definition of_list {V : Type} (l : list (string * V)) : gmap string V :=
  list_to_map (rev l).

End Dict.

(** ** The calculator object and the monad its methods run in *)

Record QualityRatingCalculator : Type := {
  junit_data : option dict;
  jacoco_data : option dict
}.

(** A method takes the object, returns a value or raises, and leaves the
    object in some state. *)
Definition Py (A : Type) : Type :=
  QualityRatingCalculator -> result A * QualityRatingCalculator.

#[export] Instance Py_ret : MRet Py := fun A a self => (Ok a, self).
#[export] Instance Py_bind : MBind Py := fun A B k m self =>
  match m self with
  | (Ok a, self') => k a self'
  | (Raise e, self') => (Raise e, self')
  end.

(** A pure computation that may raise, run inside a method. *)
Definition lift {A : Type} (r : result A) : Py A := fun self => (r, self).

(** [self.junit_data] and [self.jacoco_data], read. *)
Definition self_junit_data : Py (option dict) := fun self => (Ok (junit_data self), self).
Definition self_jacoco_data : Py (option dict) := fun self => (Ok (jacoco_data self), self).

(** What a call returns or raises, and the object it leaves. *)
Definition returned {A : Type} (m : Py A) (self : QualityRatingCalculator) : result A :=
  fst (m self).
Definition state_after {A : Type} (m : Py A) (self : QualityRatingCalculator)
  : QualityRatingCalculator :=
  snd (m self).

(** ** QualityRatingCalculator *)

Module Calc.

Definition WEIGHT_RELIABILITY : float := 0.40.
Definition WEIGHT_MAINTAINABILITY : float := 0.40.
Definition WEIGHT_PERFORMANCE : float := 0.20.

Definition PERFORMANCE_THRESHOLD : float := 0.5.

(** The class-level tables; [RATING_RANGES] is iterated in the order it is
    written. *)
Definition RATING_RANGES : list (string * (Z * Z)) :=
  [ ("A", (90, 100));
    ("B", (80, 89));
    ("C", (70, 79));
    ("D", (60, 69));
    ("E", (0, 59)) ].

Definition RATING_COLORS : gmap string string :=
  Dict.of_list
    [ ("A", "#28a745");
      ("B", "#5cb85c");
      ("C", "#ffc107");
      ("D", "#fd7e14");
      ("E", "#dc3545") ].

(** *** calculate_reliability_score *)
Definition calculate_reliability_score : Py (pyval * dict) :=
  junit ← self_junit_data;
  match junit with
  | Some jd =>
    if negb (Dict.truth junit) then
      mret (PFloat 0.0, Dict.of_list [("error", PStr "No JUnit data available")])
    else
      let total_tests := Dict.get jd "total_tests" (PInt 0) in
      if Num.eq_int total_tests 0 then
        mret (PFloat 0.0, Dict.of_list [("error", PStr "No tests executed")])
      else
        let failures := Dict.get jd "failures" (PInt 0) in
        let errors := Dict.get jd "errors" (PInt 0) in
        faults ← lift (Num.add failures errors);
        fault_density ← lift (Num.truediv faults total_tests);
        rest ← lift (Num.sub (PInt 1) fault_density);
        reliability_score ← lift (Num.mul rest (PInt 100));
        fault_pct ← lift (Num.mul fault_density (PInt 100));
        fd4 ← lift (Fmt.fixed 4 fault_density);
        rs2 ← lift (Fmt.fixed 2 reliability_score);
        let details := Dict.of_list
          [ ("total_tests", total_tests);
            ("failures", failures);
            ("errors", errors);
            ("fault_density", fault_pct);
            ("formula", PStr "RS = (1 - FD) × 100");
            ("standard", PStr "IEEE Std 982.1-1988, Section 3.5.1");
            ("calculation", PStr ("RS = (1 - " +:+ fd4 +:+ ") × 100 = " +:+ rs2)) ] in
        mret (reliability_score, details)
  | None =>
      mret (PFloat 0.0, Dict.of_list [("error", PStr "No JUnit data available")])
  end.

(** *** calculate_maintainability_score *)
Definition calculate_maintainability_score : Py (pyval * dict) :=
  jacoco ← self_jacoco_data;
  match jacoco with
  | Some jc =>
    if negb (Dict.truth jacoco) then
      mret (PFloat 0.0, Dict.of_list [("error", PStr "No JaCoCo data available")])
    else
      let line_coverage := Dict.get jc "line_coverage" (PInt 0) in
      let branch_coverage := Dict.get jc "branch_coverage" (PInt 0) in
      let w_line := 0.6%float in
      let w_branch := 0.4%float in
      weighted_line ← lift (Num.fmul w_line line_coverage);
      weighted_branch ← lift (Num.fmul w_branch branch_coverage);
      maintainability_score ← lift (Num.add weighted_line weighted_branch);
      lc2 ← lift (Fmt.fixed 2 line_coverage);
      bc2 ← lift (Fmt.fixed 2 branch_coverage);
      ms2 ← lift (Fmt.fixed 2 maintainability_score);
      let details := Dict.of_list
        [ ("line_coverage", line_coverage);
          ("branch_coverage", branch_coverage);
          ("lines_covered", Dict.get jc "lines_covered" (PInt 0));
          ("lines_total", Dict.get jc "lines_total" (PInt 0));
          ("branches_covered", Dict.get jc "branches_covered" (PInt 0));
          ("branches_total", Dict.get jc "branches_total" (PInt 0));
          ("formula", PStr ("MS = (" +:+ Fmt.repr_float w_line +:+ " × LC) + ("
                            +:+ Fmt.repr_float w_branch +:+ " × BC)"));
          ("standards", PList [ PStr "ISO/IEC 25010:2011, Section 4.2.6";
                                PStr "IEEE Std 829-2008, Section 5.3";
                                PStr "IEEE Std 1061-1998, Section 3.2.2" ]);
          ("calculation", PStr ("MS = (" +:+ Fmt.repr_float w_line +:+ " × " +:+ lc2
                                +:+ ") + (" +:+ Fmt.repr_float w_branch +:+ " × " +:+ bc2
                                +:+ ") = " +:+ ms2)) ] in
      mret (maintainability_score, details)
  | None =>
      mret (PFloat 0.0, Dict.of_list [("error", PStr "No JaCoCo data available")])
  end.

(** *** calculate_performance_score *)
Definition calculate_performance_score : Py (pyval * dict) :=
  junit ← self_junit_data;
  match junit with
  | Some jd =>
    if negb (Dict.truth junit) then
      mret (PFloat 0.0, Dict.of_list [("error", PStr "No JUnit data available")])
    else
      let total_time := Dict.get jd "execution_time" (PInt 0) in
      let total_tests := Dict.get jd "total_tests" (PInt 0) in
      if Num.eq_int total_tests 0 || Num.eq_int total_time 0 then
        mret (PFloat 100.0,
              Dict.of_list [("note", PStr "No performance data, assuming optimal")])
      else
        avg_test_time ← lift (Num.truediv total_time total_tests);
        fast ← lift (Num.le avg_test_time (PFloat PERFORMANCE_THRESHOLD));
        performance_score ←
          (if (fast : bool) then mret (PFloat 100.0)
           else
             ratio ← lift (Num.truediv (PFloat PERFORMANCE_THRESHOLD) avg_test_time);
             scaled ← lift (Num.mul ratio (PInt 100));
             lift (Num.min (PInt 100) scaled));
        positive_time ← lift (Num.lt (PInt 0) total_time);
        throughput ←
          (if (positive_time : bool) then lift (Num.truediv total_tests total_time)
           else mret (PInt 0));
        avg4 ← lift (Fmt.fixed 4 avg_test_time);
        ps2 ← lift (Fmt.fixed 2 performance_score);
        let details := Dict.of_list
          [ ("total_execution_time", total_time);
            ("total_tests", total_tests);
            ("avg_test_time", avg_test_time);
            ("threshold_time", PFloat PERFORMANCE_THRESHOLD);
            ("throughput", throughput);
            ("formula", PStr "PS = min(100, (Threshold / Avg_Time) × 100)");
            ("standard", PStr "ISO/IEC 25010:2011, Section 4.2.1");
            ("calculation", PStr ("PS = min(100, (" +:+ Fmt.repr_float PERFORMANCE_THRESHOLD
                                  +:+ " / " +:+ avg4 +:+ ") × 100) = " +:+ ps2)) ] in
        mret (performance_score, details)
  | None =>
      mret (PFloat 0.0, Dict.of_list [("error", PStr "No JUnit data available")])
  end.

(** *** _get_rating *)

(** [lo <= wqs <= hi], the second comparison made only when the first
    holds. *)
Definition between (lo : Z) (wqs : pyval) (hi : Z) : result bool :=
  c ← Num.le (PInt lo) wqs;
  if (c : bool) then Num.le wqs (PInt hi) else Ok false.

Fixpoint rating_loop (items : list (string * (Z * Z))) (wqs : pyval) : result string :=
  match items with
  | [] => Ok "E"
  | (rating, (min_score, max_score)) :: rest =>
      c ← between min_score wqs max_score;
      if (c : bool) then Ok rating else rating_loop rest wqs
  end.

Definition _get_rating (wqs : pyval) : Py string :=
  lift (rating_loop RATING_RANGES wqs).

(** *** calculate_weighted_quality_score *)
Definition calculate_weighted_quality_score : Py (pyval * dict) :=
  '(reliability_score, rel_details) ← calculate_reliability_score;
  '(maintainability_score, maint_details) ← calculate_maintainability_score;
  '(performance_score, perf_details) ← calculate_performance_score;
  wr ← lift (Num.fmul WEIGHT_RELIABILITY reliability_score);
  wm ← lift (Num.fmul WEIGHT_MAINTAINABILITY maintainability_score);
  wp ← lift (Num.fmul WEIGHT_PERFORMANCE performance_score);
  wrm ← lift (Num.add wr wm);
  wqs ← lift (Num.add wrm wp);
  rating ← _get_rating wqs;
  rating_color ← lift (Dict.subscript RATING_COLORS rating);
  rs2 ← lift (Fmt.fixed 2 reliability_score);
  ms2 ← lift (Fmt.fixed 2 maintainability_score);
  ps2 ← lift (Fmt.fixed 2 performance_score);
  wqs2 ← lift (Fmt.fixed 2 wqs);
  let details := Dict.of_list
    [ ("weighted_quality_score", wqs);
      ("rating", PStr rating);
      ("rating_color", PStr rating_color);
      ("weights", PDict (Dict.of_list
         [ ("reliability", PFloat WEIGHT_RELIABILITY);
           ("maintainability", PFloat WEIGHT_MAINTAINABILITY);
           ("performance", PFloat WEIGHT_PERFORMANCE) ]));
      ("scores", PDict (Dict.of_list
         [ ("reliability", reliability_score);
           ("maintainability", maintainability_score);
           ("performance", performance_score) ]));
      ("details", PDict (Dict.of_list
         [ ("reliability", PDict rel_details);
           ("maintainability", PDict maint_details);
           ("performance", PDict perf_details) ]));
      ("formula", PStr "WQS = (0.40 × RS) + (0.40 × MS) + (0.20 × PS)");
      ("standard", PStr "ISO/IEC 25010:2011, Section 4.1");
      ("calculation", PStr ("WQS = (0.40 × " +:+ rs2 +:+ ") + "
                            +:+ "(0.40 × " +:+ ms2 +:+ ") + "
                            +:+ "(0.20 × " +:+ ps2 +:+ ") = " +:+ wqs2)) ] in
  mret (wqs, details).

(** *** get_quality_metrics *)

(** The dataclass [QualityMetrics]. *)
Record QualityMetrics : Type := {
  reliability_score : pyval;
  maintainability_score : pyval;
  performance_score : pyval;
  weighted_quality_score : pyval;
  rating : pyval;
  rating_color : pyval
}.

Definition get_quality_metrics : Py QualityMetrics :=
  '(rs, _) ← calculate_reliability_score;
  '(ms, _) ← calculate_maintainability_score;
  '(ps, _) ← calculate_performance_score;
  '(wqs, details) ← calculate_weighted_quality_score;
  r ← lift (Dict.subscript details "rating");
  c ← lift (Dict.subscript details "rating_color");
  mret {| reliability_score := rs;
          maintainability_score := ms;
          performance_score := ps;
          weighted_quality_score := wqs;
          rating := r;
          rating_color := c |}.

(** *** get_rating_description *)
Definition descriptions : gmap string dict :=
  Dict.of_list
    [ ("A", Dict.of_list
        [ ("title", PStr "Excelente");
          ("description", PStr "Calidad Superior - El código cumple con los más altos estándares de calidad");
          ("recommendation", PStr "Mantener las buenas prácticas actuales");
          ("icon", PStr "🏆") ]);
      ("B", Dict.of_list
        [ ("title", PStr "Bueno");
          ("description", PStr "Calidad Alta - El código está bien estructurado con mejoras menores posibles");
          ("recommendation", PStr "Enfocarse en alcanzar cobertura completa y reducir fallos ocasionales");
          ("icon", PStr "✅") ]);
      ("C", Dict.of_list
        [ ("title", PStr "Aceptable");
          ("description", PStr "Calidad Media - El código es funcional pero requiere mejoras");
          ("recommendation", PStr "Aumentar cobertura de pruebas y reducir la densidad de fallos");
          ("icon", PStr "⚠️") ]);
      ("D", Dict.of_list
        [ ("title", PStr "Pobre");
          ("description", PStr "Necesita Mejora - El código presenta deficiencias significativas");
          ("recommendation", PStr "Priorizar refactorización y aumento de pruebas unitarias");
          ("icon", PStr "❌") ]);
      ("E", Dict.of_list
        [ ("title", PStr "Crítico");
          ("description", PStr "Requiere Atención Inmediata - La calidad es inaceptable");
          ("recommendation", PStr "Revisión completa del código y estrategia de testing urgente");
          ("icon", PStr "🚨") ]) ].

(** [descriptions.get(rating, descriptions['E'])]: the default is looked
    up first; a list or a dict is no dictionary key. *)
Definition get_rating_description (rating : pyval) : Py dict :=
  fallback ← lift (Dict.subscript descriptions "E");
  match rating with
  | PStr r => mret (default fallback (descriptions !! r))
  | PInt _ | PFloat _ => mret fallback
  | PList _ | PDict _ => lift (Raise TypeError)
  end.

End Calc.

(** ** The metrics of the tabs

    A status record [{'status': ..., 'color': ...}], as the three status
    functions write them. *)
Definition status_record (status color : string) : dict :=
  Dict.of_list [("status", PStr status); ("color", PStr color)].

(** ** MaintainabilityMetrics.get_testability_score *)

Module MaintainabilityMetrics.

Definition get_testability_score (jacoco_data : dict) : result pyval :=
  let line_cov := Dict.get jacoco_data "line_coverage" (PInt 0) in
  let branch_cov := Dict.get jacoco_data "branch_coverage" (PInt 0) in
  weighted_line ← Num.mul line_cov (PFloat 0.6);
  weighted_branch ← Num.mul branch_cov (PFloat 0.4);
  Num.add weighted_line weighted_branch.

Definition get_maintainability_status (testability_score : pyval) : result dict :=
  c ← Num.ge testability_score (PInt 80);
  if (c : bool) then Ok (status_record "Excelente" "success")
  else
    c ← Num.ge testability_score (PInt 70);
    if (c : bool) then Ok (status_record "Bueno" "info")
    else
      c ← Num.ge testability_score (PInt 60);
      if (c : bool) then Ok (status_record "Aceptable" "warning")
      else Ok (status_record "Pobre" "danger").

End MaintainabilityMetrics.

(** ** ReliabilityMetrics *)

Module ReliabilityMetrics.

Definition calculate_failure_density (junit_data : dict) : result pyval :=
  total ← Dict.subscript junit_data "total_tests";
  if Num.eq_int total 0 then Ok (PFloat 0.0)
  else
    f ← Dict.subscript junit_data "failures";
    e ← Dict.subscript junit_data "errors";
    failures ← Num.add f e;
    density ← Num.truediv failures total;
    Num.mul density (PInt 100).

Definition calculate_success_rate (junit_data : dict) : result pyval :=
  total ← Dict.subscript junit_data "total_tests";
  if Num.eq_int total 0 then Ok (PFloat 0.0)
  else
    passed ← Dict.subscript junit_data "passed";
    rate ← Num.truediv passed total;
    Num.mul rate (PInt 100).

Definition get_reliability_status (failure_density : pyval) : result dict :=
  c ← Num.lt failure_density (PInt 5);
  if (c : bool) then Ok (status_record "Excelente" "success")
  else
    c ← Num.lt failure_density (PInt 10);
    if (c : bool) then Ok (status_record "Bueno" "info")
    else
      c ← Num.lt failure_density (PInt 20);
      if (c : bool) then Ok (status_record "Aceptable" "warning")
      else Ok (status_record "Pobre" "danger").

End ReliabilityMetrics.

(** ** PerformanceMetrics *)

Module PerformanceMetrics.

Definition calculate_avg_test_time (junit_data : dict) : result pyval :=
  total_time ← Dict.subscript junit_data "execution_time";
  total_tests ← Dict.subscript junit_data "total_tests";
  if Num.eq_int total_tests 0 then Ok (PFloat 0.0)
  else Num.truediv total_time total_tests.

Definition get_performance_status (total_time total_tests : pyval) : result dict :=
  some_tests ← Num.gt total_tests (PInt 0);
  avg_time ← (if (some_tests : bool) then Num.truediv total_time total_tests
              else Ok (PInt 0));
  c ← Num.lt avg_time (PFloat 0.1);
  if (c : bool) then Ok (status_record "Excelente" "success")
  else
    c ← Num.lt avg_time (PFloat 0.5);
    if (c : bool) then Ok (status_record "Bueno" "info")
    else
      c ← Num.lt avg_time (PFloat 1.0);
      if (c : bool) then Ok (status_record "Aceptable" "warning")
      else Ok (status_record "Pobre" "danger").

End PerformanceMetrics.

(** ** JaCoCoParser._extract_counters

    The XML library is outside the program: the method is modelled on
    what it gets from it, the counter elements that
    [element.findall('.//counter')] returns, in document order, each one
    by its attributes, and [int] on an attribute value. *)

Module JaCoCoParser.

Section Counters.

(** [int(s)] on a string: the int it denotes, ValueError otherwise. *)
Variable int : string -> result Z.

(** A counter element: its attributes. *)
Definition element : Type := gmap string string.

(** [int(counter.get(name, 0))] *)
Definition int_attribute (counter : element) (name : string) : result Z :=
  match counter !! name with
  | Some s => int s
  | None => Ok 0
  end.

(** [counter_type == name]; [counter.get('type')] is None without the
    attribute, and equal to no string. *)
Definition type_is (counter : element) (name : string) : bool :=
  match counter !! "type" with
  | Some t => String.eqb t name
  | None => false
  end.

(** The body of the loop, on the dict built so far. *)
Definition count (counters : dict) (counter : element) : result dict :=
  missed ← int_attribute counter "missed";
  covered ← int_attribute counter "covered";
  let total := missed + covered in
  coverage ← (if 0 <? total
              then ratio ← Num.truediv (PInt covered) (PInt total);
                   Num.mul ratio (PInt 100)
              else Ok (PFloat 0.0));
  if type_is counter "LINE" then
    Ok (<["lines_total" := PInt total]>
        (<["lines_covered" := PInt covered]>
         (<["line_coverage" := coverage]> counters)))
  else if type_is counter "BRANCH" then
    Ok (<["branches_total" := PInt total]>
        (<["branches_covered" := PInt covered]>
         (<["branch_coverage" := coverage]> counters)))
  else if type_is counter "INSTRUCTION" then
    Ok (<["instruction_coverage" := coverage]> counters)
  else if type_is counter "COMPLEXITY" then
    Ok (<["complexity_coverage" := coverage]> counters)
  else Ok counters.

Definition _extract_counters (found : list element) : result dict :=
  foldl (fun acc counter => counters ← acc; count counters counter) (Ok ∅) found.

End Counters.

End JaCoCoParser.

(** ** QualityReportGenerator

    The generator holds a reference to one calculator, and its methods
    call that calculator's: they run in the same monad, over the
    calculator object. *)

Module Report.

Definition nl : string := String (Ascii.ascii_of_nat 10) EmptyString.
Definition dq_char : string := String (Ascii.ascii_of_nat 34) EmptyString.

(** The pieces of an f-string, evaluated from left to right. *)
Definition lit (s : string) : result string := Ok s.
Definition str_of (r : result pyval) : result string := v ← r; Fmt.str v.
Definition fixed_of (d : nat) (r : result pyval) : result string := v ← r; Fmt.fixed d v.
Definition times (ra rb : result pyval) : result pyval := a ← ra; b ← rb; Num.mul a b.
Definition get_of (r : result pyval) (key : string) (dflt : pyval) : result pyval :=
  v ← r; Dict.get_of v key dflt.

Fixpoint fstring (parts : list (result string)) : result string :=
  match parts with
  | [] => Ok ""
  | p :: rest => s ← p; t ← fstring rest; Ok (s +:+ t)
  end.

(** [sep.join(v)]: every item has to be a string.  The argument is the
    list of standards of the maintainability record, or the default []. *)
Fixpoint join_items (sep : string) (l : list pyval) : result string :=
  match l with
  | [] => Ok ""
  | [PStr s] => Ok s
  | PStr s :: rest => t ← join_items sep rest; Ok (s +:+ sep +:+ t)
  | _ :: _ => Raise TypeError
  end.

Definition join_of (sep : string) (r : result pyval) : result string :=
  v ← r;
  match v with
  | PList l => join_items sep l
  | _ => Raise TypeError
  end.

(** [key in v], for a detail record. *)
Definition has_key (r : result pyval) (key : string) : result bool :=
  v ← r;
  match v with
  | PDict d => Ok (Dict.contains d key)
  | _ => Raise TypeError
  end.

(** [report.append(line)] *)
Definition append (report : list string) (line : result string) : result (list string) :=
  s ← line; Ok (report ++ [s])%list.

Definition rule (c : string) : result string :=
  str_of (Num.mul (PStr c) (PInt 70)).

(** *** generate_text_report *)
Definition generate_text_report : Py string :=
  '(wqs, details) ← Calc.calculate_weighted_quality_score;
  rating ← lift (Dict.subscript details "rating");
  rating_info ← Calc.get_rating_description rating;
  let info := Dict.subscript rating_info in
  let field := Dict.path (PDict details) in
  lift (
    let report := [] in
    report ← append report (rule "=");
    report ← append report (lit "REPORTE DE CALIDAD DE SOFTWARE");
    report ← append report (lit "Basado en Estándares IEEE/ISO");
    report ← append report (rule "=");
    report ← append report (lit "");
    report ← append report (fstring
      [ lit "CALIFICACIÓN GENERAL: "; str_of (info "icon"); lit " "; str_of (Ok rating);
        lit " - "; str_of (info "title") ]);
    report ← append report (fstring [ lit "Puntuación WQS: "; fixed_of 2 (Ok wqs); lit "/100" ]);
    report ← append report (lit "");
    report ← append report (fstring [ lit "Descripción: "; str_of (info "description") ]);
    report ← append report (fstring [ lit "Recomendación: "; str_of (info "recommendation") ]);
    report ← append report (lit "");
    report ← append report (rule "-");
    report ← append report (lit "1. FIABILIDAD (Reliability) - 40% del score total");
    report ← append report (fstring
      [ lit "   Estándar: "; str_of (field ["details"; "reliability"; "standard"]) ]);
    report ← append report (fstring
      [ lit "   Puntuación: "; fixed_of 2 (field ["scores"; "reliability"]); lit "/100" ]);
    report ← append report (fstring
      [ lit "   Fórmula: "; str_of (field ["details"; "reliability"; "formula"]) ]);
    report ← append report (fstring
      [ lit "   Cálculo: "; str_of (field ["details"; "reliability"; "calculation"]) ]);
    has_fd ← has_key (field ["details"; "reliability"]) "fault_density";
    report ←
      (if (has_fd : bool) then
         fd ← field ["details"; "reliability"; "fault_density"];
         append report (fstring [ lit "   Densidad de Fallos: "; fixed_of 2 (Ok fd); lit "%" ])
       else Ok report);
    report ← append report (lit "");
    report ← append report (lit "2. MANTENIBILIDAD (Maintainability) - 40% del score total");
    maint_standards ← get_of (field ["details"; "maintainability"]) "standards" (PList []);
    report ← append report (fstring
      [ lit "   Estándares: "; join_of ", " (Ok maint_standards) ]);
    report ← append report (fstring
      [ lit "   Puntuación: "; fixed_of 2 (field ["scores"; "maintainability"]); lit "/100" ]);
    report ← append report (fstring
      [ lit "   Fórmula: "; str_of (field ["details"; "maintainability"; "formula"]) ]);
    report ← append report (fstring
      [ lit "   Cálculo: "; str_of (field ["details"; "maintainability"; "calculation"]) ]);
    report ← append report (lit "");
    report ← append report (lit "3. EFICIENCIA DEL DESEMPEÑO (Performance) - 20% del score total");
    report ← append report (fstring
      [ lit "   Estándar: "; str_of (field ["details"; "performance"; "standard"]) ]);
    report ← append report (fstring
      [ lit "   Puntuación: "; fixed_of 2 (field ["scores"; "performance"]); lit "/100" ]);
    report ← append report (fstring
      [ lit "   Fórmula: "; str_of (field ["details"; "performance"; "formula"]) ]);
    report ← append report (fstring
      [ lit "   Cálculo: "; str_of (field ["details"; "performance"; "calculation"]) ]);
    report ← append report (lit "");
    report ← append report (rule "-");
    report ← append report (lit "CÁLCULO FINAL");
    report ← append report (fstring [ lit "Fórmula: "; str_of (field ["formula"]) ]);
    report ← append report (fstring [ lit "Cálculo: "; str_of (field ["calculation"]) ]);
    report ← append report (lit "");
    report ← append report (lit "PONDERACIÓN (según ISO/IEC 25010:2011)");
    report ← append report (fstring
      [ lit "  • Fiabilidad: ";
        str_of (times (field ["weights"; "reliability"]) (Ok (PInt 100))); lit "%" ]);
    report ← append report (fstring
      [ lit "  • Mantenibilidad: ";
        str_of (times (field ["weights"; "maintainability"]) (Ok (PInt 100))); lit "%" ]);
    report ← append report (fstring
      [ lit "  • Eficiencia: ";
        str_of (times (field ["weights"; "performance"]) (Ok (PInt 100))); lit "%" ]);
    report ← append report (rule "=");
    Ok (String.concat nl report)).

(** *** generate_html_report *)
Definition generate_html_report : Py string :=
  '(wqs, details) ← Calc.calculate_weighted_quality_score;
  rating ← lift (Dict.subscript details "rating");
  rating_info ← Calc.get_rating_description rating;
  color ← lift (Dict.subscript details "rating_color");
  let info := Dict.subscript rating_info in
  let field := Dict.path (PDict details) in
  let nl := lit nl in
  let dq := lit dq_char in
  lift (fstring
    [
      nl;
      lit "        <!DOCTYPE html>"; nl;
      lit "        <html>"; nl;
      lit "        <head>"; nl;
      lit "            <meta charset="; dq; lit "UTF-8"; dq; lit ">"; nl;
      lit "            <title>Reporte de Calidad de Software</title>"; nl;
      lit "            <style>"; nl;
      lit "                body { font-family: Arial, sans-serif; margin: 40px; }";
      nl;
      lit "                .header { text-align: center; background: #0d6efd; color: white; padding: 20px; }";
      nl;
      lit "                .rating { text-align: center; margin: 30px 0; }"; nl;
      lit "                .rating-badge { "; nl;
      lit "                    display: inline-block;"; nl;
      lit "                    font-size: 72px;"; nl;
      lit "                    font-weight: bold;"; nl;
      lit "                    color: "; str_of (Ok color); lit ";"; nl;
      lit "                    border: 5px solid "; str_of (Ok color); lit ";";
      nl;
      lit "                    border-radius: 50%;"; nl;
      lit "                    width: 150px;"; nl;
      lit "                    height: 150px;"; nl;
      lit "                    line-height: 150px;"; nl;
      lit "                }"; nl;
      lit "                .score { font-size: 24px; color: #666; margin: 10px 0; }";
      nl;
      lit "                .section { margin: 30px 0; padding: 20px; background: #f8f9fa; border-left: 4px solid #0d6efd; }";
      nl;
      lit "                .metric { margin: 15px 0; }"; nl;
      lit "                .formula { background: #e9ecef; padding: 10px; font-family: monospace; }";
      nl;
      lit "                table { width: 100%; border-collapse: collapse; margin: 20px 0; }";
      nl;
      lit "                th, td { padding: 12px; text-align: left; border-bottom: 1px solid #ddd; }";
      nl;
      lit "                th { background: #0d6efd; color: white; }"; nl;
      lit "            </style>"; nl;
      lit "        </head>"; nl;
      lit "        <body>"; nl;
      lit "            <div class="; dq; lit "header"; dq; lit ">"; nl;
      lit "                <h1>REPORTE DE CALIDAD DE SOFTWARE</h1>"; nl;
      lit "                <p>Basado en Estándares IEEE/ISO</p>"; nl;
      lit "            </div>"; nl;
      lit "            "; nl;
      lit "            <div class="; dq; lit "rating"; dq; lit ">"; nl;
      lit "                <div class="; dq; lit "rating-badge"; dq; lit ">"; str_of (Ok rating);
      lit "</div>"; nl;
      lit "                <h2>"; str_of (info "title"); lit "</h2>"; nl;
      lit "                <div class="; dq; lit "score"; dq; lit ">Puntuación WQS: ";
      fixed_of 2 (Ok wqs); lit "/100</div>"; nl;
      lit "                <p><strong>"; str_of (info "description"); lit "</strong></p>";
      nl;
      lit "                <p>Recomendación: "; str_of (info "recommendation");
      lit "</p>"; nl;
      lit "            </div>"; nl;
      lit "            "; nl;
      lit "            <div class="; dq; lit "section"; dq; lit ">"; nl;
      lit "                <h3>🛡️ 1. FIABILIDAD (Reliability) - 40%</h3>"; nl;
      lit "                <div class="; dq; lit "metric"; dq; lit ">"; nl;
      lit "                    <strong>Estándar:</strong> "; str_of (field ["details"; "reliability"; "standard"]);
      lit "<br>"; nl;
      lit "                    <strong>Puntuación:</strong> "; fixed_of 2 (field ["scores"; "reliability"]);
      lit "/100"; nl;
      lit "                </div>"; nl;
      lit "                <div class="; dq; lit "formula"; dq; lit ">"; nl;
      lit "                    <strong>Fórmula:</strong> "; str_of (field ["details"; "reliability"; "formula"]);
      lit "<br>"; nl;
      lit "                    <strong>Cálculo:</strong> "; str_of (field ["details"; "reliability"; "calculation"]);
      nl;
      lit "                </div>"; nl;
      lit "            </div>"; nl;
      lit "            "; nl;
      lit "            <div class="; dq; lit "section"; dq; lit ">"; nl;
      lit "                <h3>⚙️ 2. MANTENIBILIDAD (Maintainability) - 40%</h3>";
      nl;
      lit "                <div class="; dq; lit "metric"; dq; lit ">"; nl;
      lit "                    <strong>Estándares:</strong> "; join_of ", " (get_of (field ["details"; "maintainability"]) "standards" (PList []));
      lit "<br>"; nl;
      lit "                    <strong>Puntuación:</strong> "; fixed_of 2 (field ["scores"; "maintainability"]);
      lit "/100"; nl;
      lit "                </div>"; nl;
      lit "                <div class="; dq; lit "formula"; dq; lit ">"; nl;
      lit "                    <strong>Fórmula:</strong> "; str_of (field ["details"; "maintainability"; "formula"]);
      lit "<br>"; nl;
      lit "                    <strong>Cálculo:</strong> "; str_of (field ["details"; "maintainability"; "calculation"]);
      nl;
      lit "                </div>"; nl;
      lit "            </div>"; nl;
      lit "            "; nl;
      lit "            <div class="; dq; lit "section"; dq; lit ">"; nl;
      lit "                <h3>⏱️ 3. EFICIENCIA DEL DESEMPEÑO (Performance) - 20%</h3>";
      nl;
      lit "                <div class="; dq; lit "metric"; dq; lit ">"; nl;
      lit "                    <strong>Estándar:</strong> "; str_of (field ["details"; "performance"; "standard"]);
      lit "<br>"; nl;
      lit "                    <strong>Puntuación:</strong> "; fixed_of 2 (field ["scores"; "performance"]);
      lit "/100"; nl;
      lit "                </div>"; nl;
      lit "                <div class="; dq; lit "formula"; dq; lit ">"; nl;
      lit "                    <strong>Fórmula:</strong> "; str_of (field ["details"; "performance"; "formula"]);
      lit "<br>"; nl;
      lit "                    <strong>Cálculo:</strong> "; str_of (field ["details"; "performance"; "calculation"]);
      nl;
      lit "                </div>"; nl;
      lit "            </div>"; nl;
      lit "            "; nl;
      lit "            <div class="; dq; lit "section"; dq; lit ">"; nl;
      lit "                <h3>📊 CÁLCULO FINAL</h3>"; nl;
      lit "                <div class="; dq; lit "formula"; dq; lit ">"; nl;
      lit "                    <strong>Fórmula:</strong> "; str_of (field ["formula"]);
      lit "<br>"; nl;
      lit "                    <strong>Cálculo:</strong> "; str_of (field ["calculation"]);
      nl;
      lit "                </div>"; nl;
      lit "                "; nl;
      lit "                <h4>Ponderación (según ISO/IEC 25010:2011)</h4>"; nl;
      lit "                <table>"; nl;
      lit "                    <tr>"; nl;
      lit "                        <th>Característica</th>"; nl;
      lit "                        <th>Peso</th>"; nl;
      lit "                        <th>Puntuación</th>"; nl;
      lit "                        <th>Contribución</th>"; nl;
      lit "                    </tr>"; nl;
      lit "                    <tr>"; nl;
      lit "                        <td>Fiabilidad</td>"; nl;
      lit "                        <td>"; fixed_of 0 (times (field ["weights"; "reliability"]) (Ok (PInt 100)));
      lit "%</td>"; nl;
      lit "                        <td>"; fixed_of 2 (field ["scores"; "reliability"]);
      lit "</td>"; nl;
      lit "                        <td>"; fixed_of 2 (times (field ["weights"; "reliability"]) (field ["scores"; "reliability"]));
      lit "</td>"; nl;
      lit "                    </tr>"; nl;
      lit "                    <tr>"; nl;
      lit "                        <td>Mantenibilidad</td>"; nl;
      lit "                        <td>"; fixed_of 0 (times (field ["weights"; "maintainability"]) (Ok (PInt 100)));
      lit "%</td>"; nl;
      lit "                        <td>"; fixed_of 2 (field ["scores"; "maintainability"]);
      lit "</td>"; nl;
      lit "                        <td>"; fixed_of 2 (times (field ["weights"; "maintainability"]) (field ["scores"; "maintainability"]));
      lit "</td>"; nl;
      lit "                    </tr>"; nl;
      lit "                    <tr>"; nl;
      lit "                        <td>Eficiencia</td>"; nl;
      lit "                        <td>"; fixed_of 0 (times (field ["weights"; "performance"]) (Ok (PInt 100)));
      lit "%</td>"; nl;
      lit "                        <td>"; fixed_of 2 (field ["scores"; "performance"]);
      lit "</td>"; nl;
      lit "                        <td>"; fixed_of 2 (times (field ["weights"; "performance"]) (field ["scores"; "performance"]));
      lit "</td>"; nl;
      lit "                    </tr>"; nl;
      lit "                    <tr style="; dq; lit "background: #e9ecef; font-weight: bold;";
      dq; lit ">"; nl;
      lit "                        <td>TOTAL</td>"; nl;
      lit "                        <td>100%</td>"; nl;
      lit "                        <td>-</td>"; nl;
      lit "                        <td>"; fixed_of 2 (Ok wqs); lit "</td>"; nl;
      lit "                    </tr>"; nl;
      lit "                </table>"; nl;
      lit "            </div>"; nl;
      lit "        </body>"; nl;
      lit "        </html>"; nl;
      lit "        "
    ]).

End Report.

(** ** The dashboard window: the colour of a status *)

Module QualityDashboard.

Definition color_map : gmap string string :=
  Dict.of_list
    [ ("success", "#28a745");
      ("info", "#17a2b8");
      ("warning", "#ffc107");
      ("danger", "#dc3545");
      ("primary", "#0d6efd") ].

(** [color_map.get(status_color, '#6c757d')]: a list or a dict is no
    dictionary key, a number is a key the map does not have. *)
Definition _get_status_color (status_color : pyval) : result string :=
  match status_color with
  | PStr c => Ok (default "#6c757d" (color_map !! c))
  | PInt _ | PFloat _ => Ok "#6c757d"
  | PList _ | PDict _ => Raise TypeError
  end.

End QualityDashboard.

(** * Facts about binary64 arithmetic *)

(** ** Binary64 rounding, as SpecFloat defines it *)

Module Round.

Abbreviation fexp := (SpecFloat.fexp prec emax).
Abbreviation round_aux := (binary_round_aux prec emax).

Lemma fexp_eq (k : Z) : fexp k = Z.max (k - 53) (-1074).
Proof. reflexivity. Qed.

(** *** Number of binary digits *)

Lemma digits2_log2 (p : positive) : Zpos (digits2_pos p) = Z.log2 (Zpos p) + 1.
Proof.
  induction p as [p IH|p IH|]; cbn [digits2_pos]; rewrite ?Pos2Z.inj_succ, ?IH.
  - rewrite Pos2Z.inj_xI, Z.log2_succ_double by lia. lia.
  - rewrite Pos2Z.inj_xO, Z.log2_double by lia. lia.
  - reflexivity.
Qed.

Lemma Zdigits2_log2 (m : Z) : 0 < m -> Zdigits2 m = Z.log2 m + 1.
Proof. destruct m; try lia. intros _. apply digits2_log2. Qed.

Lemma Zdigits2_nonneg (m : Z) : 0 <= Zdigits2 m.
Proof. destruct m; cbn; lia. Qed.

Lemma Zdigits2_bounds (m : Z) : 0 < m -> 2 ^ (Zdigits2 m - 1) <= m < 2 ^ Zdigits2 m.
Proof.
  intros H. rewrite (Zdigits2_log2 m H).
  replace (Z.log2 m + 1 - 1) with (Z.log2 m) by lia.
  replace (Z.log2 m + 1) with (Z.succ (Z.log2 m)) by lia.
  apply Z.log2_spec. exact H.
Qed.

Lemma Zdigits2_unique (m d : Z) : 2 ^ (d - 1) <= m < 2 ^ d -> 0 < d -> Zdigits2 m = d.
Proof.
  intros H Hd.
  assert (0 < m) by (assert (0 < 2 ^ (d - 1)) by (apply Z.pow_pos_nonneg; lia); lia).
  rewrite (Zdigits2_log2 m) by assumption.
  rewrite (Z.log2_unique m (d - 1)); [lia|lia|].
  replace (Z.succ (d - 1)) with d by lia. exact H.
Qed.

Lemma Zdigits2_le (a b : Z) : 0 <= a <= b -> Zdigits2 a <= Zdigits2 b.
Proof.
  intros [Ha Hab].
  destruct (Z.eq_dec a 0) as [->|Hn]; [apply Zdigits2_nonneg|].
  rewrite !Zdigits2_log2 by lia.
  pose proof (Z.log2_le_mono a b Hab). lia.
Qed.

(** Digits lost by dropping [n] low bits. *)
Lemma Zdigits2_div_pow2 (m n : Z) :
  0 <= m -> 0 <= n -> Zdigits2 (m / 2 ^ n) = Z.max 0 (Zdigits2 m - n).
Proof.
  intros Hm Hn.
  destruct (Z.eq_dec m 0) as [->|Hm0].
  { rewrite Z.div_0_l by (apply Z.pow_nonzero; lia). cbn. lia. }
  pose proof (Zdigits2_bounds m ltac:(lia)) as [Hlo Hhi].
  pose proof (Zdigits2_nonneg m) as Hd.
  destruct (Z_lt_le_dec n (Zdigits2 m)) as [Hlt|Hge].
  - rewrite Z.max_r by lia.
    apply Zdigits2_unique; [|lia].
    assert (E1 : 2 ^ (Zdigits2 m - 1) = 2 ^ (Zdigits2 m - n - 1) * 2 ^ n)
      by (rewrite <- Z.pow_add_r by lia; f_equal; lia).
    assert (E2 : 2 ^ Zdigits2 m = 2 ^ (Zdigits2 m - n) * 2 ^ n)
      by (rewrite <- Z.pow_add_r by lia; f_equal; lia).
    assert (0 < 2 ^ n) by (apply Z.pow_pos_nonneg; lia).
    split.
    + apply Z.div_le_lower_bound; [lia|]. rewrite Z.mul_comm. lia.
    + apply Z.div_lt_upper_bound; [lia|]. rewrite Z.mul_comm. lia.
  - rewrite Z.max_l by lia.
    rewrite Z.div_small; [reflexivity|].
    split; [lia|].
    apply Z.lt_le_trans with (1 := Hhi). apply Z.pow_le_mono_r; lia.
Qed.

(** Digits gained by adding one. *)
Lemma Zdigits2_succ (m : Z) :
  0 <= m ->
  Zdigits2 (m + 1) = Zdigits2 m \/
  (Zdigits2 (m + 1) = Zdigits2 m + 1 /\ m + 1 = 2 ^ Zdigits2 m).
Proof.
  intros Hm.
  destruct (Z.eq_dec m 0) as [->|Hm0]; [right; cbn; split; reflexivity|].
  pose proof (Zdigits2_bounds m ltac:(lia)) as [Hlo Hhi].
  pose proof (Zdigits2_nonneg m) as Hd.
  assert (0 < Zdigits2 m) by (rewrite Zdigits2_log2 by lia; pose proof (Z.log2_nonneg m); lia).
  destruct (Z.eq_dec (m + 1) (2 ^ Zdigits2 m)) as [E|NE].
  - right. split; [|exact E].
    apply Zdigits2_unique; [|lia].
    replace (Zdigits2 m + 1 - 1) with (Zdigits2 m) by lia.
    rewrite Z.pow_add_r by lia. lia.
  - left. apply Zdigits2_unique; lia.
Qed.

(** *** Shifting right *)

Lemma iter_pos_nat {A : Type} (f : A -> A) (p : positive) (x : A) :
  SpecFloat.iter_pos f p x = Nat.iter (Pos.to_nat p) f x.
Proof.
  revert x. induction p as [p IH|p IH|]; intros x; cbn [SpecFloat.iter_pos].
  - rewrite !IH, Pos2Nat.inj_xI.
    replace (S (2 * Pos.to_nat p)) with (Pos.to_nat p + (Pos.to_nat p + 1))%nat by lia.
    rewrite !Nat.iter_add. reflexivity.
  - rewrite !IH, Pos2Nat.inj_xO.
    replace (2 * Pos.to_nat p)%nat with (Pos.to_nat p + Pos.to_nat p)%nat by lia.
    rewrite Nat.iter_add. reflexivity.
  - reflexivity.
Qed.

Lemma shr_1_m (r : shr_record) : 0 <= shr_m r -> shr_m (shr_1 r) = shr_m r / 2.
Proof.
  destruct r as [m rb sb]. cbn [shr_m].
  destruct m as [|[p|p|]|p]; intros H; cbn [shr_1 shr_m]; try lia.
  - reflexivity.
  - apply Z.div_unique with (r := 1); lia.
  - apply Z.div_unique with (r := 0); lia.
  - reflexivity.
Qed.

Lemma shr_iter_m (k : nat) (r : shr_record) :
  0 <= shr_m r -> shr_m (Nat.iter k shr_1 r) = shr_m r / 2 ^ Z.of_nat k.
Proof.
  intros H. induction k as [|k IH].
  - cbn. rewrite Z.div_1_r. reflexivity.
  - change (Nat.iter (S k) shr_1 r) with (shr_1 (Nat.iter k shr_1 r)). rewrite shr_1_m.
    + rewrite IH. rewrite Z.div_div by (try apply Z.pow_pos_nonneg; lia).
      f_equal. rewrite Nat2Z.inj_succ, Z.pow_succ_r by lia. lia.
    + rewrite IH. apply Z.div_pos; [lia|apply Z.pow_pos_nonneg; lia].
Qed.

(** The mantissa and the exponent [shr_fexp] leaves. *)
Lemma shr_fexp_m (m e : Z) (l : location) :
  0 <= m ->
  let n := Z.max 0 (fexp (Zdigits2 m + e) - e) in
  shr_m (fst (shr_fexp prec emax m e l)) = m / 2 ^ n /\
  snd (shr_fexp prec emax m e l) = e + n.
Proof.
  intros Hm n. unfold shr_fexp, shr.
  assert (Hrec : shr_m (shr_record_of_loc m l) = m) by (destruct l as [|[]]; reflexivity).
  subst n. destruct (fexp (Zdigits2 m + e) - e) as [|p|p] eqn:E.
  - cbn [fst snd Z.max]. rewrite Hrec. cbn. rewrite Z.div_1_r. lia.
  - cbn [fst snd]. rewrite iter_pos_nat, shr_iter_m by lia.
    rewrite Hrec, positive_nat_Z. rewrite Z.max_r by lia. split; reflexivity.
  - cbn [fst snd]. rewrite Hrec. rewrite Z.max_l by lia. cbn. rewrite Z.div_1_r. lia.
Qed.

Lemma round_nearest_even_cases (m : Z) (l : location) :
  round_nearest_even m l = m \/ round_nearest_even m l = m + 1.
Proof. destruct l as [|[]]; cbn; try destruct (Z.even m); auto. Qed.

(** *** Shape and validity of a rounded result *)

(** A result that is not NaN and has the sign [s]. *)
Definition signed (s : bool) (x : spec_float) : Prop :=
  match x with
  | S754_zero s' | S754_infinity s' | S754_finite s' _ _ => s' = s
  | S754_nan => False
  end.

Lemma round_aux_signed (s : bool) (m e : Z) (l : location) :
  0 <= m -> signed s (round_aux s m e l).
Proof.
  intros Hm. unfold binary_round_aux.
  pose proof (shr_fexp_m m e l Hm) as [H1 _].
  destruct (shr_fexp prec emax m e l) as [r1 e1]. cbn [fst snd] in H1.
  set (m2 := round_nearest_even (shr_m r1) (loc_of_shr_record r1)).
  assert (H2 : 0 <= m2).
  { assert (0 <= shr_m r1) by (rewrite H1; apply Z.div_pos; [lia|apply Z.pow_pos_nonneg; lia]).
    destruct (round_nearest_even_cases (shr_m r1) (loc_of_shr_record r1)) as [E|E];
      unfold m2; rewrite E; lia. }
  pose proof (shr_fexp_m m2 e1 loc_Exact H2) as [H3 _].
  destruct (shr_fexp prec emax m2 e1 loc_Exact) as [r2 e2]. cbn [fst snd] in H3.
  assert (0 <= shr_m r2) by (rewrite H3; apply Z.div_pos; [lia|apply Z.pow_pos_nonneg; lia]).
  destruct (shr_m r2) as [|p|p].
  - reflexivity.
  - destruct (e2 <=? emax - prec); reflexivity.
  - lia.
Qed.

Lemma fexp_step (k : Z) : fexp (k + 1) = fexp k \/ fexp (k + 1) = fexp k + 1.
Proof. rewrite !fexp_eq. lia. Qed.

(** With enough digits to start from, the result is a valid double. *)
Lemma round_aux_valid (s : bool) (m e : Z) (l : location) :
  0 <= m -> e <= fexp (Zdigits2 m + e) ->
  SpecFloat.valid_binary prec emax (round_aux s m e l) = true.
Proof.
  intros Hm He. unfold binary_round_aux.
  pose proof (shr_fexp_m m e l Hm) as [H1 H1e].
  destruct (shr_fexp prec emax m e l) as [r1 e1]. cbn [fst snd] in H1, H1e.
  rewrite Z.max_r in H1, H1e by lia.
  replace (e + (fexp (Zdigits2 m + e) - e)) with (fexp (Zdigits2 m + e)) in H1e by lia.
  set (n := fexp (Zdigits2 m + e) - e) in *.
  set (m1 := shr_m r1) in *.
  assert (Hm1 : 0 <= m1) by (rewrite H1; apply Z.div_pos; [lia|apply Z.pow_pos_nonneg; lia]).
  assert (Hd1 : Zdigits2 m1 = Z.max 0 (Zdigits2 m - n))
    by (rewrite H1; apply Zdigits2_div_pow2; lia).
  (* the first stage is canonical, or it is zero at the least exponent *)
  assert (Hcan : (0 < m1 /\ fexp (Zdigits2 m1 + e1) = e1) \/ (m1 = 0 /\ e1 = -1074)).
  { destruct (Z.eq_dec m1 0) as [E0|N0].
    - right. split; [exact E0|]. rewrite E0 in Hd1. cbn in Hd1.
      assert (Zdigits2 m - n <= 0) by lia.
      rewrite H1e. rewrite fexp_eq in *. unfold n in *. rewrite fexp_eq in *. lia.
    - left. split; [lia|].
      assert (0 < Zdigits2 m1) by (rewrite Zdigits2_log2 by lia; pose proof (Z.log2_nonneg m1); lia).
      rewrite Hd1, Z.max_r by lia. rewrite H1e at 1. unfold n.
      replace (Zdigits2 m - (fexp (Zdigits2 m + e) - e) + fexp (Zdigits2 m + e))
        with (Zdigits2 m + e) by lia. symmetry. exact H1e. }
  set (m2 := round_nearest_even m1 (loc_of_shr_record r1)).
  assert (H2 : 0 <= m2)
    by (destruct (round_nearest_even_cases m1 (loc_of_shr_record r1)) as [E|E];
        unfold m2; rewrite E; lia).
  pose proof (shr_fexp_m m2 e1 loc_Exact H2) as [H3 H3e].
  destruct (shr_fexp prec emax m2 e1 loc_Exact) as [r2 e2]. cbn [fst snd] in H3, H3e.
  assert (Hfin : forall p, shr_m r2 = Zpos p -> fexp (Zdigits2 (Zpos p) + e2) = e2).
  { intros p Hp. rewrite <- Hp. rewrite H3, H3e.
    set (n2 := Z.max 0 (fexp (Zdigits2 m2 + e1) - e1)).
    rewrite Zdigits2_div_pow2 by lia.
    assert (Hpos2 : 0 < m2 / 2 ^ n2) by (unfold n2; rewrite <- H3, Hp; lia).
    assert (0 < m2).
    { destruct (Z.eq_dec m2 0) as [E|]; [|lia].
      rewrite E, Z.div_0_l in Hpos2 by (apply Z.pow_nonzero; lia). lia. }
    assert (Hd2 : 0 < Zdigits2 (m2 / 2 ^ n2))
      by (rewrite Zdigits2_log2 by lia; pose proof (Z.log2_nonneg (m2 / 2 ^ n2)); lia).
    rewrite Zdigits2_div_pow2 in Hd2 by lia.
    rewrite Z.max_r by lia.
    replace (Zdigits2 m2 - n2 + (e1 + n2)) with (Zdigits2 m2 + e1) by lia.
    assert (Hn2 : 0 <= fexp (Zdigits2 m2 + e1) - e1); [|unfold n2; lia].
    destruct (round_nearest_even_cases m1 (loc_of_shr_record r1)) as [E|E];
      fold m2 in E; rewrite E.
    - destruct Hcan as [[_ Hc]|[Hc _]]; [lia|lia].
    - destruct Hcan as [[Hp1 Hc]|[Hc0 Hce]].
      + destruct (Zdigits2_succ m1 Hm1) as [Ed|[Ed _]]; rewrite Ed; [lia|].
        replace (Zdigits2 m1 + 1 + e1) with (Zdigits2 m1 + e1 + 1) by lia.
        destruct (fexp_step (Zdigits2 m1 + e1)); lia.
      + rewrite Hc0, Hce. vm_compute. discriminate. }
  destruct (shr_m r2) as [|p|p] eqn:Er2; [reflexivity| |reflexivity].
  destruct (e2 <=? emax - prec) eqn:Eb; [|reflexivity].
  cbn [SpecFloat.valid_binary]. unfold bounded, canonical_mantissa.
  rewrite Eb, andb_true_r. apply Z.eqb_eq. exact (Hfin p eq_refl).
Qed.

(** *** [binary_round] and [binary_normalize] *)

Lemma shift_pos_pow (m d : positive) : Zpos (Pos.iter xO m d) = Zpos m * 2 ^ Zpos d.
Proof.
  change (Pos.iter xO m d) with (shift_pos d m).
  rewrite shift_pos_correct, Zpower_pos_nat, Zpower_nat_Z, positive_nat_Z. lia.
Qed.

Lemma Zdigits2_mul_pow2 (m d : Z) : 0 < m -> 0 <= d -> Zdigits2 (m * 2 ^ d) = Zdigits2 m + d.
Proof.
  intros Hm Hd.
  pose proof (Zdigits2_bounds m Hm) as [Hlo Hhi].
  assert (0 < Zdigits2 m) by (rewrite Zdigits2_log2 by lia; pose proof (Z.log2_nonneg m); lia).
  assert (0 < 2 ^ d) by (apply Z.pow_pos_nonneg; lia).
  apply Zdigits2_unique; [|lia].
  replace (Zdigits2 m + d - 1) with (Zdigits2 m - 1 + d) by lia.
  rewrite !Z.pow_add_r by lia. nia.
Qed.

(** [shl_align] keeps the value and leaves enough digits. *)
Lemma shl_align_spec (m : positive) (e : Z) :
  let '(mz, ez) := shl_align m e (fexp (Zpos (digits2_pos m) + e)) in
  ez <= e /\ Zpos mz = Zpos m * 2 ^ (e - ez) /\ ez <= fexp (Zdigits2 (Zpos mz) + ez).
Proof.
  unfold shl_align.
  destruct (fexp (Zpos (digits2_pos m) + e) - e) as [|p|p] eqn:E.
  - split; [lia|]. split; [rewrite Z.sub_diag; cbn; lia|]. cbn [Zdigits2]. lia.
  - split; [lia|]. split; [rewrite Z.sub_diag; cbn; lia|]. cbn [Zdigits2]. lia.
  - split; [lia|]. split.
    + rewrite shift_pos_pow. f_equal. f_equal. lia.
    + rewrite shift_pos_pow, Zdigits2_mul_pow2 by lia. cbn [Zdigits2].
      replace (Zpos (digits2_pos m) + Zpos p + fexp (Zpos (digits2_pos m) + e))
        with (Zpos (digits2_pos m) + e) by lia. lia.
Qed.

Lemma binary_round_valid (s : bool) (m : positive) (e : Z) :
  SpecFloat.valid_binary prec emax (binary_round prec emax s m e) = true.
Proof.
  unfold binary_round. pose proof (shl_align_spec m e) as H.
  destruct (shl_align m e _) as [mz ez]. destruct H as (_ & _ & H).
  apply round_aux_valid; [lia|exact H].
Qed.

Lemma binary_round_signed (s : bool) (m : positive) (e : Z) :
  signed s (binary_round prec emax s m e).
Proof.
  unfold binary_round. destruct (shl_align m e _) as [mz ez].
  apply round_aux_signed. lia.
Qed.

Lemma binary_normalize_valid (z e : Z) (s : bool) :
  SpecFloat.valid_binary prec emax (binary_normalize prec emax z e s) = true.
Proof. destruct z; [reflexivity|apply binary_round_valid..]. Qed.

End Round.

(** ** Doubles through their specification *)

Module Flt.
Import Round.

(** The double is not NaN and its sign bit is clear. *)
Definition nonneg (x : float) : Prop := signed false (Prim2SF x).

(** The double is a positive number or plus infinity. *)
Definition is_pos (x : spec_float) : Prop :=
  match x with
  | S754_finite false _ _ | S754_infinity false => True
  | _ => False
  end.

Lemma float_compare_spec (x y : float) :
  Num.float_compare x y = SFcompare (Prim2SF x) (Prim2SF y).
Proof.
  unfold Num.float_compare. rewrite FloatAxioms.compare_spec.
  destruct (SFcompare (Prim2SF x) (Prim2SF y)) as [[]|]; reflexivity.
Qed.

Lemma leb_compare (x y : float) :
  (x <=? y)%float = match Num.float_compare x y with
                    | Some Lt | Some Eq => true
                    | _ => false
                    end.
Proof. rewrite FloatAxioms.leb_spec, float_compare_spec. reflexivity. Qed.

(** Two doubles that are not NaN compare; one above a double that is not
    negative is positive. *)
Lemma compare_nonneg_defined (x y : float) :
  nonneg x -> nonneg y -> Num.float_compare x y <> None.
Proof.
  unfold nonneg. rewrite float_compare_spec.
  destruct (Prim2SF x) as [sx|sx| |sx mx ex], (Prim2SF y) as [sy|sy| |sy my ey];
    cbn [signed]; intros Hx Hy; try contradiction; unfold SFcompare; discriminate.
Qed.

Lemma above_nonneg_pos (x y : float) :
  nonneg x -> nonneg y -> Num.float_compare x y = Some Gt -> is_pos (Prim2SF x).
Proof.
  unfold nonneg. rewrite float_compare_spec.
  destruct (Prim2SF x) as [sx|sx| |sx mx ex], (Prim2SF y) as [sy|sy| |sy my ey];
    cbn [signed is_pos]; intros Hx Hy; try contradiction; subst; try exact (fun _ => I);
    unfold SFcompare; discriminate.
Qed.

Lemma Prim2SF_zero : Prim2SF 0 = S754_zero false.
Proof. reflexivity. Qed.

Lemma pos_of_ltb (t : float) : (0 <? t)%float = true -> is_pos (Prim2SF t).
Proof.
  rewrite FloatAxioms.ltb_spec, Prim2SF_zero. unfold SFltb.
  destruct (Prim2SF t) as [s|[]| |[] m e]; cbn; try discriminate; auto.
Qed.

Lemma pos_nonneg (x : float) : is_pos (Prim2SF x) -> nonneg x.
Proof.
  unfold nonneg. destruct (Prim2SF x) as [s|[]| |[] m e]; cbn; intros H;
    try contradiction; reflexivity.
Qed.

Lemma pos_not_zero (x : float) : is_pos (Prim2SF x) -> (x =? 0)%float = false.
Proof.
  rewrite FloatAxioms.eqb_spec, Prim2SF_zero.
  destruct (Prim2SF x) as [s|[]| |[] m e]; cbn; auto; contradiction.
Qed.

(** 0 against a double that is not negative, as Python compares them. *)
Lemma zero_le_nonneg (x : float) :
  nonneg x -> Num.Z_float_compare 0 x = Some Lt \/ Num.Z_float_compare 0 x = Some Eq.
Proof.
  unfold nonneg, Num.Z_float_compare.
  destruct (Prim2SF x) as [s|s| |s m e]; cbn [signed]; intros H; try contradiction; subst.
  - right. reflexivity.
  - left. reflexivity.
  - left. destruct (0 <=? e) eqn:E; [|reflexivity]. f_equal.
    apply Z.leb_le in E. assert (0 < 2 ^ e) by (apply Z.pow_pos_nonneg; lia).
    apply Z.compare_lt_iff. nia.
Qed.

Lemma zero_lt_pos (x : float) : is_pos (Prim2SF x) -> Num.Z_float_compare 0 x = Some Lt.
Proof.
  unfold Num.Z_float_compare.
  destruct (Prim2SF x) as [s|[]| |[] m e]; cbn [is_pos]; intros H; try contradiction.
  - reflexivity.
  - destruct (0 <=? e) eqn:E; [|reflexivity]. f_equal.
    apply Z.leb_le in E. assert (0 < 2 ^ e) by (apply Z.pow_pos_nonneg; lia).
    apply Z.compare_lt_iff. nia.
Qed.

(** *** Conversion of an int *)

Lemma is_infinity_spec (f : float) :
  is_infinity f = false -> forall s, Prim2SF f <> S754_infinity s.
Proof.
  unfold is_infinity. rewrite FloatAxioms.eqb_spec, FloatAxioms.abs_spec. intros H s E. rewrite E in H.
  cbn in H. discriminate.
Qed.

Lemma float_of_Z_spec (z : Z) (f : float) :
  Num.float_of_Z z = Ok f ->
  Prim2SF f = binary_normalize prec emax z 0 false /\
  forall s, Prim2SF f <> S754_infinity s.
Proof.
  unfold Num.float_of_Z.
  destruct (is_infinity _) eqn:E; [discriminate|]. intros [= <-].
  split; [|exact (is_infinity_spec _ E)].
  apply Prim2SF_SF2Prim, binary_normalize_valid.
Qed.

Lemma float_of_Z_nonneg (z : Z) (f : float) :
  0 <= z -> Num.float_of_Z z = Ok f -> nonneg f.
Proof.
  intros Hz H. destruct (float_of_Z_spec z f H) as [E _].
  unfold nonneg. rewrite E. destruct z; [reflexivity|apply binary_round_signed|lia].
Qed.

(** *** Signs of quotients and products *)

Lemma div_core_nonneg (m1 m2 : positive) (e1 e2 : Z) :
  let '(q, _, _) := SFdiv_core_binary prec emax (Zpos m1) e1 (Zpos m2) e2 in 0 <= q.
Proof.
  unfold SFdiv_core_binary.
  set (s := _ - _ - _).
  set (m' := match s with Zpos _ => Z.shiftl (Zpos m1) s | Z0 => Zpos m1 | Zneg _ => 0 end).
  assert (Hm' : 0 <= m').
  { subst m'. destruct s; [lia| |lia]. apply Z.shiftl_nonneg. lia. }
  pose proof (Z_div_mod m' (Zpos m2) ltac:(lia)) as H.
  destruct (Z.div_eucl m' (Zpos m2)) as [q r]. nia.
Qed.

Lemma SFdiv_pos_nonneg (a b : spec_float) :
  is_pos a -> signed false b -> (forall s, b <> S754_infinity s) ->
  signed false (SFdiv prec emax a b).
Proof.
  destruct a as [sa|[]| |[] ma ea]; cbn [is_pos]; try contradiction; intros _;
    destruct b as [sb|sb| |sb mb eb]; cbn [signed]; intros Hb Hinf; subst;
    try contradiction; try reflexivity; try (exfalso; eapply Hinf; reflexivity).
  cbn [SFdiv xorb].
  pose proof (div_core_nonneg ma mb ea eb) as Hq.
  destruct (SFdiv_core_binary _ _ _ _ _ _) as [[q e] l].
  apply round_aux_signed. exact Hq.
Qed.

Lemma SFdiv_finite_pos_nonneg (m : positive) (e : Z) (b : spec_float) :
  is_pos b -> signed false (SFdiv prec emax (S754_finite false m e) b).
Proof.
  destruct b as [sb|[]| |[] mb eb]; cbn [is_pos]; try contradiction; intros _.
  - reflexivity.
  - cbn [SFdiv xorb].
    pose proof (div_core_nonneg m mb e eb) as Hq.
    destruct (SFdiv_core_binary _ _ _ _ _ _) as [[q e'] l].
    apply round_aux_signed. exact Hq.
Qed.

Lemma SFmul_nonneg (a : spec_float) (m : positive) (e : Z) :
  signed false a -> signed false (SFmul prec emax a (S754_finite false m e)).
Proof.
  destruct a as [sa|sa| |sa ma ea]; cbn [signed]; intros H; try contradiction; subst;
    try reflexivity.
  cbn [SFmul xorb]. apply round_aux_signed. lia.
Qed.

Lemma div_pos_nonneg (a b : float) :
  is_pos (Prim2SF a) -> nonneg b -> (forall s, Prim2SF b <> S754_infinity s) ->
  nonneg (a / b).
Proof. intros. unfold nonneg. rewrite FloatAxioms.div_spec. apply SFdiv_pos_nonneg; assumption. Qed.

End Flt.

(** ** Rounding to nearest, ties to even, on integers *)

Module Nearest.
Import Round.

(** [m / 2^n] rounded to the nearest integer, ties to the even one. *)
Definition rne (m n : Z) : Z :=
  let q := m / 2 ^ n in
  match 2 * (m mod 2 ^ n) ?= 2 ^ n with
  | Lt => q
  | Gt => q + 1
  | Eq => if Z.even q then q else q + 1
  end.

Lemma rne_0 (m : Z) : rne m 0 = m.
Proof.
  unfold rne. change (2 ^ 0) with 1. rewrite Z.mod_1_r, Z.div_1_r. reflexivity.
Qed.

Lemma rne_bounds (m n : Z) : 0 <= n -> m / 2 ^ n <= rne m n <= m / 2 ^ n + 1.
Proof.
  intros _. unfold rne.
  destruct (2 * (m mod 2 ^ n) ?= 2 ^ n); [destruct (Z.even _)|..]; lia.
Qed.

Lemma rne_exact (m n : Z) : 0 <= n -> m mod 2 ^ n = 0 -> rne m n = m / 2 ^ n.
Proof.
  intros Hn H. unfold rne. rewrite H.
  assert (0 < 2 ^ n) by (apply Z.pow_pos_nonneg; lia).
  destruct (Z.compare_spec (2 * 0) (2 ^ n)); lia.
Qed.

Lemma rne_nonneg (m n : Z) : 0 <= m -> 0 <= n -> 0 <= rne m n.
Proof.
  intros Hm Hn. pose proof (rne_bounds m n Hn).
  assert (0 <= m / 2 ^ n) by (apply Z.div_pos; [lia|apply Z.pow_pos_nonneg; lia]). lia.
Qed.

Lemma rne_mono (m m' n : Z) : 0 <= n -> m <= m' -> rne m n <= rne m' n.
Proof.
  intros Hn Hm.
  assert (HP : 0 < 2 ^ n) by (apply Z.pow_pos_nonneg; lia).
  pose proof (Z.div_mod m (2 ^ n) ltac:(lia)) as E.
  pose proof (Z.div_mod m' (2 ^ n) ltac:(lia)) as E'.
  pose proof (Z.mod_pos_bound m (2 ^ n) HP) as B.
  pose proof (Z.mod_pos_bound m' (2 ^ n) HP) as B'.
  pose proof (Z.div_le_mono m m' (2 ^ n) HP Hm) as Hq.
  destruct (Z.eq_dec (m / 2 ^ n) (m' / 2 ^ n)) as [Eq|Neq].
  - unfold rne. rewrite <- Eq.
    assert (m mod 2 ^ n <= m' mod 2 ^ n) by nia.
    destruct (Z.compare_spec (2 * (m mod 2 ^ n)) (2 ^ n));
      destruct (Z.compare_spec (2 * (m' mod 2 ^ n)) (2 ^ n));
      try destruct (Z.even (m / 2 ^ n)); lia.
  - pose proof (rne_bounds m n Hn). pose proof (rne_bounds m' n Hn). lia.
Qed.

(** The result does not depend on how many zero bits the argument
    carries. *)
Lemma rne_scale (m n k : Z) : 0 <= n -> 0 <= k -> rne (m * 2 ^ k) (n + k) = rne m n.
Proof.
  intros Hn Hk.
  assert (HP : 0 < 2 ^ n) by (apply Z.pow_pos_nonneg; lia).
  assert (HK : 0 < 2 ^ k) by (apply Z.pow_pos_nonneg; lia).
  unfold rne. rewrite Z.pow_add_r by lia.
  rewrite Z.div_mul_cancel_r by lia.
  rewrite Z.mul_mod_distr_r by lia.
  replace (2 * (m mod 2 ^ n * 2 ^ k)) with (2 * (m mod 2 ^ n) * 2 ^ k) by lia.
  rewrite <- (Zmult_compare_compat_r _ _ (2 ^ k)) by lia.
  reflexivity.
Qed.

(** *** What [shr] leaves behind an exact mantissa *)

Definition exact_record (m : Z) : shr_record :=
  {| shr_m := m; shr_r := false; shr_s := false |}.

Lemma shr_1_bits (r : shr_record) :
  0 <= shr_m r ->
  shr_r (shr_1 r) = Z.odd (shr_m r) /\ shr_s (shr_1 r) = shr_r r || shr_s r.
Proof.
  destruct r as [m rb sb]. cbn [shr_m shr_r shr_s].
  destruct m as [|[p|p|]|p]; intros H; cbn; try lia; split; reflexivity.
Qed.

Lemma mod_pow2_succ (m k : Z) :
  0 <= k -> m mod 2 ^ (k + 1) = m mod 2 ^ k + 2 ^ k * ((m / 2 ^ k) mod 2).
Proof.
  intros Hk. rewrite Z.pow_add_r by lia. change (2 ^ 1) with 2.
  apply Z.rem_mul_r; [apply Z.pow_nonzero; lia|lia].
Qed.

Lemma shr_iter_bits (m : Z) (k : nat) :
  0 <= m ->
  let r := Nat.iter (S k) shr_1 (exact_record m) in
  shr_m r = m / 2 ^ (Z.of_nat k + 1) /\
  shr_r r = Z.odd (m / 2 ^ Z.of_nat k) /\
  shr_s r = negb (m mod 2 ^ Z.of_nat k =? 0).
Proof.
  intros Hm. induction k as [|k IH].
  - cbn [Nat.iter]. change (Nat.iter 1 shr_1 (exact_record m)) with (shr_1 (exact_record m)).
    destruct (shr_1_bits (exact_record m) Hm) as [Hr Hs].
    rewrite shr_1_m by exact Hm. cbn [exact_record shr_m shr_r shr_s] in *.
    change (Z.of_nat 0) with 0. change (2 ^ 0) with 1. change (2 ^ (0 + 1)) with 2.
    rewrite Z.div_1_r, Z.mod_1_r. repeat split; assumption.
  - cbv zeta in IH. destruct IH as (Im & Ir & Is).
    set (r := Nat.iter (S k) shr_1 (exact_record m)) in *.
    change (Nat.iter (S (S k)) shr_1 (exact_record m)) with (shr_1 r). cbv zeta.
    assert (HP : 0 < 2 ^ (Z.of_nat k + 1)) by (apply Z.pow_pos_nonneg; lia).
    assert (Hr0 : 0 <= shr_m r) by (rewrite Im; apply Z.div_pos; lia).
    destruct (shr_1_bits r Hr0) as [Hr Hs].
    rewrite shr_1_m by exact Hr0. rewrite Hr, Hs, Im, Ir, Is.
    replace (Z.of_nat (S k)) with (Z.of_nat k + 1) by lia.
    split; [|split].
    + rewrite Z.div_div by lia. f_equal.
      rewrite (Z.pow_add_r 2 (Z.of_nat k + 1) 1) by lia. reflexivity.
    + reflexivity.
    + rewrite mod_pow2_succ by lia.
      assert (Hk : 0 < 2 ^ Z.of_nat k) by (apply Z.pow_pos_nonneg; lia).
      pose proof (Z.mod_pos_bound m (2 ^ Z.of_nat k) Hk) as B.
      rewrite (Zmod_odd (m / 2 ^ Z.of_nat k)).
      destruct (Z.odd (m / 2 ^ Z.of_nat k)); cbn [orb].
      * symmetry. apply negb_true_iff, Z.eqb_neq. nia.
      * rewrite Z.mul_0_r, Z.add_0_r. reflexivity.
Qed.

(** The decision [round_nearest_even] takes on such a record is [rne]. *)
Lemma round_record_rne (m : Z) (k : nat) :
  0 <= m ->
  let r := Nat.iter (S k) shr_1 (exact_record m) in
  round_nearest_even (shr_m r) (loc_of_shr_record r) = rne m (Z.of_nat k + 1).
Proof.
  intros Hm r. destruct (shr_iter_bits m k Hm) as (Em & Er & Es). fold r in Em, Er, Es.
  destruct r as [q rb sb]. cbn [shr_m shr_r shr_s] in *. subst q rb sb.
  unfold rne. rewrite mod_pow2_succ by lia.
  assert (Hk : 0 < 2 ^ Z.of_nat k) by (apply Z.pow_pos_nonneg; lia).
  pose proof (Z.mod_pos_bound m (2 ^ Z.of_nat k) Hk) as B.
  rewrite (Z.pow_add_r 2 (Z.of_nat k) 1) by lia. change (2 ^ 1) with 2.
  rewrite (Zmod_odd (m / 2 ^ Z.of_nat k)).
  destruct (Z.odd (m / 2 ^ Z.of_nat k)); destruct (Z.eqb_spec (m mod 2 ^ Z.of_nat k) 0) as [E0|N0];
    cbn [negb loc_of_shr_record round_nearest_even].
  - rewrite E0. replace (2 * (0 + 2 ^ Z.of_nat k * 1)) with (2 ^ Z.of_nat k * 2) by lia.
    rewrite Z.compare_refl. reflexivity.
  - destruct (Z.compare_spec (2 * (m mod 2 ^ Z.of_nat k + 2 ^ Z.of_nat k * 1)) (2 ^ Z.of_nat k * 2));
      solve [lia | reflexivity].
  - rewrite E0. destruct (Z.compare_spec (2 * (0 + 2 ^ Z.of_nat k * 0)) (2 ^ Z.of_nat k * 2));
      solve [lia | reflexivity].
  - destruct (Z.compare_spec (2 * (m mod 2 ^ Z.of_nat k + 2 ^ Z.of_nat k * 0)) (2 ^ Z.of_nat k * 2));
      solve [lia | reflexivity].
Qed.

End Nearest.


(** ** The value of a rounded result *)

Module Value.
Import Round Nearest.

Section Unit.
(** Values are counted in units of [2^L], for an exponent [L] below every
    exponent in play. *)
Variable L : Z.
Hypothesis L_low : L <= -1074.

(** The double nearest to [v] units, in units: [v] is rounded at the
    exponent that [fexp] gives for its magnitude. *)
Definition nearest (v : Z) : Z :=
  let k := fexp (Zdigits2 v + L) - L in
  rne v k * 2 ^ k.

Lemma grid_nonneg (v : Z) : 0 <= fexp (Zdigits2 v + L) - L.
Proof. rewrite fexp_eq. lia. Qed.

Lemma nearest_nonneg (v : Z) : 0 <= v -> 0 <= nearest v.
Proof.
  intros Hv. unfold nearest. pose proof (grid_nonneg v).
  apply Z.mul_nonneg_nonneg; [apply rne_nonneg; lia|apply Z.pow_nonneg; lia].
Qed.

Lemma nearest_0 : nearest 0 = 0.
Proof.
  unfold nearest. pose proof (grid_nonneg 0).
  rewrite rne_exact by (try apply Z.mod_0_l; try apply Z.pow_nonzero; lia).
  rewrite Z.div_0_l by (apply Z.pow_nonzero; lia). reflexivity.
Qed.

(** A power of two with room above the grid is left as it is. *)
Lemma rne_pow2 (b k : Z) : 0 <= k <= b -> rne (2 ^ b) k * 2 ^ k = 2 ^ b.
Proof.
  intros H. replace b with (b - k + k) at 1 2 by lia.
  rewrite Z.pow_add_r by lia.
  rewrite rne_exact by (try apply Z.mod_mul; try apply Z.pow_nonzero; lia).
  rewrite Z.div_mul by (apply Z.pow_nonzero; lia). reflexivity.
Qed.

Theorem nearest_mono (v v' : Z) : 0 <= v <= v' -> nearest v <= nearest v'.
Proof.
  intros [Hv Hvv'].
  destruct (Z.eq_dec v 0) as [->|Hv0].
  { rewrite nearest_0. apply nearest_nonneg. lia. }
  pose proof (Zdigits2_le v v' ltac:(lia)) as Hd.
  pose proof (Zdigits2_bounds v ltac:(lia)) as [Hlo Hhi].
  pose proof (Zdigits2_bounds v' ltac:(lia)) as [Hlo' Hhi'].
  assert (0 < Zdigits2 v) by (rewrite Zdigits2_log2 by lia; pose proof (Z.log2_nonneg v); lia).
  unfold nearest.
  set (k := fexp (Zdigits2 v + L) - L). set (k' := fexp (Zdigits2 v' + L) - L).
  assert (Hk : 0 <= k) by apply grid_nonneg.
  assert (Hk' : 0 <= k') by apply grid_nonneg.
  assert (Hkk' : k <= k') by (unfold k, k'; rewrite !fexp_eq; lia).
  destruct (Z.eq_dec k k') as [<-|Hne].
  - apply Z.mul_le_mono_nonneg_r; [apply Z.pow_nonneg; lia|].
    apply rne_mono; lia.
  - (* a power of two lies between the two values, on both grids *)
    set (b := Zdigits2 v' - 1).
    assert (Hdd : Zdigits2 v < Zdigits2 v').
    { destruct (Z_lt_le_dec (Zdigits2 v) (Zdigits2 v')) as [|Hge]; [assumption|].
      assert (Zdigits2 v = Zdigits2 v') by lia. unfold k, k' in Hne. congruence. }
    assert (Hb : k <= b /\ k' <= b) by (unfold k, k', b in *; rewrite !fexp_eq in *; lia).
    assert (Hvb : v <= 2 ^ b).
    { apply Z.le_trans with (2 ^ Zdigits2 v); [lia|]. apply Z.pow_le_mono_r; unfold b; lia. }
    apply Z.le_trans with (2 ^ b).
    + rewrite <- (rne_pow2 b k) by lia.
      apply Z.mul_le_mono_nonneg_r; [apply Z.pow_nonneg; lia|].
      apply rne_mono; lia.
    + rewrite <- (rne_pow2 b k') at 1 by lia.
      apply Z.mul_le_mono_nonneg_r; [apply Z.pow_nonneg; lia|].
      apply rne_mono; unfold b; lia.
Qed.

(** *** [binary_round_aux] on an exact mantissa *)

Lemma stage_rne (m e : Z) :
  0 <= m ->
  let n := Z.max 0 (fexp (Zdigits2 m + e) - e) in
  let st := shr_fexp prec emax m e loc_Exact in
  round_nearest_even (shr_m (fst st)) (loc_of_shr_record (fst st)) = rne m n /\
  snd st = e + n.
Proof.
  intros Hm n st. subst n st. unfold shr_fexp, shr.
  change (shr_record_of_loc m loc_Exact) with (exact_record m).
  destruct (fexp (Zdigits2 m + e) - e) as [|p|p] eqn:E; cbn [fst snd].
  - cbn [exact_record shr_m loc_of_shr_record round_nearest_even Z.max].
    rewrite rne_0. split; [reflexivity|lia].
  - rewrite iter_pos_nat.
    destruct (Pos2Nat.is_succ p) as [k Hk]. rewrite Hk.
    rewrite (round_record_rne m k Hm).
    replace (Z.of_nat k + 1) with (Zpos p) by lia.
    rewrite Z.max_r by lia. split; reflexivity.
  - cbn [exact_record shr_m loc_of_shr_record round_nearest_even].
    rewrite Z.max_l by lia. rewrite rne_0. split; [reflexivity|lia].
Qed.

(** The result of a rounding, before the overflow test: zero, or a
    mantissa at an exponent. *)
Definition result_of (s : bool) (m e : Z) : spec_float :=
  match m with
  | Z0 => S754_zero s
  | Zpos p => if e <=? emax - prec then S754_finite s p e else S754_infinity s
  | Zneg _ => S754_nan
  end.

Theorem round_value (s : bool) (m e : Z) :
  0 <= m -> L <= e ->
  exists m3 e3,
    0 <= m3 /\ L <= e3 /\
    m3 * 2 ^ (e3 - L) = nearest (m * 2 ^ (e - L)) /\
    round_aux s m e loc_Exact = result_of s m3 e3.
Proof.
  intros Hm He.
  set (g := fexp (Zdigits2 m + e)).
  set (n := Z.max 0 (g - e)).
  destruct (stage_rne m e Hm) as [H1 H1e]. fold g n in H1, H1e.
  assert (Hn : 0 <= n) by (unfold n; lia).
  pose proof (rne_nonneg m n Hm Hn) as Hm2.
  pose proof (shr_fexp_m (rne m n) (e + n) loc_Exact Hm2) as [H3 H3e].
  exists (rne m n / 2 ^ Z.max 0 (fexp (Zdigits2 (rne m n) + (e + n)) - (e + n))),
         (e + n + Z.max 0 (fexp (Zdigits2 (rne m n) + (e + n)) - (e + n))).
  set (n2 := Z.max 0 (fexp (Zdigits2 (rne m n) + (e + n)) - (e + n))) in *.
  assert (Hn2 : 0 <= n2) by (unfold n2; lia).
  split; [apply Z.div_pos; [lia|apply Z.pow_pos_nonneg; lia]|].
  split; [lia|].
  split.
  - (* the second shift drops no bit *)
    assert (Hex : rne m n / 2 ^ n2 * 2 ^ n2 = rne m n).
    { destruct (Z.eq_dec n2 0) as [->|Hn2p]; [change (2 ^ 0) with 1; rewrite Z.div_1_r; lia|].
      assert (Hg : e <= g).
      { destruct (Z_le_gt_dec e g) as [|Hgt]; [assumption|exfalso].
        assert (n = 0) by (unfold n; lia).
        assert (E2 : rne m n = m) by (replace n with 0; apply rne_0).
        unfold n2 in Hn2p. rewrite E2 in Hn2p. replace (e + n) with e in Hn2p by lia.
        fold g in Hn2p. lia. }
      assert (En : n = g - e) by (unfold n; lia).
      pose proof (rne_bounds m n Hn) as Hb.
      assert (Hd1 : Zdigits2 (m / 2 ^ n) = Z.max 0 (Zdigits2 m - n))
        by (apply Zdigits2_div_pow2; lia).
      assert (Hm1 : 0 <= m / 2 ^ n) by (apply Z.div_pos; [lia|apply Z.pow_pos_nonneg; lia]).
      pose proof (Zdigits2_nonneg m) as Hdm.
      destruct (Z.eq_dec (m / 2 ^ n) 0) as [E0|N0].
      - (* everything was shifted out: the exponent is the least one *)
        rewrite E0 in Hd1, Hb. cbn [Zdigits2] in Hd1.
        assert (Hge : g = -1074) by (unfold g in *; rewrite fexp_eq in *; lia).
        assert (Hc : rne m n = 0 \/ rne m n = 1) by lia.
        destruct Hc as [-> | E1]; [rewrite Z.div_0_l by (apply Z.pow_nonzero; lia); lia|].
        exfalso. unfold n2 in Hn2p. rewrite E1 in Hn2p.
        replace (e + n) with (-1074) in Hn2p by lia. vm_compute in Hn2p. lia.
      - assert (Hp1 : 0 < Zdigits2 (m / 2 ^ n))
          by (rewrite Zdigits2_log2 by lia; pose proof (Z.log2_nonneg (m / 2 ^ n)); lia).
        assert (Hcan : fexp (Zdigits2 (m / 2 ^ n) + (e + n)) = e + n).
        { rewrite Hd1, Z.max_r by lia.
          replace (Zdigits2 m - n + (e + n)) with (Zdigits2 m + e) by lia. fold g. lia. }
        assert (Hc : rne m n = m / 2 ^ n \/ rne m n = m / 2 ^ n + 1) by lia.
        destruct Hc as [E1 | E1].
        + exfalso. unfold n2 in Hn2p. rewrite E1, Hcan in Hn2p. lia.
        + destruct (Zdigits2_succ (m / 2 ^ n) Hm1) as [Ed | [Ed Epow]].
          * exfalso. unfold n2 in Hn2p. rewrite E1, Ed, Hcan in Hn2p. lia.
          * assert (En2 : n2 = 1).
            { unfold n2 in *. rewrite E1, Ed in *.
              replace (Zdigits2 (m / 2 ^ n) + 1 + (e + n))
                with (Zdigits2 (m / 2 ^ n) + (e + n) + 1) in * by lia.
              destruct (fexp_step (Zdigits2 (m / 2 ^ n) + (e + n))); lia. }
            rewrite En2, E1, Epow. change (2 ^ 1) with 2.
            replace (Zdigits2 (m / 2 ^ n)) with (Zdigits2 (m / 2 ^ n) - 1 + 1) by lia.
            rewrite Z.pow_add_r by lia. change (2 ^ 1) with 2.
            rewrite Z.div_mul by lia. reflexivity. }
    (* the first shift rounds at the exponent of the magnitude *)
    replace (e + n + n2 - L) with (n2 + (e + n - L)) by lia.
    rewrite Z.pow_add_r by lia. rewrite Z.mul_assoc, Hex.
    destruct (Z.eq_dec m 0) as [->|Hm0].
    { rewrite Z.mul_0_l, nearest_0. unfold rne.
      rewrite Z.mod_0_l, Z.div_0_l by (apply Z.pow_nonzero; lia).
      assert (0 < 2 ^ n) by (apply Z.pow_pos_nonneg; lia).
      destruct (Z.compare_spec (2 * 0) (2 ^ n)); cbn; lia. }
    unfold nearest.
    rewrite Zdigits2_mul_pow2 by lia.
    replace (Zdigits2 m + (e - L) + L) with (Zdigits2 m + e) by lia. fold g.
    assert (HgL : L <= g) by (unfold g; rewrite fexp_eq; lia).
    destruct (Z_le_gt_dec e g) as [Hle|Hgt].
    + assert (En : n = g - e) by (unfold n; lia).
      replace (g - L) with (n + (e - L)) by lia.
      rewrite rne_scale by lia. f_equal. f_equal. lia.
    + assert (En : n = 0) by (unfold n; lia).
      rewrite En, rne_0. replace (e + 0 - L) with (e - L) by lia.
      replace (e - L) with (e - g + (g - L)) at 2 by lia.
      rewrite Z.pow_add_r, Z.mul_assoc by lia.
      rewrite rne_exact by (try apply Z.mod_mul; try apply Z.pow_nonzero; lia).
      rewrite Z.div_mul by (apply Z.pow_nonzero; lia).
      rewrite <- Z.mul_assoc, <- Z.pow_add_r by lia. f_equal. f_equal. lia.
  - unfold binary_round_aux.
    destruct (shr_fexp prec emax m e loc_Exact) as [r1 e1]. cbn [fst snd] in H1, H1e.
    rewrite H1, H1e.
    destruct (shr_fexp prec emax (rne m n) (e + n) loc_Exact) as [r2 e2].
    cbn [fst snd] in H3, H3e. rewrite H3, H3e. reflexivity.
Qed.

End Unit.
End Value.


(** ** Order and values of doubles *)

Module Order.
Import Round Nearest Value.

Abbreviation valid x := (SpecFloat.valid_binary prec emax x = true).

Lemma valid_finite (s : bool) (m : positive) (e : Z) :
  valid (S754_finite s m e) ->
  fexp (Zdigits2 (Zpos m) + e) = e /\ -1074 <= e <= 971 /\
  Zpos m < 2 ^ 53 /\ (-1074 < e -> 2 ^ 52 <= Zpos m).
Proof.
  cbn [SpecFloat.valid_binary]. unfold bounded, canonical_mantissa.
  intros H. apply andb_true_iff in H as [Hc Hb].
  apply Z.eqb_eq in Hc. apply Z.leb_le in Hb.
  change (emax - prec) with 971 in Hb.
  change (Zpos (digits2_pos m)) with (Zdigits2 (Zpos m)) in Hc.
  pose proof (Zdigits2_bounds (Zpos m) ltac:(lia)) as [Hlo Hhi].
  assert (Hd : 0 < Zdigits2 (Zpos m)) by (cbn; lia).
  rewrite fexp_eq in Hc.
  split; [rewrite fexp_eq; exact Hc|]. split; [lia|]. split.
  - apply Z.lt_le_trans with (1 := Hhi). apply Z.pow_le_mono_r; lia.
  - intros He. replace (Zdigits2 (Zpos m)) with 53 in Hlo by lia. exact Hlo.
Qed.

Section Unit.
Variable L : Z.
Hypothesis L_low : L <= -2148.

(** A double that is zero or a positive number. *)
Definition fin_nonneg (x : spec_float) : Prop :=
  match x with
  | S754_zero _ | S754_finite false _ _ => True
  | _ => False
  end.

(** Its value in units of [2^L]. *)
Definition units (x : spec_float) : Z :=
  match x with
  | S754_finite false m e => Zpos m * 2 ^ (e - L)
  | _ => 0
  end.

Lemma units_nonneg (x : spec_float) : 0 <= units x.
Proof.
  destruct x as [s|s| |[] m e]; cbn [units];
    first [lia | apply Z.mul_nonneg_nonneg; [lia|apply Z.pow_nonneg; lia]].
Qed.

Lemma units_pos (m : positive) (e : Z) : L <= e -> 0 < units (S754_finite false m e).
Proof.
  intros He. cbn [units]. apply Z.mul_pos_pos; [lia|apply Z.pow_pos_nonneg; lia].
Qed.

Lemma compare_finite_units (m m' : positive) (e e' : Z) :
  valid (S754_finite false m e) -> valid (S754_finite false m' e') ->
  SFcompare (S754_finite false m e) (S754_finite false m' e')
  = Some (units (S754_finite false m e) ?= units (S754_finite false m' e')).
Proof.
  intros Hv Hv'.
  destruct (valid_finite _ _ _ Hv) as (_ & He & Hm & Hn).
  destruct (valid_finite _ _ _ Hv') as (_ & He' & Hm' & Hn').
  cbn [SFcompare units]. f_equal.
  destruct (Z.compare_spec e e') as [Eq|Lt|Gt].
  - subst e'. rewrite Pos.compare_cont_spec.
    rewrite <- Zmult_compare_compat_r by (apply Z.lt_gt, Z.pow_pos_nonneg; lia).
    change (Zpos m ?= Zpos m') with (m ?= m')%positive.
    destruct (m ?= m')%positive; reflexivity.
  - symmetry. apply Z.compare_lt_iff.
    assert (0 < 2 ^ (e - L)) by (apply Z.pow_pos_nonneg; lia).
    replace (e' - L) with (e' - e - 1 + 1 + (e - L)) by lia.
    rewrite !Z.pow_add_r by lia. change (2 ^ 1) with 2.
    assert (0 < 2 ^ (e' - e - 1)) by (apply Z.pow_pos_nonneg; lia).
    specialize (Hn' ltac:(lia)). change (2 ^ 53) with (2 ^ 52 * 2) in Hm.
    clear Hn. generalize dependent (2 ^ 52). intros K; intros.
    generalize dependent (2 ^ (e - L)). intros P; intros.
    generalize dependent (2 ^ (e' - e - 1)). intros Q; intros.
    assert (Zpos m * P < 2 * Zpos m' * P) by nia.
    assert (2 * Zpos m' * P <= Zpos m' * (Q * 2 * P)) by nia. lia.
  - symmetry. apply Z.compare_gt_iff.
    assert (0 < 2 ^ (e' - L)) by (apply Z.pow_pos_nonneg; lia).
    replace (e - L) with (e - e' - 1 + 1 + (e' - L)) by lia.
    rewrite !Z.pow_add_r by lia. change (2 ^ 1) with 2.
    assert (0 < 2 ^ (e - e' - 1)) by (apply Z.pow_pos_nonneg; lia).
    specialize (Hn ltac:(lia)). change (2 ^ 53) with (2 ^ 52 * 2) in Hm'.
    clear Hn'. generalize dependent (2 ^ 52). intros K; intros.
    generalize dependent (2 ^ (e' - L)). intros P; intros.
    generalize dependent (2 ^ (e - e' - 1)). intros Q; intros.
    assert (Zpos m' * P < 2 * Zpos m * P) by nia.
    assert (2 * Zpos m * P <= Zpos m * (Q * 2 * P)) by nia. lia.
Qed.

(** On doubles that are zero or positive the order is the order of the
    values. *)
Lemma leb_units (x y : spec_float) :
  valid x -> valid y -> fin_nonneg x -> fin_nonneg y ->
  SFleb x y = (units x <=? units y).
Proof.
  intros Hx Hy Fx Fy.
  destruct x as [sx|sx| |[] mx ex]; cbn [fin_nonneg] in Fx; try contradiction;
  destruct y as [sy|sy| |[] my ey]; cbn [fin_nonneg] in Fy; try contradiction.
  - reflexivity.
  - destruct (valid_finite _ _ _ Hy) as (_ & He & _).
    pose proof (units_pos my ey ltac:(lia)).
    unfold SFleb. cbn [SFcompare]. cbn [units] in *. symmetry. apply Z.leb_le. lia.
  - destruct (valid_finite _ _ _ Hx) as (_ & He & _).
    pose proof (units_pos mx ex ltac:(lia)).
    unfold SFleb. cbn [SFcompare]. cbn [units] in *. symmetry. apply Z.leb_gt. lia.
  - unfold SFleb. rewrite compare_finite_units by assumption.
    destruct (Z.compare_spec (units (S754_finite false mx ex)) (units (S754_finite false my ey)));
      symmetry; [apply Z.leb_le|apply Z.leb_le|apply Z.leb_gt]; lia.
Qed.

(** A double is the nearest double to itself. *)
Lemma nearest_valid (x : spec_float) : valid x -> nearest L (units x) = units x.
Proof.
  intros Hv. destruct x as [s|s| |[] m e]; cbn [units];
    try (apply nearest_0; lia).
  destruct (valid_finite _ _ _ Hv) as (Hc & He & _).
  unfold nearest. rewrite Zdigits2_mul_pow2 by lia.
  replace (Zdigits2 (Zpos m) + (e - L) + L) with (Zdigits2 (Zpos m) + e) by lia.
  rewrite Hc.
  rewrite rne_exact by (try apply Z.mod_mul; try apply Z.pow_nonzero; lia).
  rewrite Z.div_mul by (apply Z.pow_nonzero; lia). reflexivity.
Qed.

(** *** Results with a known value *)

(** [out] is the double of value [v], plus infinity standing for every
    value from [2^972] on. *)
Definition has_value (out : spec_float) (v : Z) : Prop :=
  match out with
  | S754_zero _ => v = 0
  | S754_finite false m e => Zpos m * 2 ^ (e - L) = v
  | S754_infinity false => 2 ^ (972 - L) <= v
  | _ => False
  end.

Lemma result_has_value (m e : Z) :
  0 <= m -> L <= e -> has_value (result_of false m e) (m * 2 ^ (e - L)).
Proof.
  intros Hm He. destruct m as [|p|p]; cbn [result_of has_value]; [reflexivity| |lia].
  change (emax - prec) with 971.
  destruct (Z.leb_spec e 971); cbn [has_value]; [reflexivity|].
  replace (e - L) with (e - 972 + (972 - L)) by lia.
  rewrite Z.pow_add_r by lia.
  assert (0 < 2 ^ (972 - L)) by (apply Z.pow_pos_nonneg; lia).
  assert (0 < 2 ^ (e - 972)) by (apply Z.pow_pos_nonneg; lia).
  generalize dependent (2 ^ (972 - L)). intros A; intros.
  generalize dependent (2 ^ (e - 972)). intros B; intros.
  assert (1 <= Zpos p * B) by nia. nia.
Qed.

Lemma round_has_value (m e : Z) :
  0 <= m -> L <= e ->
  has_value (round_aux false m e loc_Exact) (nearest L (m * 2 ^ (e - L))).
Proof.
  intros Hm He.
  destruct (round_value L ltac:(lia) false m e Hm He) as (m3 & e3 & H3 & He3 & Hv & ->).
  rewrite <- Hv. apply result_has_value; assumption.
Qed.

Lemma has_value_units (out : spec_float) (v : Z) :
  has_value out v -> v < 2 ^ (972 - L) -> fin_nonneg out /\ units out = v.
Proof.
  destruct out as [s|[]| |[] m e]; cbn [has_value fin_nonneg units]; intros H Hs;
    try contradiction; try lia; split; try exact I; congruence.
Qed.

(** Values in order, the larger one below [2^972]: doubles in order. *)
Lemma has_value_le (out out' : spec_float) (v v' : Z) :
  has_value out v -> has_value out' v' -> valid out -> valid out' ->
  v <= v' -> v' < 2 ^ (972 - L) ->
  fin_nonneg out /\ fin_nonneg out' /\ SFleb out out' = true.
Proof.
  intros H H' Hv Hv' Hle Hs.
  destruct (has_value_units out v H ltac:(lia)) as [F U].
  destruct (has_value_units out' v' H' Hs) as [F' U'].
  split; [exact F|]. split; [exact F'|].
  rewrite leb_units by assumption. apply Z.leb_le. lia.
Qed.

End Unit.
End Order.


(** ** Values of products, sums and differences *)

Module Ops.
Import Round Nearest Value Order.

Section Unit.
Variable L : Z.
Hypothesis L_low : L <= -2148.

Local Abbreviation units := (Order.units L).
Local Abbreviation has_value := (Order.has_value L).
Local Abbreviation nearest := (Value.nearest L).

Lemma nearest_zero : nearest 0 = 0.
Proof. apply nearest_0. lia. Qed.

(** The exact product, in units. *)
Definition product (a b : spec_float) : Z :=
  match a, b with
  | S754_finite false ma ea, S754_finite false mb eb =>
      Zpos ma * Zpos mb * 2 ^ (ea + eb - L)
  | _, _ => 0
  end.

Lemma SFmul_value (a b : spec_float) :
  valid a -> valid b -> fin_nonneg a -> fin_nonneg b ->
  has_value (SFmul prec emax a b) (nearest (product a b)).
Proof.
  intros Va Vb Fa Fb.
  destruct a as [sa|sa| |[] ma ea]; cbn [fin_nonneg] in Fa; try contradiction;
  destruct b as [sb|sb| |[] mb eb]; cbn [fin_nonneg] in Fb; try contradiction;
    cbn [SFmul product]; try (rewrite nearest_zero; reflexivity).
  destruct (valid_finite _ _ _ Va) as (_ & Ha & _).
  destruct (valid_finite _ _ _ Vb) as (_ & Hb & _).
  cbn [xorb]. rewrite <- Pos2Z.inj_mul.
  apply round_has_value; lia.
Qed.

Lemma product_nonneg (a b : spec_float) : 0 <= product a b.
Proof.
  unfold product.
  destruct a as [?|?| |[] ma ea]; try lia; destruct b as [?|?| |[] mb eb];
    first [lia | apply Z.mul_nonneg_nonneg; [lia|apply Z.pow_nonneg; lia]].
Qed.

Lemma product_mono_l (a a' b : spec_float) :
  valid a -> valid a' -> valid b ->
  units a <= units a' -> product a b <= product a' b.
Proof.
  intros Va Va' Vb H.
  pose proof product_nonneg as Hnn.
  destruct b as [sb|sb| |[] mb eb];
    try (destruct a as [?|?| |[] ? ?], a' as [?|?| |[] ? ?]; cbn [product]; lia).
  destruct a as [sa|sa| |[] ma ea]; try (cbn [product]; apply Hnn);
    try (destruct a' as [?|?| |[] ? ?]; cbn [product]; (lia || apply Hnn)).
  destruct (valid_finite _ _ _ Va) as (_ & Ha & _).
  destruct (valid_finite _ _ _ Vb) as (_ & Hb & _).
  destruct a' as [sa'|sa'| |[] ma' ea'].
  1-4: exfalso; pose proof (units_pos L ma ea ltac:(lia)); cbn [Order.units] in *; lia.
  destruct (valid_finite _ _ _ Va') as (_ & Ha' & _).
  cbn [product Order.units] in *.
  replace (ea - L) with (ea + 1074 + (-1074 - L)) in H by lia.
  replace (ea' - L) with (ea' + 1074 + (-1074 - L)) in H by lia.
  replace (ea + eb - L) with (ea + 1074 + (eb - 1074 - L)) by lia.
  replace (ea' + eb - L) with (ea' + 1074 + (eb - 1074 - L)) by lia.
  rewrite (Z.pow_add_r 2 (ea + 1074) (-1074 - L)) in H by lia.
  rewrite (Z.pow_add_r 2 (ea' + 1074) (-1074 - L)) in H by lia.
  rewrite (Z.pow_add_r 2 (ea + 1074) (eb - 1074 - L)) by lia.
  rewrite (Z.pow_add_r 2 (ea' + 1074) (eb - 1074 - L)) by lia.
  assert (0 < 2 ^ (-1074 - L)) by (apply Z.pow_pos_nonneg; lia).
  assert (0 <= 2 ^ (eb - 1074 - L)) by (apply Z.pow_nonneg; lia).
  generalize dependent (2 ^ (ea + 1074)). intros A; intros.
  generalize dependent (2 ^ (ea' + 1074)). intros A'; intros.
  generalize dependent (2 ^ (-1074 - L)). intros C; intros.
  generalize dependent (2 ^ (eb - 1074 - L)). intros D; intros.
  assert (Zpos ma * A <= Zpos ma' * A')
    by (apply (Z.mul_le_mono_pos_r _ _ C); [lia|]; lia).
  assert (0 <= Zpos mb * D) by (apply Z.mul_nonneg_nonneg; lia).
  replace (Zpos ma * Zpos mb * (A * D)) with (Zpos ma * A * (Zpos mb * D)) by ring.
  replace (Zpos ma' * Zpos mb * (A' * D)) with (Zpos ma' * A' * (Zpos mb * D)) by ring.
  apply Z.mul_le_mono_nonneg_r; assumption.
Qed.

Lemma product_comm (a b : spec_float) : product a b = product b a.
Proof.
  destruct a as [?|?| |[] ma ea], b as [?|?| |[] mb eb]; cbn [product]; try reflexivity.
  rewrite (Z.add_comm ea eb). ring.
Qed.

(** *** Sums *)

Lemma shl_align_fst (m : positive) (e e' : Z) :
  e' <= e -> Zpos (fst (shl_align m e e')) = Zpos m * 2 ^ (e - e').
Proof.
  intros H. unfold shl_align. destruct (e' - e) as [|p|p] eqn:E; cbn [fst]; try lia.
  - replace (e - e') with 0 by lia. cbn. lia.
  - rewrite shift_pos_pow. f_equal. f_equal. lia.
Qed.

Lemma binary_round_value (p : positive) (e : Z) :
  -1074 <= e ->
  has_value (binary_round prec emax false p e) (nearest (Zpos p * 2 ^ (e - L))).
Proof.
  intros He. unfold binary_round.
  pose proof (shl_align_spec p e) as H.
  assert (Hlow : -1074 <= snd (shl_align p e (fexp (Zpos (digits2_pos p) + e)))).
  { unfold shl_align. destruct (fexp _ - e) as [|q|q] eqn:E; cbn [snd]; try lia.
    rewrite fexp_eq. lia. }
  destruct (shl_align p e _) as [mz ez]. cbn [snd] in Hlow.
  destruct H as (Hle & Hm & _).
  replace (Zpos p * 2 ^ (e - L)) with (Zpos mz * 2 ^ (ez - L)).
  - apply round_has_value; lia.
  - rewrite Hm. rewrite <- Z.mul_assoc, <- Z.pow_add_r by lia. f_equal. f_equal. lia.
Qed.

Lemma SFadd_value (a b : spec_float) :
  valid a -> valid b -> fin_nonneg a -> fin_nonneg b ->
  has_value (SFadd prec emax a b) (nearest (units a + units b)).
Proof.
  intros Va Vb Fa Fb.
  destruct a as [sa|sa| |[] ma ea]; cbn [fin_nonneg] in Fa; try contradiction;
  destruct b as [sb|sb| |[] mb eb]; cbn [fin_nonneg] in Fb; try contradiction.
  - cbn [Order.units]. rewrite Z.add_0_l, nearest_zero. destruct sa, sb; reflexivity.
  - cbn [SFadd]. rewrite Z.add_0_l, (nearest_valid L ltac:(lia) _ Vb). reflexivity.
  - cbn [SFadd]. change (units (S754_zero sb)) with 0.
    rewrite Z.add_0_r, (nearest_valid L ltac:(lia) _ Va). reflexivity.
  - destruct (valid_finite _ _ _ Va) as (_ & Ha & _).
    destruct (valid_finite _ _ _ Vb) as (_ & Hb & _).
    cbn [SFadd cond_Zopp Order.units].
    rewrite !shl_align_fst by lia.
    set (ez := Z.min ea eb).
    assert (Hs : 0 < Zpos ma * 2 ^ (ea - ez) + Zpos mb * 2 ^ (eb - ez)).
    { assert (0 < 2 ^ (ea - ez)) by (apply Z.pow_pos_nonneg; lia).
      assert (0 < 2 ^ (eb - ez)) by (apply Z.pow_pos_nonneg; lia). nia. }
    destruct (Zpos ma * 2 ^ (ea - ez) + Zpos mb * 2 ^ (eb - ez)) as [|p|p] eqn:E; try lia.
    cbn [binary_normalize].
    replace (Zpos ma * 2 ^ (ea - L) + Zpos mb * 2 ^ (eb - L)) with (Zpos p * 2 ^ (ez - L)).
    + apply binary_round_value. lia.
    + rewrite <- E, Z.mul_add_distr_r.
      rewrite <- !Z.mul_assoc, <- !Z.pow_add_r by lia.
      f_equal; f_equal; f_equal; lia.
Qed.

(** *** Differences that are not negative *)

Lemma SFsub_value (a b : spec_float) :
  valid a -> valid b -> fin_nonneg a -> fin_nonneg b ->
  units b <= units a ->
  has_value (SFsub prec emax a b) (nearest (units a - units b)).
Proof.
  intros Va Vb Fa Fb Hle.
  destruct a as [sa|sa| |[] ma ea]; cbn [fin_nonneg] in Fa; try contradiction;
  destruct b as [sb|sb| |[] mb eb]; cbn [fin_nonneg] in Fb; try contradiction.
  - cbn [Order.units]. rewrite Z.sub_0_r, nearest_zero. destruct sa, sb; reflexivity.
  - exfalso. destruct (valid_finite _ _ _ Vb) as (_ & Hb & _).
    pose proof (units_pos L mb eb ltac:(lia)). cbn [Order.units] in *. lia.
  - cbn [SFsub]. change (units (S754_zero sb)) with 0.
    rewrite Z.sub_0_r, (nearest_valid L ltac:(lia) _ Va). reflexivity.
  - destruct (valid_finite _ _ _ Va) as (_ & Ha & _).
    destruct (valid_finite _ _ _ Vb) as (_ & Hb & _).
    cbn [SFsub cond_Zopp Order.units] in *.
    rewrite !shl_align_fst by lia.
    set (ez := Z.min ea eb) in *.
    assert (Hd : (Zpos ma * 2 ^ (ea - ez) - Zpos mb * 2 ^ (eb - ez)) * 2 ^ (ez - L)
                 = Zpos ma * 2 ^ (ea - L) - Zpos mb * 2 ^ (eb - L)).
    { rewrite Z.mul_sub_distr_r.
      rewrite <- !Z.mul_assoc, <- !Z.pow_add_r by lia.
      f_equal; f_equal; f_equal; lia. }
    assert (0 < 2 ^ (ez - L)) by (apply Z.pow_pos_nonneg; lia).
    destruct (Zpos ma * 2 ^ (ea - ez) - Zpos mb * 2 ^ (eb - ez)) as [|p|p] eqn:E.
    + cbn [binary_normalize]. rewrite <- Hd, Z.mul_0_l, nearest_zero. reflexivity.
    + cbn [binary_normalize]. rewrite <- Hd. apply binary_round_value. lia.
    + exfalso. nia.
Qed.

End Unit.
End Ops.


(** ** The quotient of two ints *)

Module Quotient.
Import Round Nearest Value Order Ops.

(** Whatever the location, a rounding goes at most one unit of the first
    grid above the mantissa it is given. *)
Lemma round_aux_upper (s : bool) (q e : Z) (l : location) :
  0 <= q ->
  let n := Z.max 0 (fexp (Zdigits2 q + e) - e) in
  exists m3 e3,
    round_aux s q e l = result_of s m3 e3 /\
    0 <= m3 /\ e + n <= e3 /\ m3 * 2 ^ (e3 - (e + n)) <= q / 2 ^ n + 1.
Proof.
  intros Hq n. unfold binary_round_aux.
  pose proof (shr_fexp_m q e l Hq) as [H1 H1e]. fold n in H1, H1e.
  destruct (shr_fexp prec emax q e l) as [r1 e1]. cbn [fst snd] in H1, H1e.
  set (m2 := round_nearest_even (shr_m r1) (loc_of_shr_record r1)).
  assert (Hn : 0 <= n) by (unfold n; lia).
  assert (Hm1 : 0 <= shr_m r1)
    by (rewrite H1; apply Z.div_pos; [lia|apply Z.pow_pos_nonneg; lia]).
  assert (Hm2 : 0 <= m2 <= q / 2 ^ n + 1).
  { destruct (round_nearest_even_cases (shr_m r1) (loc_of_shr_record r1)) as [E|E];
      unfold m2; rewrite E, <- H1; lia. }
  pose proof (shr_fexp_m m2 e1 loc_Exact ltac:(lia)) as [H3 H3e].
  destruct (shr_fexp prec emax m2 e1 loc_Exact) as [r2 e2]. cbn [fst snd] in H3, H3e.
  set (n2 := Z.max 0 (fexp (Zdigits2 m2 + e1) - e1)) in *.
  assert (Hn2 : 0 <= n2) by (unfold n2; lia).
  assert (HP : 0 < 2 ^ n2) by (apply Z.pow_pos_nonneg; lia).
  exists (shr_m r2), e2. split; [reflexivity|].
  rewrite H3, H3e, H1e.
  split; [apply Z.div_pos; lia|]. split; [lia|].
  replace (e + n + n2 - (e + n)) with n2 by lia.
  pose proof (Z.mul_div_le m2 (2 ^ n2) HP). lia.
Qed.

Lemma new_location_exact (nb : Z) : new_location nb 0 = loc_Exact.
Proof. unfold new_location. destruct (Z.even nb); reflexivity. Qed.

Section Unit.
Variable L : Z.
Hypothesis L_low : L <= -2148.

Local Abbreviation units := (Order.units L).
Local Abbreviation has_value := (Order.has_value L).

Definition one : spec_float := S754_finite false 4503599627370496 (-52).

Lemma units_one : units one = 2 ^ (- L).
Proof.
  cbn [Order.units one]. change 4503599627370496 with (2 ^ 52).
  rewrite <- Z.pow_add_r by lia. f_equal. lia.
Qed.

(** The quotient [k / n] of two ints with [0 < k <= n], rounded. *)
Lemma SFdiv_ints (k n : positive) :
  (k <= n)%positive ->
  let out := SFdiv prec emax (S754_finite false k 0) (S754_finite false n 0) in
  valid out /\ exists v, has_value out v /\ v <= units one.
Proof.
  intros Hkn out. subst out. cbn [SFdiv xorb]. unfold SFdiv_core_binary.
  set (d1 := Zdigits2 (Zpos k)). set (d2 := Zdigits2 (Zpos n)).
  replace (d1 + 0 - (d2 + 0)) with (d1 - d2) by lia.
  change (0 - 0) with 0.
  set (e' := Z.min (fexp (d1 - d2)) 0).
  assert (He' : -1074 <= e' <= 0) by (unfold e'; rewrite fexp_eq; lia).
  assert (Es : 0 - e' = - e') by lia. rewrite Es.
  set (m' := match - e' with Zpos _ => Z.shiftl (Zpos k) (- e') | 0 => Zpos k | Zneg _ => 0 end).
  assert (Hm' : m' = Zpos k * 2 ^ (- e')).
  { subst m'. destruct (- e') as [|p|p] eqn:E; [cbn; lia| |lia].
    apply Z.shiftl_mul_pow2. lia. }
  clearbody m'.
  pose proof (Z_div_mod m' (Zpos n) ltac:(lia)) as Hdm.
  assert (Eq : fst (Z.div_eucl m' (Zpos n)) = m' / Zpos n) by reflexivity.
  assert (Er : snd (Z.div_eucl m' (Zpos n)) = m' mod Zpos n) by reflexivity.
  destruct (Z.div_eucl m' (Zpos n)) as [q r]. cbn [fst snd] in Eq, Er.
  destruct Hdm as [Hdm Hr].
  assert (HS : 0 < 2 ^ (- e')) by (apply Z.pow_pos_nonneg; lia).
  assert (Hq0 : 0 <= q) by nia.
  pose proof (Zdigits2_bounds (Zpos k) ltac:(lia)) as [Hk1 Hk2]. fold d1 in Hk1, Hk2.
  pose proof (Zdigits2_bounds (Zpos n) ltac:(lia)) as [Hn1 Hn2]. fold d2 in Hn1, Hn2.
  assert (Hd1 : 0 < d1) by (unfold d1; cbn; lia).
  assert (Hd2 : 0 < d2) by (unfold d2; cbn; lia).
  split.
  - (* enough digits in the quotient *)
    apply round_aux_valid; [exact Hq0|].
    rewrite (fexp_eq (Zdigits2 q + e')).
    destruct (Z.eq_dec e' (-1074)) as [->|Hne]; [lia|].
    assert (Hx : 0 <= d1 - 1 - e' - d2 /\ 53 <= d1 - e' - d2)
      by (unfold e' in *; rewrite fexp_eq in *; lia).
    assert (Hqd : 2 ^ (d1 - 1 - e' - d2) <= q).
    { assert (E1 : 2 ^ (d1 - 1) * 2 ^ (- e') = 2 ^ (d1 - 1 - e' - d2) * 2 ^ d2)
        by (rewrite <- !Z.pow_add_r by lia; f_equal; lia).
      assert (0 < 2 ^ (d1 - 1 - e' - d2)) by (apply Z.pow_pos_nonneg; lia).
      assert (Hlt : 2 ^ (d1 - 1 - e' - d2) * Zpos n < (q + 1) * Zpos n) by nia.
      apply Z.mul_lt_mono_pos_r in Hlt; lia. }
    assert (Hdq : d1 - e' - d2 <= Zdigits2 q).
    { assert (0 < 2 ^ (d1 - 1 - e' - d2)) by (apply Z.pow_pos_nonneg; lia).
      rewrite Zdigits2_log2 by lia.
      pose proof (Z.log2_le_mono _ _ Hqd) as Hl.
      rewrite Z.log2_pow2 in Hl by lia. lia. }
    lia.
  - destruct (Pos.eq_dec k n) as [->|Hne].
    + (* equal ints: the quotient is one, exactly *)
      assert (Eq1 : q = 2 ^ (- e') /\ r = 0).
      { assert (m' = 2 ^ (- e') * Zpos n + 0) by lia.
        assert (HH := Zdiv_mod_unique (Zpos n) q (2 ^ (- e')) r 0).
        rewrite !Z.abs_eq in HH by lia. apply HH; lia. }
      destruct Eq1 as [-> ->]. rewrite new_location_exact.
      exists (Value.nearest L (2 ^ (- e') * 2 ^ (e' - L))).
      split; [apply round_has_value; lia|].
      rewrite <- Z.pow_add_r by lia. replace (- e' + (e' - L)) with (- L) by lia.
      rewrite <- units_one, (nearest_valid L ltac:(lia) one eq_refl). lia.
    + (* a smaller numerator: everything stays below one *)
      assert (Hlt : Zpos k < Zpos n) by lia.
      assert (Hq : q < 2 ^ (- e')).
      { assert (q * Zpos n < 2 ^ (- e') * Zpos n) by nia.
        apply Z.mul_lt_mono_pos_r in H; lia. }
      destruct (round_aux_upper false q e' (new_location (Zpos n) r) Hq0)
        as (m3 & e3 & -> & Hm3 & He3 & Hup).
      set (nn := Z.max 0 (fexp (Zdigits2 q + e') - e')) in *.
      assert (Hnn : 0 <= nn <= - e').
      { split; [unfold nn; lia|].
        assert (Zdigits2 q <= - e').
        { destruct (Z.eq_dec q 0) as [->|]; [cbn; lia|].
          pose proof (Zdigits2_bounds q ltac:(lia)) as [Hlo _].
          destruct (Z_le_gt_dec (Zdigits2 q) (- e')) as [|Hgt]; [assumption|exfalso].
          assert (2 ^ (- e') <= 2 ^ (Zdigits2 q - 1)) by (apply Z.pow_le_mono_r; lia). lia. }
        unfold nn. rewrite fexp_eq. lia. }
      exists (m3 * 2 ^ (e3 - L)). split; [apply result_has_value; lia|].
      rewrite units_one.
      replace (e3 - L) with (e3 - (e' + nn) + (e' + nn - L)) by lia.
      rewrite Z.pow_add_r, Z.mul_assoc by lia.
      replace (- L) with (- e' - nn + (e' + nn - L)) by lia.
      rewrite (Z.pow_add_r 2 (- e' - nn)) by lia.
      apply Z.mul_le_mono_nonneg_r; [apply Z.pow_nonneg; lia|].
      apply Z.le_trans with (1 := Hup).
      assert (q / 2 ^ nn < 2 ^ (- e' - nn)); [|lia].
      apply Z.div_lt_upper_bound; [apply Z.pow_pos_nonneg; lia|].
      rewrite <- Z.pow_add_r by lia. replace (nn + (- e' - nn)) with (- e') by lia. exact Hq.
Qed.

End Unit.
End Quotient.


(** ** Ranges of doubles *)

Module Range.
Import Round Nearest Value Order Ops Quotient Flt.

(** The unit of all values: [2^-2148], below the exponent of every
    product of two doubles. *)
Definition U : Z := -2148.

Lemma U_low : U <= -2148.
Proof. unfold U. lia. Qed.

Abbreviation units := (Order.units U).
Abbreviation has_value := (Order.has_value U).

(** [0 <= x <= b], as the doubles compare. *)
Definition in_range (x b : float) : Prop :=
  (0 <=? x)%float = true /\ (x <=? b)%float = true.

(** A bound far from overflow: zero, or positive with exponent at most
    900. *)
Definition small (b : spec_float) : Prop :=
  match b with
  | S754_zero _ => True
  | S754_finite false _ e => e <= 900
  | _ => False
  end.

Lemma small_fin (b : spec_float) : small b -> fin_nonneg b.
Proof. destruct b as [s|s| |[] m e]; cbn; auto. Qed.

Lemma small_units (b : spec_float) : valid b -> small b -> units b < 2 ^ (972 - U).
Proof.
  intros Hv Hs. destruct b as [s|s| |[] m e]; cbn [small] in Hs; try contradiction;
    cbn [Order.units].
  - apply Z.pow_pos_nonneg; unfold U; lia.
  - destruct (valid_finite _ _ _ Hv) as (_ & He & Hm & _).
    assert (0 < 2 ^ (e - U)) by (apply Z.pow_pos_nonneg; unfold U; lia).
    apply Z.lt_le_trans with (2 ^ 53 * 2 ^ (e - U)); [nia|].
    rewrite <- Z.pow_add_r by (unfold U; lia).
    apply Z.pow_le_mono_r; unfold U; lia.
Qed.

Lemma has_value_fin (out : spec_float) (v : Z) :
  has_value out v -> fin_nonneg out -> units out = v.
Proof.
  destruct out as [s|s| |[] m e]; cbn [Order.has_value fin_nonneg Order.units];
    intros H F; try contradiction; congruence.
Qed.

Lemma leb_zero_fin (x : float) :
  (0 <=? x)%float = true -> forall b, small (Prim2SF b) -> (x <=? b)%float = true ->
  fin_nonneg (Prim2SF x).
Proof.
  rewrite FloatAxioms.leb_spec, Prim2SF_zero. intros H0 b Hb. rewrite FloatAxioms.leb_spec.
  destruct (Prim2SF x) as [s|[]| |[] m e]; cbn in H0; try discriminate; try exact (fun _ => I).
  destruct (Prim2SF b) as [sb|sb| |[] mb eb]; cbn [small] in Hb; try contradiction;
    cbn; discriminate.
Qed.

Lemma fin_leb_zero (x : float) : fin_nonneg (Prim2SF x) -> (0 <=? x)%float = true.
Proof.
  rewrite FloatAxioms.leb_spec, Prim2SF_zero.
  destruct (Prim2SF x) as [s|s| |[] m e]; cbn; try contradiction; reflexivity.
Qed.

(** A range, read on values. *)
Lemma in_range_units (x b : float) :
  small (Prim2SF b) ->
  in_range x b <->
  fin_nonneg (Prim2SF x) /\ units (Prim2SF x) <= units (Prim2SF b).
Proof.
  intros Hb. unfold in_range. split.
  - intros [H0 H1]. pose proof (leb_zero_fin x H0 b Hb H1) as F. split; [exact F|].
    rewrite FloatAxioms.leb_spec in H1.
    rewrite (leb_units U U_low) in H1
      by (try apply Prim2SF_valid; try assumption; apply small_fin; assumption).
    apply Z.leb_le. exact H1.
  - intros [F H]. split; [apply fin_leb_zero; exact F|].
    rewrite FloatAxioms.leb_spec.
    rewrite (leb_units U U_low)
      by (try apply Prim2SF_valid; try assumption; apply small_fin; assumption).
    apply Z.leb_le. exact H.
Qed.

(** A result with a value under the value of a small bound is in range. *)
Lemma value_in_range (out b : float) (v v' : Z) :
  has_value (Prim2SF out) v -> has_value (Prim2SF b) v' ->
  small (Prim2SF b) -> v <= v' -> in_range out b.
Proof.
  intros H H' Hb Hle.
  pose proof (has_value_fin _ _ H' (small_fin _ Hb)) as E'.
  pose proof (small_units _ (Prim2SF_valid b) Hb) as Hs. rewrite E' in Hs.
  destruct (has_value_le U U_low _ _ _ _ H H' (Prim2SF_valid out) (Prim2SF_valid b) Hle Hs)
    as (F & _ & Hleb).
  split; [apply fin_leb_zero; exact F|]. rewrite FloatAxioms.leb_spec. exact Hleb.
Qed.

(** *** The four operations of the formulas *)

Lemma range_mul_l (c x X : float) :
  small (Prim2SF c) -> small (Prim2SF X) -> small (Prim2SF (c * X)) ->
  in_range x X -> in_range (c * x) (c * X).
Proof.
  intros Hc HX HcX Hx.
  apply (in_range_units x X HX) in Hx as [Fx Ux].
  apply (value_in_range _ _ (Value.nearest U (product U (Prim2SF c) (Prim2SF x)))
                            (Value.nearest U (product U (Prim2SF c) (Prim2SF X)))).
  - rewrite FloatAxioms.mul_spec.
    apply SFmul_value; try apply Prim2SF_valid; try apply U_low; try assumption.
    apply small_fin; assumption.
  - rewrite FloatAxioms.mul_spec.
    apply SFmul_value; try apply Prim2SF_valid; try apply U_low; apply small_fin; assumption.
  - exact HcX.
  - apply nearest_mono; [unfold U; lia|]. split; [apply product_nonneg|].
    rewrite (product_comm U (Prim2SF c) (Prim2SF x)), (product_comm U (Prim2SF c) (Prim2SF X)).
    apply product_mono_l; try apply Prim2SF_valid; try apply U_low; assumption.
Qed.

Lemma range_mul_r (c x X : float) :
  small (Prim2SF c) -> small (Prim2SF X) -> small (Prim2SF (X * c)) ->
  in_range x X -> in_range (x * c) (X * c).
Proof.
  intros Hc HX HcX Hx.
  apply (in_range_units x X HX) in Hx as [Fx Ux].
  apply (value_in_range _ _ (Value.nearest U (product U (Prim2SF x) (Prim2SF c)))
                            (Value.nearest U (product U (Prim2SF X) (Prim2SF c)))).
  - rewrite FloatAxioms.mul_spec.
    apply SFmul_value; try apply Prim2SF_valid; try apply U_low; try assumption.
    apply small_fin; assumption.
  - rewrite FloatAxioms.mul_spec.
    apply SFmul_value; try apply Prim2SF_valid; try apply U_low; apply small_fin; assumption.
  - exact HcX.
  - apply nearest_mono; [unfold U; lia|]. split; [apply product_nonneg|].
    apply product_mono_l; try apply Prim2SF_valid; try apply U_low; assumption.
Qed.

Lemma range_add (x y X Y : float) :
  small (Prim2SF X) -> small (Prim2SF Y) -> small (Prim2SF (X + Y)) ->
  in_range x X -> in_range y Y -> in_range (x + y) (X + Y).
Proof.
  intros HX HY HXY Hx Hy.
  apply (in_range_units x X HX) in Hx as [Fx Ux].
  apply (in_range_units y Y HY) in Hy as [Fy Uy].
  apply (value_in_range _ _ (Value.nearest U (units (Prim2SF x) + units (Prim2SF y)))
                            (Value.nearest U (units (Prim2SF X) + units (Prim2SF Y)))).
  - rewrite FloatAxioms.add_spec.
    apply SFadd_value; try apply Prim2SF_valid; try apply U_low; assumption.
  - rewrite FloatAxioms.add_spec.
    apply SFadd_value; try apply Prim2SF_valid; try apply U_low; apply small_fin; assumption.
  - exact HXY.
  - apply nearest_mono; [unfold U; lia|].
    pose proof (units_nonneg U (Prim2SF x)). pose proof (units_nonneg U (Prim2SF y)). lia.
Qed.

Lemma small_one : small (Prim2SF 1).
Proof. vm_compute. discriminate. Qed.

Lemma range_sub_one (x : float) : in_range x 1 -> in_range (1 - x) 1.
Proof.
  intros Hx. apply (in_range_units x 1 small_one) in Hx as [Fx Ux].
  apply (value_in_range _ _ (Value.nearest U (units (Prim2SF 1) - units (Prim2SF x)))
                            (Value.nearest U (units (Prim2SF 1)))).
  - rewrite FloatAxioms.sub_spec.
    apply SFsub_value; try apply Prim2SF_valid; try apply U_low; try assumption.
    exact I.
  - rewrite (nearest_valid U ltac:(unfold U; lia) _ (Prim2SF_valid 1)). reflexivity.
  - exact small_one.
  - apply nearest_mono; [unfold U; lia|].
    pose proof (units_nonneg U (Prim2SF x)). lia.
Qed.

End Range.


(** ** Ints against doubles *)

Module Mixed.
Import Round Nearest Value Order Ops Quotient Flt Range.

Lemma compare_scale (a b c : Z) : 0 < c -> (a * c ?= b * c) = (a ?= b).
Proof.
  intros Hc. destruct (Z.compare_spec a b).
  - subst. apply Z.compare_refl.
  - apply Z.compare_lt_iff. nia.
  - apply Z.compare_gt_iff. nia.
Qed.

(** The exact comparison of an int with a double, on values. *)
Lemma Z_float_compare_units (z : Z) (f : float) :
  fin_nonneg (Prim2SF f) ->
  Num.Z_float_compare z f = Some (z * 2 ^ (- U) ?= units (Prim2SF f)).
Proof.
  intros F. pose proof (Prim2SF_valid f) as V. unfold Num.Z_float_compare.
  destruct (Prim2SF f) as [s|s| |[] m e]; cbn [fin_nonneg] in F; try contradiction;
    cbn [Order.units]; f_equal.
  - assert (Hc : 0 < 2 ^ (- U)) by (apply Z.pow_pos_nonneg; unfold U; lia).
    rewrite <- (compare_scale z 0 (2 ^ (- U)) Hc). reflexivity.
  - destruct (valid_finite _ _ _ V) as (_ & He & _).
    destruct (Z.leb_spec 0 e) as [H0|H0].
    + assert (Hc : 0 < 2 ^ (- U)) by (apply Z.pow_pos_nonneg; unfold U; lia).
      replace (e - U) with (e + - U) by lia.
      rewrite (Z.pow_add_r 2 e (- U)) by (unfold U; lia).
      rewrite Z.mul_assoc. symmetry. apply compare_scale. exact Hc.
    + assert (Hc : 0 < 2 ^ (e - U)) by (apply Z.pow_pos_nonneg; unfold U; lia).
      replace (- U) with (- e + (e - U)) by lia.
      rewrite (Z.pow_add_r 2 (- e) (e - U)) by (unfold U; lia).
      rewrite Z.mul_assoc. symmetry. apply compare_scale. exact Hc.
Qed.

Lemma small_100 : small (Prim2SF 100).
Proof. vm_compute. discriminate. Qed.

Lemma units_100 : units (Prim2SF 100) = 100 * 2 ^ (- U).
Proof. vm_compute. reflexivity. Qed.

(** [0 <= v <= 100], as Python compares a number with the two ints. *)
Definition within (v : pyval) : Prop :=
  Num.le (PInt 0) v = Ok true /\ Num.le v (PInt 100) = Ok true.

Lemma in_range_within (f : float) : in_range f 100 -> within (PFloat f).
Proof.
  intros H. apply (in_range_units f 100 small_100) in H as [F Hu].
  rewrite units_100 in Hu. pose proof (units_nonneg U (Prim2SF f)) as H0.
  unfold within, Num.le, Num.compare. cbn [mbind result_bind].
  rewrite !(Z_float_compare_units _ f F). cbn [option_map]. split.
  - change (0 * 2 ^ (- U)) with 0.
    destruct (Z.compare_spec 0 (units (Prim2SF f))); try reflexivity; lia.
  - destruct (Z.compare_spec (100 * 2 ^ (- U)) (units (Prim2SF f))); try reflexivity; lia.
Qed.

Lemma within_in_range (f : float) : within (PFloat f) -> in_range f 100.
Proof.
  unfold within, Num.le, Num.compare. cbn [mbind result_bind]. intros [H0 H1].
  assert (F : fin_nonneg (Prim2SF f)).
  { unfold Num.Z_float_compare in H0, H1. pose proof (Prim2SF_valid f) as V.
    destruct (Prim2SF f) as [s|[]| |[] m e]; cbn [fin_nonneg]; try exact I;
      cbn [option_map CompOpp] in H0, H1; try discriminate.
    exfalso. clear H1. destruct (Z.leb_spec 0 e) as [He|He].
    - assert (0 < 2 ^ e) by (apply Z.pow_pos_nonneg; lia).
      destruct (Z.compare_spec 0 (Z.neg m * 2 ^ e)); try discriminate; nia.
    - discriminate. }
  apply (in_range_units f 100 small_100). split; [exact F|].
  rewrite units_100. rewrite (Z_float_compare_units _ f F) in H1. cbn [option_map] in H1.
  destruct (Z.compare_spec (100 * 2 ^ (- U)) (units (Prim2SF f))); cbn in H1;
    try discriminate; lia.
Qed.

(** A double in range is no infinity. *)
Lemma fin_not_infinity (f : float) : fin_nonneg (Prim2SF f) -> is_infinity f = false.
Proof.
  unfold is_infinity. rewrite FloatAxioms.eqb_spec, FloatAxioms.abs_spec.
  destruct (Prim2SF f) as [s|s| |[] m e]; cbn [fin_nonneg]; intros F; try contradiction;
    reflexivity.
Qed.

(** The quotient of two ints [0 <= k <= n], [0 < n], is a double of
    [0, 1]. *)
Lemma int_truediv_range (k n : Z) :
  0 <= k <= n -> 0 < n ->
  exists fd, Num.int_truediv k n = Ok fd /\ in_range fd 1.
Proof.
  intros Hk Hn. destruct n as [|pn|pn]; try lia.
  destruct k as [|pk|pk]; try lia.
  - exists 0%float. split; [reflexivity|]. split; vm_compute; reflexivity.
  - destruct (SFdiv_ints U U_low pk pn ltac:(lia)) as (V & v & Hv & Hle).
    unfold Num.int_truediv. cbn [Num.Z2SF].
    set (out := SFdiv prec emax (S754_finite false pk 0) (S754_finite false pn 0)) in *.
    assert (R : in_range (SF2Prim out) 1).
    { apply (value_in_range _ _ v (units one)).
      - rewrite (Prim2SF_SF2Prim _ V). exact Hv.
      - reflexivity.
      - exact small_one.
      - exact Hle. }
    pose proof (proj1 (in_range_units _ _ small_one) R) as [F _].
    rewrite (fin_not_infinity _ F). eauto.
Qed.

(** An int percentage converts to a double of [0, 100]. *)
Definition percent_converts (z : Z) : bool :=
  match Num.float_of_Z z with
  | Ok f => (0 <=? f)%float && (f <=? 100)%float
  | Raise _ => false
  end.

Lemma percent_table : forallb percent_converts (map Z.of_nat (seq 0 101)) = true.
Proof. vm_compute. reflexivity. Qed.

Lemma float_of_Z_range (z : Z) :
  0 <= z <= 100 -> exists f, Num.float_of_Z z = Ok f /\ in_range f 100.
Proof.
  intros Hz. pose proof percent_table as T. rewrite forallb_forall in T.
  specialize (T z). unfold percent_converts in T.
  destruct (Num.float_of_Z z) as [f|].
  - exists f. split; [reflexivity|]. apply andb_true_iff. apply T.
    apply in_map_iff. exists (Z.to_nat z). split; [lia|]. apply in_seq. lia.
  - exfalso. enough (false = true) by discriminate. apply T.
    apply in_map_iff. exists (Z.to_nat z). split; [lia|]. apply in_seq. lia.
Qed.

End Mixed.


(** * Properties *)

Import Calc.

(** The calculator built by [QualityRatingCalculator(junit, jacoco)]. *)
Definition calculator (junit jacoco : option dict) : QualityRatingCalculator :=
  {| junit_data := junit; jacoco_data := jacoco |}.

(** The three NoData records and the performance note. *)
Definition no_junit : dict := Dict.of_list [("error", PStr "No JUnit data available")].
Definition no_tests : dict := Dict.of_list [("error", PStr "No tests executed")].
Definition no_jacoco : dict := Dict.of_list [("error", PStr "No JaCoCo data available")].
Definition no_signal : dict :=
  Dict.of_list [("note", PStr "No performance data, assuming optimal")].

(** The scenario of the specification. *)
Definition scenario_run : dict :=
  Dict.of_list
    [ ("total_tests", PInt 100); ("passed", PInt 95); ("failures", PInt 3);
      ("errors", PInt 2); ("skipped", PInt 0); ("execution_time", PFloat 45.0) ].
Definition scenario_cov : dict :=
  Dict.of_list [ ("line_coverage", PInt 85); ("branch_coverage", PInt 70) ].
Definition scenario : QualityRatingCalculator :=
  calculator (Some scenario_run) (Some scenario_cov).

(** A scorer returns a pair [(score, details)]: its two halves, and the
    entry of the details under a path of keys. *)
Definition score (r : result (pyval * dict)) : result pyval :=
  '(v, _) ← r; Ok v.
Definition details (r : result (pyval * dict)) : result dict :=
  '(_, d) ← r; Ok d.
Definition detail (r : result (pyval * dict)) (keys : list string) : result pyval :=
  d ← details r; Dict.path (PDict d) keys.

(** ** Dictionaries *)

Lemma truth_of_lookup (d : dict) (k : string) (v : pyval) :
  d !! k = Some v -> Dict.truth (Some d) = true.
Proof.
  intros H. unfold Dict.truth.
  destruct (size d) eqn:E; [|reflexivity].
  apply map_size_empty_inv in E. subst d. rewrite lookup_empty in H. discriminate.
Qed.

Lemma get_lookup (d : dict) (k : string) (v : pyval) :
  d !! k = Some v -> Dict.get d k (PInt 0) = v.
Proof. intros H. unfold Dict.get. rewrite H. reflexivity. Qed.

Lemma get_missing (d : dict) (k : string) :
  d !! k = None -> Dict.get d k (PInt 0) = PInt 0.
Proof. intros H. unfold Dict.get. rewrite H. reflexivity. Qed.

(** A field that reads as a non-zero int is a field the dict has. *)
Lemma get_nonzero_truth (d : dict) (k : string) (n : Z) :
  Dict.get d k (PInt 0) = PInt n -> n <> 0 -> Dict.truth (Some d) = true.
Proof.
  unfold Dict.get. destruct (d !! k) as [v|] eqn:E; cbn [default]; intros H Hn.
  - exact (truth_of_lookup _ _ _ E).
  - congruence.
Qed.

(** The entry of a dict display under a key: the last one written. *)
Fixpoint assoc_last {V : Type} (key : string) (l : list (string * V)) : option V :=
  match l with
  | [] => None
  | (k, v) :: rest =>
      match assoc_last key rest with
      | Some v' => Some v'
      | None => if String.eqb key k then Some v else None
      end
  end.

Lemma of_list_lookup {V : Type} (l : list (string * V)) (key : string) :
  Dict.of_list l !! key = assoc_last key l.
Proof.
  unfold Dict.of_list. induction l as [|[k v] rest IH]; [apply lookup_empty|].
  cbn [rev assoc_last]. rewrite list_to_map_app, lookup_union, IH.
  destruct (assoc_last key rest) as [v'|].
  - destruct (list_to_map [(k, v)] !! key); reflexivity.
  - cbn [list_to_map foldr]. rewrite left_id by apply _.
    destruct (String.eqb_spec key k) as [->|Hne].
    + apply lookup_insert_eq.
    + rewrite lookup_insert_ne by (intros E; apply Hne; symmetry; exact E).
      apply lookup_empty.
Qed.

(** Reads an entry of a record written as a display, leaving the values
    of the record alone. *)
Ltac read_entry :=
  cbn [detail details score Dict.path foldl Dict.item Dict.subscript mbind result_bind];
  rewrite ?of_list_lookup;
  cbv [assoc_last String.eqb Ascii.eqb Bool.eqb];
  try reflexivity.

Lemma float_of_Z_0 : Num.float_of_Z 0 = Ok 0%float.
Proof. reflexivity. Qed.
Lemma float_of_Z_1 : Num.float_of_Z 1 = Ok 1%float.
Proof. vm_compute. reflexivity. Qed.
Lemma float_of_Z_100 : Num.float_of_Z 100 = Ok 100%float.
Proof. vm_compute. reflexivity. Qed.

Lemma int_truediv_0 (p : positive) : Num.int_truediv 0 (Zpos p) = Ok 0%float.
Proof. reflexivity. Qed.

(** Closed goals are settled by evaluation. *)
Ltac conjuncts := intros; repeat match goal with |- _ /\ _ => split end.
Ltac by_eval := conjuncts; vm_compute; reflexivity.

Ltac run_method :=
  unfold returned, state_after, calculate_reliability_score,
    calculate_maintainability_score, calculate_performance_score,
    mbind, Py_bind, self_junit_data, self_jacoco_data, calculator;
  cbn [junit_data jacoco_data].

(** ** The rating table *)

(** C1: [_get_rating] does not send every score of [0,100] to the band
    the closed real intervals with lower bounds 90/80/70/60 give: the
    bands of the table end at 89, 79, 69 and 59, so the fractional scores
    89.5, 89.999 and 79.99 match no band and fall to the default E. *)
Theorem get_rating_fractional_gap (self : QualityRatingCalculator) :
  returned (_get_rating (PFloat 89.5)) self = Ok "E" /\
  returned (_get_rating (PFloat 89.999)) self = Ok "E" /\
  returned (_get_rating (PFloat 79.99)) self = Ok "E" /\
  returned (_get_rating (PFloat 89)) self = Ok "B" /\
  returned (_get_rating (PFloat 90)) self = Ok "A".
Proof. by_eval. Qed.

(** The lookup itself is total on numbers: one of the five letters. *)
Lemma between_total (lo hi : Z) (wqs : pyval) :
  (exists z, wqs = PInt z) \/ (exists f, wqs = PFloat f) ->
  exists b, between lo wqs hi = Ok b.
Proof.
  intros [[z ->]|[f ->]]; unfold between, Num.le; cbn;
    repeat (match goal with |- context [match ?c with _ => _ end] => destruct c end; cbn);
    eauto.
Qed.

Lemma get_rating_letter (wqs : pyval) (self : QualityRatingCalculator) :
  (exists z, wqs = PInt z) \/ (exists f, wqs = PFloat f) ->
  exists r, returned (_get_rating wqs) self = Ok r /\ In r ["A"; "B"; "C"; "D"; "E"].
Proof.
  intros Hn. unfold returned, _get_rating, lift, RATING_RANGES; cbn [fst rating_loop].
  destruct (between_total 90 100 wqs Hn) as [b1 ->];
  destruct (between_total 80 89 wqs Hn) as [b2 ->];
  destruct (between_total 70 79 wqs Hn) as [b3 ->];
  destruct (between_total 60 69 wqs Hn) as [b4 ->];
  destruct (between_total 0 59 wqs Hn) as [b5 ->].
  destruct b1, b2, b3, b4, b5; cbn; eexists; (split; [reflexivity|cbn; tauto]).
Qed.

(** ** Scenarios *)

(** C2, as the specification states it, fails: with both summaries
    absent the performance score is not 100 and the composite score is
    not 20. *)
Lemma absent_inputs_not_20 :
  ~ (score (returned calculate_performance_score (calculator None None)) = Ok (PFloat 100) /\
     score (returned calculate_weighted_quality_score (calculator None None)) = Ok (PFloat 20)).
Proof.
  intros [_ H].
  apply (f_equal (fun r => match r with
                           | Ok (PFloat f) => (f =? 20)%float
                           | _ => false
                           end)) in H.
  vm_compute in H. discriminate.
Qed.

(** C2, amended: with both summaries absent every scorer takes its
    absent-data guard, which returns 0.0 with an error record also in the
    performance scorer; the composite score is 0.0 and the rating E. *)
Theorem absent_inputs_score_zero :
  let wqs := returned calculate_weighted_quality_score (calculator None None) in
  returned calculate_performance_score (calculator None None) = Ok (PFloat 0, no_junit) /\
  score wqs = Ok (PFloat 0) /\
  detail wqs ["scores"; "reliability"] = Ok (PFloat 0) /\
  detail wqs ["scores"; "maintainability"] = Ok (PFloat 0) /\
  detail wqs ["scores"; "performance"] = Ok (PFloat 0) /\
  detail wqs ["rating"] = Ok (PStr "E").
Proof. by_eval. Qed.

(** C3: on the scenario of the specification the three scores and the
    composite score are the stated ones (95.0, 79.0, 100.0 and the double
    89.6), but the rating is E, not B: 89.6 lies above the upper bound 89
    of band B and below the lower bound 90 of band A. *)
Theorem scenario_scores_and_rating :
  let wqs := returned calculate_weighted_quality_score scenario in
  score (returned calculate_reliability_score scenario) = Ok (PFloat 95) /\
  score (returned calculate_maintainability_score scenario) = Ok (PFloat 79) /\
  score (returned calculate_performance_score scenario) = Ok (PFloat 100) /\
  detail (returned calculate_performance_score scenario) ["avg_test_time"] = Ok (PFloat 0.45) /\
  score wqs = Ok (PFloat 89.6) /\
  detail wqs ["rating"] = Ok (PStr "E").
Proof. by_eval. Qed.

(** ** The scorers on their guards *)

(** C4: with a non-empty [junit_data] whose [total_tests] or
    [execution_time] equals 0, the performance scorer returns 100.0 with a
    note, and no error entry; the reliability scorer returns 0.0 with an
    error entry when [total_tests] is 0, and so do the reliability and
    maintainability scorers when their summary is absent. *)
Theorem performance_no_signal (jd : dict) (junit jacoco : option dict) :
  Dict.truth (Some jd) = true ->
  Num.eq_int (Dict.get jd "total_tests" (PInt 0)) 0 = true \/
  Num.eq_int (Dict.get jd "execution_time" (PInt 0)) 0 = true ->
  returned calculate_performance_score (calculator (Some jd) jacoco)
    = Ok (PFloat 100, no_signal) /\
  no_signal !! "note" = Some (PStr "No performance data, assuming optimal") /\
  no_signal !! "error" = None /\
  (Num.eq_int (Dict.get jd "total_tests" (PInt 0)) 0 = true ->
   returned calculate_reliability_score (calculator (Some jd) jacoco)
     = Ok (PFloat 0, no_tests)) /\
  returned calculate_reliability_score (calculator None jacoco) = Ok (PFloat 0, no_junit) /\
  returned calculate_maintainability_score (calculator junit None) = Ok (PFloat 0, no_jacoco) /\
  no_tests !! "error" = Some (PStr "No tests executed") /\
  no_junit !! "error" = Some (PStr "No JUnit data available") /\
  no_jacoco !! "error" = Some (PStr "No JaCoCo data available").
Proof.
  intros Ht Hz.
  split.
  { run_method. rewrite Ht. cbn [negb].
    destruct Hz as [-> | ->]; [reflexivity | rewrite orb_true_r; reflexivity]. }
  split; [by_eval|]. split; [by_eval|].
  split.
  { intros H0. run_method. rewrite Ht. cbn [negb]. rewrite H0. reflexivity. }
  split; [reflexivity|]. split; [reflexivity|]. by_eval.
Qed.

Definition empty_run : dict :=
  Dict.of_list [("total_tests", PInt 0); ("execution_time", PFloat 1.5)].

Lemma performance_no_signal_witness :
  returned calculate_performance_score (calculator (Some empty_run) None)
    = Ok (PFloat 100, no_signal).
Proof.
  refine (proj1 (performance_no_signal empty_run None None _ _)).
  - vm_compute. reflexivity.
  - left. vm_compute. reflexivity.
Defined.

(** C5: on a run whose counts are ints, the reliability score is
    [(1 - (failures + errors) / total_tests) * 100] in double arithmetic
    whenever [total_tests] is not 0; it is exactly 100.0 when
    [total_tests > 0] and there are no failures and no errors; and when
    [total_tests] is 0 it is 0.0, with a record that holds only an error
    entry. *)
Theorem reliability_formula (jd : dict) (jacoco : option dict) (total failures errors : Z) :
  Dict.get jd "total_tests" (PInt 0) = PInt total ->
  Dict.get jd "failures" (PInt 0) = PInt failures ->
  Dict.get jd "errors" (PInt 0) = PInt errors ->
  let r := returned calculate_reliability_score (calculator (Some jd) jacoco) in
  (total <> 0 ->
   forall fault_density : float,
     Num.int_truediv (failures + errors) total = Ok fault_density ->
     score r = Ok (PFloat ((1 - fault_density) * 100)) /\
     detail r ["fault_density"] = Ok (PFloat (fault_density * 100))) /\
  (0 < total -> failures = 0 -> errors = 0 -> score r = Ok (PFloat 100)) /\
  (total = 0 ->
   score r = Ok (PFloat 0) /\
   exists msg, details r = Ok (Dict.of_list [("error", PStr msg)])).
Proof.
  intros Ht Hf He r.
  assert (Hgen : total <> 0 ->
    forall fault_density : float,
      Num.int_truediv (failures + errors) total = Ok fault_density ->
      score r = Ok (PFloat ((1 - fault_density) * 100)) /\
      detail r ["fault_density"] = Ok (PFloat (fault_density * 100))).
  { intros Hn fd Hfd. subst r. run_method.
    rewrite (get_nonzero_truth _ _ _ Ht Hn). cbn [negb].
    rewrite Ht, Hf, He. cbn [Num.eq_int].
    destruct (Z.eqb_spec total 0) as [|_]; [contradiction|].
    cbn [lift Num.add Num.truediv].
    destruct (Z.eqb_spec total 0) as [|_]; [contradiction|].
    rewrite Hfd.
    cbn [mbind result_bind Num.sub Num.mul Num.fmul]. rewrite float_of_Z_1, float_of_Z_100.
    cbn [mbind result_bind Num.sub Num.mul Num.fmul Fmt.fixed mret Py_ret fst].
    split; [reflexivity|]. read_entry. }
  split; [exact Hgen|]. split.
  - intros Hpos -> ->.
    destruct total as [|p|p]; try lia.
    destruct (Hgen ltac:(lia) _ (int_truediv_0 p)) as [-> _].
    vm_compute. reflexivity.
  - intros ->. subst r. run_method.
    destruct (Dict.truth (Some jd)); cbn [negb].
    + rewrite Ht. cbn. split; [reflexivity|]. eexists. reflexivity.
    + cbn. split; [reflexivity|]. eexists. reflexivity.
Qed.

Lemma reliability_formula_witness :
  score (returned calculate_reliability_score scenario) = Ok (PFloat ((1 - 0.05) * 100)).
Proof.
  refine (proj1 (proj1 (reliability_formula scenario_run (Some scenario_cov) 100 3 2 _ _ _) _ 0.05%float _)).
  - vm_compute. reflexivity.
  - vm_compute. reflexivity.
  - vm_compute. reflexivity.
  - lia.
  - vm_compute. reflexivity.
Defined.

(** C6: on a coverage summary whose percentages are floats, the
    maintainability score is [0.6 * line_coverage + 0.4 * branch_coverage]
    in double arithmetic, and so is the testability score of
    MaintainabilityMetrics; with both percentages 100 both are exactly
    100.0. *)
Theorem maintainability_formula (jc : dict) (junit : option dict) (lc bc : float) :
  jc !! "line_coverage" = Some (PFloat lc) ->
  jc !! "branch_coverage" = Some (PFloat bc) ->
  let r := returned calculate_maintainability_score (calculator junit (Some jc)) in
  score r = Ok (PFloat (0.6 * lc + 0.4 * bc)) /\
  MaintainabilityMetrics.get_testability_score jc = Ok (PFloat (lc * 0.6 + bc * 0.4)) /\
  (lc = 100%float -> bc = 100%float ->
   score r = Ok (PFloat 100) /\
   MaintainabilityMetrics.get_testability_score jc = Ok (PFloat 100)).
Proof.
  intros Hl Hb r.
  assert (Hs : score r = Ok (PFloat (0.6 * lc + 0.4 * bc))).
  { subst r. run_method.
    rewrite (truth_of_lookup _ _ _ Hl). cbn [negb].
    rewrite (get_lookup _ _ _ Hl), (get_lookup _ _ _ Hb).
    reflexivity. }
  assert (Ht : MaintainabilityMetrics.get_testability_score jc
               = Ok (PFloat (lc * 0.6 + bc * 0.4))).
  { unfold MaintainabilityMetrics.get_testability_score.
    rewrite (get_lookup _ _ _ Hl), (get_lookup _ _ _ Hb). reflexivity. }
  split; [exact Hs|]. split; [exact Ht|].
  intros -> ->. rewrite Hs, Ht. split; vm_compute; reflexivity.
Qed.

Definition full_cov : dict :=
  Dict.of_list [("line_coverage", PFloat 100); ("branch_coverage", PFloat 100)].

Lemma maintainability_formula_witness :
  score (returned calculate_maintainability_score (calculator None (Some full_cov)))
    = Ok (PFloat 100).
Proof.
  refine (proj1 (proj2 (proj2 (maintainability_formula full_cov None 100 100 _ _)) _ _)).
  - vm_compute. reflexivity.
  - vm_compute. reflexivity.
  - reflexivity.
  - reflexivity.
Defined.

(** C10: a non-empty [jacoco_data] without [line_coverage] or
    [branch_coverage] is scored, each missing percentage read as the int
    0, and the record returned has no error entry; no non-empty
    [jacoco_data] ever yields the error record, which is returned exactly
    for the absent and the empty summary. *)
Theorem maintainability_missing_fields (jc : dict) (junit : option dict) :
  Dict.truth (Some jc) = true ->
  let r := returned calculate_maintainability_score (calculator junit (Some jc)) in
  (jc !! "line_coverage" = None -> jc !! "branch_coverage" = None ->
   score r = Ok (PFloat 0) /\
   detail r ["line_coverage"] = Ok (PInt 0) /\
   detail r ["branch_coverage"] = Ok (PInt 0)) /\
  (forall bc : float,
     jc !! "line_coverage" = None -> jc !! "branch_coverage" = Some (PFloat bc) ->
     score r = Ok (PFloat (0.6 * 0 + 0.4 * bc)) /\
     detail r ["line_coverage"] = Ok (PInt 0)) /\
  (forall lc : float,
     jc !! "line_coverage" = Some (PFloat lc) -> jc !! "branch_coverage" = None ->
     score r = Ok (PFloat (0.6 * lc + 0.4 * 0)) /\
     detail r ["branch_coverage"] = Ok (PInt 0)) /\
  (forall d, details r = Ok d -> d !! "error" = None) /\
  returned calculate_maintainability_score (calculator junit None) = Ok (PFloat 0, no_jacoco) /\
  returned calculate_maintainability_score (calculator junit (Some ∅)) = Ok (PFloat 0, no_jacoco).
Proof.
  intros Ht r. subst r. run_method. rewrite Ht. cbn [negb].
  split.
  { intros Hl Hb. rewrite (get_missing _ _ Hl), (get_missing _ _ Hb).
    cbn [lift Num.fmul]. rewrite float_of_Z_0.
    cbn [mbind result_bind Num.add Fmt.fixed mret Py_ret fst]. rewrite float_of_Z_0.
    cbn [mbind result_bind].
    split; [reflexivity|]. split; read_entry. }
  split.
  { intros bc Hl Hb. rewrite (get_missing _ _ Hl), (get_lookup _ _ _ Hb).
    cbn [lift Num.fmul]. rewrite float_of_Z_0.
    cbn [mbind result_bind Num.add Fmt.fixed mret Py_ret fst]. rewrite float_of_Z_0.
    cbn [mbind result_bind].
    split; [reflexivity|]. read_entry. }
  split.
  { intros lc Hl Hb. rewrite (get_lookup _ _ _ Hl), (get_missing _ _ Hb).
    cbn [lift Num.fmul]. rewrite float_of_Z_0.
    cbn [mbind result_bind Num.add Fmt.fixed mret Py_ret fst]. rewrite float_of_Z_0.
    cbn [mbind result_bind].
    split; [reflexivity|]. read_entry. }
  split; [|split; reflexivity].
  intros d.
  unfold lift.
  destruct (Num.fmul 0.6 _) as [wl|]; cbn [fst details mbind result_bind]; [|discriminate].
  destruct (Num.fmul 0.4 _) as [wb|]; cbn [fst details mbind result_bind]; [|discriminate].
  destruct (Num.add wl wb) as [ms|]; cbn [fst details mbind result_bind]; [|discriminate].
  destruct (Fmt.fixed 2 (Dict.get jc "line_coverage" _)) as [s1|];
    cbn [fst details mbind result_bind]; [|discriminate].
  destruct (Fmt.fixed 2 (Dict.get jc "branch_coverage" _)) as [s2|];
    cbn [fst details mbind result_bind]; [|discriminate].
  destruct (Fmt.fixed 2 ms) as [s3|]; cbn [fst details mbind result_bind]; [|discriminate].
  cbn [mret Py_ret fst]. intros [= <-]. read_entry.
Qed.

Definition bare_cov : dict := Dict.of_list [("package_details", PList [])].

Lemma maintainability_missing_fields_witness :
  score (returned calculate_maintainability_score (calculator None (Some bare_cov)))
    = Ok (PFloat 0).
Proof.
  refine (proj1 (proj1 (maintainability_missing_fields bare_cov None _) _ _)).
  - vm_compute. reflexivity.
  - vm_compute. reflexivity.
  - vm_compute. reflexivity.
Defined.

(** ** The performance scorer *)

Section Performance.
Import Flt.

Variables (jd : dict) (jacoco : option dict) (n : Z) (t fn : float).
Hypothesis tests_field : jd !! "total_tests" = Some (PInt n).
Hypothesis time_field : jd !! "execution_time" = Some (PFloat t).
Hypothesis tests_positive : 0 < n.
Hypothesis time_positive : (0 <? t)%float = true.
Hypothesis tests_convert : Num.float_of_Z n = Ok fn.

(** The score proper, from the average time per test. *)
Definition score_of_average (avg : float) : result pyval :=
  fast ← Num.le (PFloat avg) (PFloat PERFORMANCE_THRESHOLD);
  if (fast : bool) then Ok (PFloat 100)
  else
    ratio ← Num.truediv (PFloat PERFORMANCE_THRESHOLD) (PFloat avg);
    scaled ← Num.mul ratio (PInt 100);
    Num.min (PInt 100) scaled.

(** The score by cases on the comparison of a non-negative average
    with the threshold. *)
Lemma score_of_average_cases (avg : float) :
  nonneg avg ->
  ((avg <=? PERFORMANCE_THRESHOLD)%float = true /\ score_of_average avg = Ok (PFloat 100)) \/
  ((avg <=? PERFORMANCE_THRESHOLD)%float = false /\
   exists x, score_of_average avg = Ok x /\ (x = PInt 100 \/
     exists f, x = PFloat f /\ nonneg f /\ Num.lt (PFloat f) (PInt 100) = Ok true)).
Proof.
  intros Havg.
  unfold score_of_average, Num.le, Num.compare. cbn [mbind result_bind].
  rewrite leb_compare.
  destruct (Num.float_compare avg PERFORMANCE_THRESHOLD) as [[]|] eqn:Ec;
    try (left; split; reflexivity); right; (split; [reflexivity|]).
  - (* above the threshold *)
    assert (Hpos : is_pos (Prim2SF avg))
      by exact (above_nonneg_pos avg PERFORMANCE_THRESHOLD Havg eq_refl Ec).
    cbn [Num.truediv]. rewrite (pos_not_zero avg Hpos). cbn [mbind result_bind Num.mul Num.fmul].
    rewrite float_of_Z_100. cbn [mbind result_bind].
    set (x := (PERFORMANCE_THRESHOLD / avg * 100)%float).
    assert (Hx : nonneg x).
    { unfold nonneg, x. rewrite FloatAxioms.mul_spec, FloatAxioms.div_spec.
      change (Prim2SF 100) with (S754_finite false 7036874417766400 (-46)).
      apply SFmul_nonneg.
      change (Prim2SF PERFORMANCE_THRESHOLD) with (S754_finite false 4503599627370496 (-53)).
      apply SFdiv_finite_pos_nonneg. exact Hpos. }
    unfold Num.min. destruct (Num.lt (PFloat x) (PInt 100)) as [[]|] eqn:El;
      cbn [mbind result_bind].
    + eexists. split; [reflexivity|]. right. eexists. repeat split; eauto.
    + eexists. split; [reflexivity|]. left. reflexivity.
    + unfold Num.lt, Num.compare in El. cbn in El. discriminate.
  - (* not comparable: the average is no NaN *)
    exfalso. exact (compare_nonneg_defined avg PERFORMANCE_THRESHOLD Havg eq_refl Ec).
Qed.

(** The average time per test is a non-negative number. *)
Lemma average_nonneg : nonneg (t / fn).
Proof.
  pose proof (pos_of_ltb t time_positive) as Ht.
  pose proof (float_of_Z_nonneg n fn ltac:(lia) tests_convert) as Hfn.
  destruct (float_of_Z_spec n fn tests_convert) as [_ Hinf].
  exact (div_pos_nonneg t fn Ht Hfn Hinf).
Qed.

Lemma performance_run (ps : pyval) :
  score_of_average (t / fn) = Ok ps ->
  (exists s, Fmt.fixed 2 ps = Ok s) ->
  score (returned calculate_performance_score (calculator (Some jd) jacoco)) = Ok ps /\
  detail (returned calculate_performance_score (calculator (Some jd) jacoco))
    ["avg_test_time"] = Ok (PFloat (t / fn)).
Proof.
  intros Hps [s2 Hs2].
  pose proof (pos_of_ltb t time_positive) as Ht.
  run_method. rewrite (truth_of_lookup _ _ _ tests_field). cbn [negb].
  rewrite (get_lookup _ _ _ tests_field), (get_lookup _ _ _ time_field).
  cbn [Num.eq_int]. rewrite (zero_lt_pos t Ht).
  destruct (Z.eqb_spec n 0) as [|_]; [lia|]. cbn [orb].
  unfold lift. cbn [Num.truediv]. rewrite tests_convert. cbn [mbind result_bind].
  destruct (Z.eqb_spec n 0) as [|_]; [lia|].
  rewrite (pos_not_zero t Ht).
  unfold score_of_average in Hps.
  destruct (Num.le (PFloat (t / fn)) (PFloat PERFORMANCE_THRESHOLD)) as [fast|] eqn:Efast;
    [|discriminate].
  cbn [mbind result_bind] in Hps.
  assert (Hrest : Num.lt (PInt 0) (PFloat t) = Ok true)
    by (unfold Num.lt, Num.compare; rewrite (zero_lt_pos t Ht); reflexivity).
  destruct fast.
  - injection Hps as <-. cbn [mret Py_ret]. rewrite Hrest.
    cbn [mbind result_bind Fmt.fixed mret Py_ret fst].
    split; [reflexivity|]. read_entry.
  - cbn [Num.truediv] in Hps. destruct (t / fn =? 0)%float; [discriminate|].
    cbn [mbind result_bind] in Hps.
    destruct (Num.mul _ (PInt 100)) as [scaled|]; [|discriminate].
    cbn [mbind result_bind] in Hps. rewrite Hps, Hrest.
    cbn [mbind result_bind Fmt.fixed mret Py_ret fst]. rewrite Hs2.
    cbn [mbind result_bind mret Py_ret fst].
    split; [reflexivity|]. read_entry.
Qed.


Lemma fixed_float_ok (d : nat) (x : float) : exists s, Fmt.fixed d (PFloat x) = Ok s.
Proof. eexists. reflexivity. Qed.

Lemma fixed_int_100 : Fmt.fixed 2 (PInt 100) = Ok "100.00".
Proof. vm_compute. reflexivity. Qed.

(** C7: on a run with an int [total_tests > 0] that converts to a double
    and a float [execution_time > 0], the average time per test is their
    double quotient; when it is at most the threshold 0.5 the score is
    exactly 100.0, when it is twice the threshold the score is exactly
    50.0, and always the score lies between 0 and 100. *)
Theorem performance_score_bounds :
  let r := returned calculate_performance_score (calculator (Some jd) jacoco) in
  let avg_test_time := (t / fn)%float in
  detail r ["avg_test_time"] = Ok (PFloat avg_test_time) /\
  ((avg_test_time <=? PERFORMANCE_THRESHOLD)%float = true -> score r = Ok (PFloat 100)) /\
  (avg_test_time = (2 * PERFORMANCE_THRESHOLD)%float -> score r = Ok (PFloat 50)) /\
  exists s, score r = Ok s /\ Num.le (PInt 0) s = Ok true /\ Num.le s (PInt 100) = Ok true.
Proof.
  intros r avg. subst r.
  pose proof (pos_of_ltb t time_positive) as Ht.
  pose proof (score_of_average_cases avg average_nonneg) as Hcases.
  split.
  { destruct Hcases as [[_ Hs]|[_ (x & Hs & Hx)]].
    - exact (proj2 (performance_run _ Hs (fixed_float_ok 2 100))).
    - refine (proj2 (performance_run _ Hs _)).
      destruct Hx as [->|(f & -> & _)]; [|apply fixed_float_ok].
      eexists. exact fixed_int_100. }
  split.
  { intros Hle. destruct Hcases as [[_ Hs]|[Hgt _]]; [|congruence].
    exact (proj1 (performance_run _ Hs (fixed_float_ok 2 100))). }
  split.
  { intros E.
    assert (Hs : score_of_average avg = Ok (PFloat 50)) by (rewrite E; vm_compute; reflexivity).
    exact (proj1 (performance_run _ Hs (fixed_float_ok 2 50))). }
  destruct Hcases as [[_ Hs]|[_ (x & Hs & Hx)]].
  - exists (PFloat 100). split; [exact (proj1 (performance_run _ Hs (fixed_float_ok 2 100)))|].
    split; vm_compute; reflexivity.
  - exists x. split.
    + refine (proj1 (performance_run _ Hs _)).
      destruct Hx as [->|(f & -> & _)]; [|apply fixed_float_ok].
      eexists. exact fixed_int_100.
    + destruct Hx as [->|(f & -> & Hnn & Hlt)]; [split; vm_compute; reflexivity|].
      split.
      * unfold Num.le, Num.compare. cbn [mbind result_bind].
        destruct (zero_le_nonneg f Hnn) as [-> | ->]; reflexivity.
      * unfold Num.lt, Num.compare in Hlt. unfold Num.le, Num.compare.
        cbn [mbind result_bind] in *.
        destruct (option_map CompOpp (Num.Z_float_compare 100 f)) as [[]|];
          try discriminate; reflexivity.
Qed.

End Performance.

Definition slow_run : dict :=
  Dict.of_list [("total_tests", PInt 10); ("execution_time", PFloat 10)].

Lemma performance_score_bounds_witness :
  score (returned calculate_performance_score (calculator (Some slow_run) None))
    = Ok (PFloat 50).
Proof.
  refine (proj1 (proj2 (proj2
    (performance_score_bounds slow_run None 10 10 10 _ _ _ _ _))) _).
  - vm_compute. reflexivity.
  - vm_compute. reflexivity.
  - lia.
  - vm_compute. reflexivity.
  - vm_compute. reflexivity.
  - vm_compute. reflexivity.
Defined.

(** ** The reports *)

(** A method is read-only when it leaves the calculator as it found it,
    whatever it returns or raises. *)
Definition readonly {A : Type} (m : Py A) : Prop :=
  forall self, state_after m self = self.

Lemma readonly_ret {A : Type} (a : A) : readonly (mret a).
Proof. intros self. reflexivity. Qed.

Lemma readonly_lift {A : Type} (r : result A) : readonly (lift r).
Proof. intros self. reflexivity. Qed.

Lemma readonly_self_junit_data : readonly self_junit_data.
Proof. intros self. reflexivity. Qed.

Lemma readonly_self_jacoco_data : readonly self_jacoco_data.
Proof. intros self. reflexivity. Qed.

Lemma readonly_bind {A B : Type} (m : Py A) (k : A -> Py B) :
  readonly m -> (forall a, readonly (k a)) -> readonly (m ≫= k).
Proof.
  intros Hm Hk self. unfold state_after, mbind, Py_bind.
  specialize (Hm self). unfold state_after in Hm.
  destruct (m self) as [[a|e] self']; cbn [snd] in Hm; subst self'.
  - apply Hk.
  - reflexivity.
Qed.

Create HintDb readonly.
#[local] Hint Resolve readonly_ret readonly_lift readonly_self_junit_data
  readonly_self_jacoco_data : readonly.

(** Walks through a method: binds, case distinctions, and the calls of
    the methods already known to be read-only. *)
Ltac readonly_step :=
  match goal with
  | |- readonly (_ ≫= _) => apply readonly_bind; [|intros]
  | |- readonly (match ?x with _ => _ end) => destruct x
  | |- readonly (if ?b then _ else _) => destruct b
  | |- readonly (let '(_, _) := ?p in _) => destruct p
  | |- readonly _ => solve [auto with readonly]
  end.
Ltac readonly_walk := repeat readonly_step.

Lemma readonly_reliability : readonly calculate_reliability_score.
Proof. unfold calculate_reliability_score. readonly_walk. Qed.

Lemma readonly_maintainability : readonly calculate_maintainability_score.
Proof. unfold calculate_maintainability_score. readonly_walk. Qed.

Lemma readonly_performance : readonly calculate_performance_score.
Proof. unfold calculate_performance_score. readonly_walk. Qed.

Lemma readonly_get_rating (wqs : pyval) : readonly (_get_rating wqs).
Proof. unfold _get_rating. readonly_walk. Qed.

#[local] Hint Resolve readonly_reliability readonly_maintainability
  readonly_performance readonly_get_rating : readonly.

Lemma readonly_weighted_quality_score : readonly calculate_weighted_quality_score.
Proof. unfold calculate_weighted_quality_score. readonly_walk. Qed.

Lemma readonly_get_rating_description (rating : pyval) :
  readonly (get_rating_description rating).
Proof. unfold get_rating_description. readonly_walk. Qed.

#[local] Hint Resolve readonly_weighted_quality_score
  readonly_get_rating_description : readonly.

Lemma readonly_text_report : readonly Report.generate_text_report.
Proof. unfold Report.generate_text_report. readonly_walk. Qed.

Lemma readonly_html_report : readonly Report.generate_html_report.
Proof. unfold Report.generate_html_report. readonly_walk. Qed.

(** A report leaves [junit_data] and [jacoco_data] of the calculator
    unchanged, and a second call on the calculator the first call left has
    the outcome of the first. *)
Lemma reports_deterministic (self : QualityRatingCalculator) :
  let after_text := state_after Report.generate_text_report self in
  let after_html := state_after Report.generate_html_report self in
  (junit_data after_text = junit_data self /\ jacoco_data after_text = jacoco_data self) /\
  returned Report.generate_text_report after_text
    = returned Report.generate_text_report self /\
  state_after Report.generate_text_report after_text = self /\
  (junit_data after_html = junit_data self /\ jacoco_data after_html = jacoco_data self) /\
  returned Report.generate_html_report after_html
    = returned Report.generate_html_report self /\
  state_after Report.generate_html_report after_html = self.
Proof.
  cbv zeta.
  rewrite !(readonly_text_report self), !(readonly_html_report self).
  repeat match goal with |- _ /\ _ => split end; reflexivity.
Qed.

(** On the scenario both reports are strings. *)
Lemma reports_of_scenario :
  (exists text, returned Report.generate_text_report scenario = Ok text) /\
  (exists html, returned Report.generate_html_report scenario = Ok html).
Proof.
  split.
  - destruct (returned Report.generate_text_report scenario) as [s|e] eqn:E; [eauto|].
    vm_compute in E. discriminate.
  - destruct (returned Report.generate_html_report scenario) as [s|e] eqn:E; [eauto|].
    vm_compute in E. discriminate.
Qed.

(** Where a scorer took a guard, its record lacks the entries the
    reports print, and both reports raise. *)
Lemma reports_without_junit :
  returned Report.generate_text_report (calculator None (Some scenario_cov))
    = Raise (KeyError "standard") /\
  returned Report.generate_html_report (calculator None (Some scenario_cov))
    = Raise (KeyError "standard").
Proof. by_eval. Qed.

(** ** The scores stay between 0 and 100 *)

Import Range Mixed.

(** The data model of the two summaries. The counts are ints and the
    time is a float, as the JUnit parser writes them; a percentage is an
    int or a float. The last clause of the first keeps [total_tests] among
    the ints a double can hold. *)
Definition junit_invariants (jd : dict) : Prop :=
  exists (total_tests passed failures errors skipped : Z) (execution_time : float),
    jd !! "total_tests" = Some (PInt total_tests) /\
    jd !! "passed" = Some (PInt passed) /\
    jd !! "failures" = Some (PInt failures) /\
    jd !! "errors" = Some (PInt errors) /\
    jd !! "skipped" = Some (PInt skipped) /\
    jd !! "execution_time" = Some (PFloat execution_time) /\
    0 <= passed /\ 0 <= failures /\ 0 <= errors /\ 0 <= skipped /\
    passed + failures + errors + skipped = total_tests /\
    (0 <=? execution_time)%float = true /\
    (exists fn, Num.float_of_Z total_tests = Ok fn).

Definition jacoco_invariants (jc : dict) : Prop :=
  exists line_coverage branch_coverage : pyval,
    jc !! "line_coverage" = Some line_coverage /\
    jc !! "branch_coverage" = Some branch_coverage /\
    within line_coverage /\ within branch_coverage.

(** A summary is absent ([None] or the empty dict) or satisfies its
    invariants. *)
Definition summary (inv : dict -> Prop) (data : option dict) : Prop :=
  match data with
  | None => True
  | Some d => d = ∅ \/ inv d
  end.

(** A score: the int 100 or a double of [0, 100]. *)
Definition percent (v : pyval) : Prop :=
  v = PInt 100 \/ exists f, v = PFloat f /\ in_range f 100.

Lemma percent_within (v : pyval) : percent v -> within v.
Proof.
  intros [->|(f & -> & H)]; [split; vm_compute; reflexivity|].
  apply in_range_within. exact H.
Qed.

Lemma in_range_0 : in_range 0 100.
Proof. split; vm_compute; reflexivity. Qed.

Lemma in_range_100 : in_range 100 100.
Proof. split; vm_compute; reflexivity. Qed.

(** A number of [0, 100] as the double the arithmetic sees. *)
Lemma within_float (v : pyval) :
  within v ->
  exists f, in_range f 100 /\
    (forall w, Num.fmul w v = Ok (PFloat (w * f))) /\
    (forall d, Fmt.fixed d v = Ok (Fmt.fixed_float d f)).
Proof.
  intros H. destruct v as [z|f|s|l|d]; try (destruct H as [H _]; discriminate H).
  - destruct H as [H0 H1]. unfold Num.le, Num.compare in H0, H1.
    cbn [mbind result_bind] in H0, H1.
    assert (Hz : 0 <= z <= 100).
    { destruct (Z.compare_spec 0 z); destruct (Z.compare_spec z 100);
        try discriminate; lia. }
    destruct (float_of_Z_range z Hz) as (f & Hf & R). exists f.
    split; [exact R|]. split; intros; cbn [Num.fmul Fmt.fixed]; rewrite Hf; reflexivity.
  - exists f. split; [apply within_in_range; exact H|]. split; reflexivity.
Qed.

Lemma percent_float (v : pyval) :
  percent v ->
  exists f, in_range f 100 /\
    (forall w, Num.fmul w v = Ok (PFloat (w * f))) /\
    (exists s, Fmt.fixed 2 v = Ok s).
Proof.
  intros [->|(f & -> & H)].
  - exists 100%float. split; [exact in_range_100|]. split.
    + intros w. cbn [Num.fmul]. rewrite float_of_Z_100. reflexivity.
    + eexists. exact fixed_int_100.
  - exists f. split; [exact H|]. split; [reflexivity|]. apply fixed_float_ok.
Qed.

(** A method that only reads the object returns its pair and leaves the
    object as it was. *)
Lemma run_scorer (m : Py (pyval * dict)) (self : QualityRatingCalculator) (v : pyval) :
  readonly m -> score (returned m self) = Ok v ->
  exists d, m self = (Ok (v, d), self).
Proof.
  intros R. specialize (R self). unfold state_after, returned, score in *.
  destruct (m self) as [[[v' d]|e] self']; cbn in *; intros [= ->]; subst; eauto.
Qed.

(** *** The three scorers *)

Lemma reliability_percent (junit jacoco : option dict) :
  summary junit_invariants junit ->
  exists f, score (returned calculate_reliability_score (calculator junit jacoco))
            = Ok (PFloat f) /\ in_range f 100.
Proof.
  destruct junit as [jd|]; cbn [summary];
    [|intros _; exists 0%float; split; [reflexivity|exact in_range_0]].
  intros [->|(total & passed & failures & errors & skipped & t & Ht & _ & Hf & He & _ & _
                 & Hp & Hfl & Her & Hsk & Hsum & _ & _)].
  { exists 0%float. split; [reflexivity|exact in_range_0]. }
  run_method. rewrite (truth_of_lookup _ _ _ Ht). cbn [negb].
  rewrite (get_lookup _ _ _ Ht), (get_lookup _ _ _ Hf), (get_lookup _ _ _ He).
  cbn [Num.eq_int].
  destruct (Z.eqb_spec total 0) as [E|Hn].
  { exists 0%float. split; [reflexivity|exact in_range_0]. }
  destruct (int_truediv_range (failures + errors) total ltac:(lia) ltac:(lia))
    as (fd & Hfd & Rfd).
  cbn [lift Num.add Num.truediv].
  destruct (Z.eqb_spec total 0) as [|_]; [contradiction|].
  rewrite Hfd.
  cbn [mbind result_bind Num.sub Num.mul Num.fmul]. rewrite float_of_Z_1, float_of_Z_100.
  cbn [mbind result_bind Num.sub Num.mul Num.fmul Fmt.fixed mret Py_ret fst score].
  eexists. split; [reflexivity|].
  refine (_ : in_range ((1 - fd) * 100) (1 * 100)).
  apply range_mul_r; try exact small_one; try exact small_100.
  apply range_sub_one. exact Rfd.
Qed.

Lemma maintainability_percent (junit jacoco : option dict) :
  summary jacoco_invariants jacoco ->
  exists f, score (returned calculate_maintainability_score (calculator junit jacoco))
            = Ok (PFloat f) /\ in_range f 100.
Proof.
  destruct jacoco as [jc|]; cbn [summary];
    [|intros _; exists 0%float; split; [reflexivity|exact in_range_0]].
  intros [->|(lc & bc & Hl & Hb & Wl & Wb)].
  { exists 0%float. split; [reflexivity|exact in_range_0]. }
  destruct (within_float lc Wl) as (fl & Rl & Ml & Fl).
  destruct (within_float bc Wb) as (fb & Rb & Mb & Fb).
  run_method. rewrite (truth_of_lookup _ _ _ Hl). cbn [negb].
  rewrite (get_lookup _ _ _ Hl), (get_lookup _ _ _ Hb).
  unfold lift. rewrite Ml, Mb, !Fl, !Fb.
  cbn [mbind result_bind Num.add Fmt.fixed mret Py_ret fst score].
  eexists. split; [reflexivity|].
  refine (_ : in_range (0.6 * fl + 0.4 * fb) (0.6 * 100 + 0.4 * 100)).
  apply range_add; try (vm_compute; discriminate).
  - apply range_mul_l; try exact small_100; try (vm_compute; discriminate). exact Rl.
  - apply range_mul_l; try exact small_100; try (vm_compute; discriminate). exact Rb.
Qed.

(** A time that is not below zero is zero or above it. *)
Lemma time_cases (t : float) :
  (0 <=? t)%float = true -> Num.eq_int (PFloat t) 0 = true \/ (0 <? t)%float = true.
Proof.
  rewrite FloatAxioms.leb_spec, FloatAxioms.ltb_spec, Flt.Prim2SF_zero.
  unfold Num.eq_int, Num.Z_float_compare.
  destruct (Prim2SF t) as [s|[]| |[] m e]; cbn; try discriminate; auto.
Qed.

Lemma performance_percent (junit jacoco : option dict) :
  summary junit_invariants junit ->
  exists v, score (returned calculate_performance_score (calculator junit jacoco)) = Ok v /\
            percent v.
Proof.
  destruct junit as [jd|]; cbn [summary];
    [|intros _; exists (PFloat 0); split; [reflexivity|right; eexists; split;
                                            [reflexivity|exact in_range_0]]].
  intros [->|(total & passed & failures & errors & skipped & t & Ht & _ & _ & _ & _ & Htime
                 & Hp & Hfl & Her & Hsk & Hsum & Ht0 & (fn & Hfn))].
  { exists (PFloat 0). split; [reflexivity|].
    right. eexists. split; [reflexivity|exact in_range_0]. }
  assert (Hquiet :
    Num.eq_int (PInt total) 0 || Num.eq_int (PFloat t) 0 = true ->
    score (returned calculate_performance_score (calculator (Some jd) jacoco))
      = Ok (PFloat 100)).
  { intros Hq. run_method. rewrite (truth_of_lookup _ _ _ Ht). cbn [negb].
    rewrite (get_lookup _ _ _ Ht), (get_lookup _ _ _ Htime), Hq. reflexivity. }
  assert (P100 : percent (PFloat 100))
    by (right; eexists; split; [reflexivity|exact in_range_100]).
  destruct (Z.eqb_spec total 0) as [E|Hn].
  { exists (PFloat 100). split; [|exact P100].
    apply Hquiet. cbn [Num.eq_int]. rewrite (proj2 (Z.eqb_eq _ _) E). reflexivity. }
  destruct (time_cases t Ht0) as [Hz|Hpos].
  { exists (PFloat 100). split; [|exact P100].
    apply Hquiet. rewrite Hz. apply orb_true_r. }
  assert (Htot : 0 < total) by lia.
  pose proof (average_nonneg total t fn Htot Hpos Hfn) as Havg.
  destruct (score_of_average_cases (t / fn) Havg) as [[_ Hs]|[_ (x & Hs & Hx)]].
  - exists (PFloat 100). split; [|exact P100].
    exact (proj1 (performance_run jd jacoco total t fn Ht Htime Htot Hpos Hfn _ Hs
                    (fixed_float_ok 2 100))).
  - assert (Px : percent x).
    { destruct Hx as [->|(f & -> & Hnn & Hlt)]; [left; reflexivity|].
      right. exists f. split; [reflexivity|]. apply within_in_range. split.
      - unfold Num.le, Num.compare. cbn [mbind result_bind].
        destruct (Flt.zero_le_nonneg f Hnn) as [-> | ->]; reflexivity.
      - unfold Num.lt, Num.compare in Hlt. unfold Num.le, Num.compare.
        cbn [mbind result_bind] in *.
        destruct (option_map CompOpp (Num.Z_float_compare 100 f)) as [[]|];
          try discriminate; reflexivity. }
    exists x. split; [|exact Px].
    destruct (percent_float x Px) as (_ & _ & _ & Hfx).
    exact (proj1 (performance_run jd jacoco total t fn Ht Htime Htot Hpos Hfn _ Hs Hfx)).
Qed.

(** *** The composite score *)

Lemma rating_color_total (rating : string) :
  In rating ["A"; "B"; "C"; "D"; "E"] ->
  exists color, Dict.subscript RATING_COLORS rating = Ok color.
Proof.
  cbn [In]. intros [<-|[<-|[<-|[<-|[<-|[]]]]]]; eexists; vm_compute; reflexivity.
Qed.

(** C8: when each summary is absent or satisfies the invariants of the
    data model (int counts that are not negative and add up to
    [total_tests], itself an int a double can hold, a float
    [execution_time] that is not below zero, coverage percentages between
    0 and 100),
    [calculate_weighted_quality_score] returns, and the composite score it
    returns and the three component scores it records (those the three
    scorers return) all lie between 0 and 100. *)
Theorem scores_between_0_and_100 (junit jacoco : option dict) :
  summary junit_invariants junit -> summary jacoco_invariants jacoco ->
  let self := calculator junit jacoco in
  let r := returned calculate_weighted_quality_score self in
  exists wqs rs ms ps : pyval,
    score r = Ok wqs /\ within wqs /\
    score (returned calculate_reliability_score self) = Ok rs /\ within rs /\
    score (returned calculate_maintainability_score self) = Ok ms /\ within ms /\
    score (returned calculate_performance_score self) = Ok ps /\ within ps /\
    detail r ["weighted_quality_score"] = Ok wqs /\
    detail r ["scores"; "reliability"] = Ok rs /\
    detail r ["scores"; "maintainability"] = Ok ms /\
    detail r ["scores"; "performance"] = Ok ps.
Proof.
  intros Hj Hc self r.
  destruct (reliability_percent junit jacoco Hj) as (fr & Hr & Rr).
  destruct (maintainability_percent junit jacoco Hc) as (fm & Hm & Rm).
  destruct (performance_percent junit jacoco Hj) as (ps & Hp & Pp).
  destruct (percent_float ps Pp) as (fp & Rp & Mp & (sp & Fp)).
  fold self in Hr, Hm, Hp.
  destruct (run_scorer _ self _ readonly_reliability Hr) as [dr Er].
  destruct (run_scorer _ self _ readonly_maintainability Hm) as [dm Em].
  destruct (run_scorer _ self _ readonly_performance Hp) as [dp Ep].
  set (w := (WEIGHT_RELIABILITY * fr + WEIGHT_MAINTAINABILITY * fm
             + WEIGHT_PERFORMANCE * fp)%float).
  assert (Rw : in_range w 100).
  { refine (_ : in_range w (0.4 * 100 + 0.4 * 100 + 0.2 * 100)).
    repeat first [ apply range_add | apply range_mul_l | assumption
                 | exact small_100 | (vm_compute; discriminate) ]. }
  destruct (get_rating_letter (PFloat w) self (or_intror (ex_intro _ w eq_refl)))
    as (rating & Hrat & Hin).
  destruct (rating_color_total rating Hin) as [color Hcol].
  unfold returned, _get_rating, lift in Hrat. cbn [fst] in Hrat.
  exists (PFloat w), (PFloat fr), (PFloat fm), ps.
  assert (Hrun : exists d,
    r = Ok (PFloat w, d) /\
    d !! "weighted_quality_score" = Some (PFloat w) /\
    d !! "scores" = Some (PDict (Dict.of_list
      [ ("reliability", PFloat fr); ("maintainability", PFloat fm); ("performance", ps) ]))).
  { subst r. unfold returned, calculate_weighted_quality_score, mbind at 1, Py_bind at 1.
    rewrite Er. unfold mbind at 1, Py_bind at 1. rewrite Em.
    unfold mbind at 1, Py_bind at 1. rewrite Ep.
    unfold mbind, Py_bind, _get_rating, lift. cbn [Num.fmul]. rewrite (Mp WEIGHT_PERFORMANCE).
    cbn [Num.add]. fold w. rewrite Hrat, Hcol. cbn [Fmt.fixed]. rewrite Fp.
    cbn [mret Py_ret fst]. eexists. split; [reflexivity|]. split; read_entry. }
  destruct Hrun as (d & Hd & Hw & Hs). rewrite Hd.
  split; [reflexivity|]. split; [exact (in_range_within w Rw)|].
  split; [exact Hr|]. split; [exact (in_range_within fr Rr)|].
  split; [exact Hm|]. split; [exact (in_range_within fm Rm)|].
  split; [exact Hp|]. split; [exact (percent_within ps Pp)|].
  cbn [detail details score Dict.path foldl Dict.item mbind result_bind].
  unfold Dict.subscript at 1 2 3 4. rewrite Hw, Hs. cbn [mbind result_bind Dict.item].
  split; [reflexivity|]. split; [|split]; read_entry.
Qed.

Lemma scores_between_0_and_100_witness :
  exists wqs rs ms ps : pyval,
    score (returned calculate_weighted_quality_score scenario) = Ok wqs /\ within wqs /\
    score (returned calculate_reliability_score scenario) = Ok rs /\ within rs /\
    score (returned calculate_maintainability_score scenario) = Ok ms /\ within ms /\
    score (returned calculate_performance_score scenario) = Ok ps /\ within ps /\
    detail (returned calculate_weighted_quality_score scenario)
      ["weighted_quality_score"] = Ok wqs /\
    detail (returned calculate_weighted_quality_score scenario)
      ["scores"; "reliability"] = Ok rs /\
    detail (returned calculate_weighted_quality_score scenario)
      ["scores"; "maintainability"] = Ok ms /\
    detail (returned calculate_weighted_quality_score scenario)
      ["scores"; "performance"] = Ok ps.
Proof.
  apply (scores_between_0_and_100 (Some scenario_run) (Some scenario_cov)).
  - right. exists 100, 95, 3, 2, 0, 45%float.
    repeat split; try lia; try (vm_compute; reflexivity).
    exists 100%float. vm_compute. reflexivity.
  - right. exists (PInt 85), (PInt 70).
    repeat split; vm_compute; reflexivity.
Defined.

(** * Further properties of the code *)

(** ** The rating table on every number *)

(** Where a number stands among the ints: at the rational [a / b], above
    all of them, below all of them, or nowhere (NaN). *)
Inductive position : Type :=
| At (a b : Z)
| Above
| Below
| Unordered.

Definition int_le (k : Z) (p : position) : bool :=
  match p with At a b => k * b <=? a | Above => true | _ => false end.
Definition le_int (p : position) (k : Z) : bool :=
  match p with At a b => a <=? k * b | Below => true | _ => false end.
Definition int_lt (k : Z) (p : position) : bool :=
  match p with At a b => k * b <? a | Above => true | _ => false end.
Definition lt_int (p : position) (k : Z) : bool :=
  match p with At a b => a <? k * b | Below => true | _ => false end.

Definition positive_scale (p : position) : Prop :=
  match p with At _ b => 0 < b | _ => True end.

Lemma compare_leb (x y : Z) :
  match x ?= y with Lt | Eq => true | Gt => false end = (x <=? y).
Proof. unfold Z.leb. destruct (x ?= y); reflexivity. Qed.

Lemma compare_ltb (x y : Z) :
  match x ?= y with Lt => true | _ => false end = (x <? y).
Proof. unfold Z.ltb. destruct (x ?= y); reflexivity. Qed.

Lemma compare_geb (x y : Z) :
  match CompOpp (x ?= y) with Lt | Eq => true | Gt => false end = (y <=? x).
Proof. rewrite <- Z.compare_antisym. apply compare_leb. Qed.

Lemma compare_gtb (x y : Z) :
  match CompOpp (x ?= y) with Lt => true | _ => false end = (y <? x).
Proof. rewrite <- Z.compare_antisym. apply compare_ltb. Qed.

(** Every comparison of a number with an int reads off its position. *)
Lemma position_of (w : pyval) :
  (exists z, w = PInt z) \/ (exists f, w = PFloat f) ->
  exists p, positive_scale p /\
    forall k,
      Num.le (PInt k) w = Ok (int_le k p) /\ Num.le w (PInt k) = Ok (le_int p k) /\
      Num.lt (PInt k) w = Ok (int_lt k p) /\ Num.lt w (PInt k) = Ok (lt_int p k).
Proof.
  intros [[z ->]|[f ->]].
  - exists (At z 1). split; [cbn; lia|]. intros k.
    unfold Num.le, Num.lt, Num.compare. cbn [mbind result_bind int_le le_int int_lt lt_int].
    rewrite !Z.mul_1_r, !compare_leb, !compare_ltb. repeat split.
  - unfold Num.le, Num.lt, Num.compare, Num.Z_float_compare.
    cbn [mbind result_bind].
    destruct (Prim2SF f) as [s|[]| |s m e].
    + exists (At 0 1). split; [cbn; lia|]. intros k.
      cbn [option_map int_le le_int int_lt lt_int].
      rewrite !Z.mul_1_r, !compare_leb, !compare_ltb, !compare_geb, !compare_gtb.
      repeat split.
    + exists Below. split; [exact I|]. intros k. repeat split.
    + exists Above. split; [exact I|]. intros k. repeat split.
    + exists Unordered. split; [exact I|]. intros k. repeat split.
    + destruct (Z.leb_spec 0 e) as [He|He].
      * exists (At ((if s then Z.neg m else Z.pos m) * 2 ^ e) 1). split; [cbn; lia|].
        intros k. cbn [option_map int_le le_int int_lt lt_int].
        rewrite !Z.mul_1_r, !compare_leb, !compare_ltb, !compare_geb, !compare_gtb.
        repeat split.
      * exists (At (if s then Z.neg m else Z.pos m) (2 ^ (- e))).
        split; [cbn; apply Z.pow_pos_nonneg; lia|].
        intros k. cbn [option_map int_le le_int int_lt lt_int].
        rewrite !compare_leb, !compare_ltb, !compare_geb, !compare_gtb.
        repeat split.
Qed.

(** The five tests of the table, read on a position. *)
Ltac settle_band :=
  repeat match goal with
         | |- context [(?x <=? ?y)] => destruct (Z.leb_spec x y); try lia
         | H : context [(?x <=? ?y)] |- _ => destruct (Z.leb_spec x y); try lia
         | H : context [(?x <? ?y)] |- _ => destruct (Z.ltb_spec x y); try lia
         end;
  cbn in *; try discriminate; try reflexivity; try lia.

Definition number (w : pyval) : Prop :=
  (exists z, w = PInt z) \/ (exists f, w = PFloat f).

Definition py_le (a b : pyval) : Prop := Num.le a b = Ok true.
Definition py_lt (a b : pyval) : Prop := Num.lt a b = Ok true.

(** X1: a score inside one of the five bands of the table, bounds
    included, gets the letter of that band, whatever its type. *)
Theorem rating_within_bands (w : pyval) (self : QualityRatingCalculator) :
  (py_le (PInt 90) w -> py_le w (PInt 100) -> returned (_get_rating w) self = Ok "A") /\
  (py_le (PInt 80) w -> py_le w (PInt 89) -> returned (_get_rating w) self = Ok "B") /\
  (py_le (PInt 70) w -> py_le w (PInt 79) -> returned (_get_rating w) self = Ok "C") /\
  (py_le (PInt 60) w -> py_le w (PInt 69) -> returned (_get_rating w) self = Ok "D") /\
  (py_le (PInt 0) w -> py_le w (PInt 59) -> returned (_get_rating w) self = Ok "E").
Proof.
  assert (Hn : forall k, py_le (PInt k) w -> number w).
  { intros k H. unfold py_le, Num.le, Num.compare in H.
    destruct w; try discriminate H; [left|right]; eauto. }
  repeat split; intros H1 H2; pose proof (Hn _ H1) as N;
    unfold py_le in H1, H2;
    destruct (position_of w N) as (p & Hb & Hp);
    rewrite (proj1 (Hp _)) in H1; rewrite (proj1 (proj2 (Hp _))) in H2;
    injection H1 as H1; injection H2 as H2;
    unfold returned, _get_rating, lift, RATING_RANGES; cbn [fst rating_loop];
    unfold between; rewrite !(proj1 (Hp _)), !(proj1 (proj2 (Hp _)));
    cbn [mbind result_bind];
    destruct p as [a b| | |]; cbn [int_le le_int positive_scale] in *;
    try discriminate; settle_band.
Qed.

Lemma rating_within_bands_witness :
  returned (_get_rating (PFloat 84.5)) (calculator None None) = Ok "B".
Proof.
  apply (proj1 (proj2 (rating_within_bands (PFloat 84.5) (calculator None None)))).
  - vm_compute. reflexivity.
  - vm_compute. reflexivity.
Defined.

(** X2: a number that lies in no band gets the default letter E: the
    scores strictly between 89 and 90, 79 and 80, 69 and 70, 59 and 60,
    those below 0, those above 100, and NaN. *)
Theorem rating_outside_bands (w : pyval) (self : QualityRatingCalculator) :
  number w ->
  (py_lt (PInt 89) w /\ py_lt w (PInt 90)) \/
  (py_lt (PInt 79) w /\ py_lt w (PInt 80)) \/
  (py_lt (PInt 69) w /\ py_lt w (PInt 70)) \/
  (py_lt (PInt 59) w /\ py_lt w (PInt 60)) \/
  py_lt w (PInt 0) \/ py_lt (PInt 100) w \/ w = PFloat nan ->
  returned (_get_rating w) self = Ok "E".
Proof.
  intros N H.
  assert (Hnan : w = PFloat nan -> returned (_get_rating w) self = Ok "E")
    by (intros ->; vm_compute; reflexivity).
  destruct (position_of w N) as (p & Hb & Hp).
  unfold py_lt in H.
  rewrite !(proj1 (proj2 (proj2 (Hp _)))), !(proj2 (proj2 (proj2 (Hp _)))) in H.
  unfold returned, _get_rating, lift, RATING_RANGES in *; cbn [fst rating_loop] in *.
  unfold between in *. rewrite !(proj1 (Hp _)), !(proj1 (proj2 (Hp _))) in *.
  cbn [mbind result_bind] in *.
  destruct p as [a b| | |]; cbn [int_le le_int int_lt lt_int positive_scale] in *;
    try reflexivity.
  assert (Hw : w = PFloat nan \/
          (89 * b < a < 90 * b) \/ (79 * b < a < 80 * b) \/ (69 * b < a < 70 * b) \/
          (59 * b < a < 60 * b) \/ a < 0 \/ 100 * b < a).
  { destruct H as [[H1 H2]|[[H1 H2]|[[H1 H2]|[[H1 H2]|[H1|[H1|H1]]]]]];
      try (injection H1 as H1); try (injection H2 as H2);
      try (apply Z.ltb_lt in H1); try (apply Z.ltb_lt in H2);
      try (right; lia).
    left. exact H1. }
  clear H. destruct Hw as [Hw|Hw]; [exact (Hnan Hw)|]. clear Hnan Hp.
  settle_band.
Qed.

Lemma rating_outside_bands_witness :
  returned (_get_rating (PFloat 69.25)) (calculator None None) = Ok "E".
Proof.
  apply (rating_outside_bands (PFloat 69.25) (calculator None None)).
  - right. eexists. reflexivity.
  - right. right. left. split; vm_compute; reflexivity.
Defined.

(** ** The metrics of the three tabs *)

Lemma subscript_lookup {V : Type} (d : gmap string V) (k : string) (v : V) :
  d !! k = Some v -> Dict.subscript d k = Ok v.
Proof. intros H. unfold Dict.subscript. rewrite H. reflexivity. Qed.

Lemma subscript_missing {V : Type} (d : gmap string V) (k : string) :
  d !! k = None -> Dict.subscript d k = Raise (KeyError k).
Proof. intros H. unfold Dict.subscript. rewrite H. reflexivity. Qed.

(** X3: on a run whose counts are ints and whose [total_tests] is not 0,
    the failure density of the reliability tab is the [fault_density]
    entry of the record of [calculate_reliability_score]: the same double,
    or the same exception. *)
Theorem failure_density_agrees (jd : dict) (jacoco : option dict)
    (total failures errors : Z) :
  jd !! "total_tests" = Some (PInt total) ->
  jd !! "failures" = Some (PInt failures) ->
  jd !! "errors" = Some (PInt errors) ->
  total <> 0 ->
  ReliabilityMetrics.calculate_failure_density jd
  = detail (returned calculate_reliability_score (calculator (Some jd) jacoco))
      ["fault_density"].
Proof.
  intros Ht Hf He Hn.
  unfold ReliabilityMetrics.calculate_failure_density.
  rewrite (subscript_lookup _ _ _ Ht), (subscript_lookup _ _ _ Hf),
    (subscript_lookup _ _ _ He).
  run_method. rewrite (truth_of_lookup _ _ _ Ht). cbn [negb].
  rewrite (get_lookup _ _ _ Ht), (get_lookup _ _ _ Hf), (get_lookup _ _ _ He).
  cbn [mbind result_bind Num.eq_int lift Num.add Num.truediv].
  destruct (Z.eqb_spec total 0) as [|_]; [contradiction|].
  destruct (Num.int_truediv (failures + errors) total) as [fd|e];
    cbn [mbind result_bind Num.sub Num.mul Num.fmul fst]; [|reflexivity].
  rewrite float_of_Z_1, float_of_Z_100.
  cbn [mbind result_bind Num.sub Num.mul Num.fmul Fmt.fixed mret Py_ret fst].
  symmetry. read_entry.
Qed.

Lemma failure_density_agrees_witness :
  ReliabilityMetrics.calculate_failure_density scenario_run
  = detail (returned calculate_reliability_score scenario) ["fault_density"].
Proof.
  apply (failure_density_agrees scenario_run (Some scenario_cov) 100 3 2).
  - vm_compute. reflexivity.
  - vm_compute. reflexivity.
  - vm_compute. reflexivity.
  - lia.
Defined.

(** X4: on a run whose counts are ints, none negative, that add up to
    [total_tests], the failure density and the success rate are doubles
    between 0 and 100. *)
Theorem rates_within_bounds (jd : dict) (total passed failures errors skipped : Z) :
  jd !! "total_tests" = Some (PInt total) ->
  jd !! "passed" = Some (PInt passed) ->
  jd !! "failures" = Some (PInt failures) ->
  jd !! "errors" = Some (PInt errors) ->
  0 <= passed -> 0 <= failures -> 0 <= errors -> 0 <= skipped ->
  passed + failures + errors + skipped = total ->
  exists density rate : float,
    ReliabilityMetrics.calculate_failure_density jd = Ok (PFloat density) /\
    ReliabilityMetrics.calculate_success_rate jd = Ok (PFloat rate) /\
    within (PFloat density) /\ within (PFloat rate).
Proof.
  intros Ht Hp Hf He Pp Pf Pe Ps Hsum.
  unfold ReliabilityMetrics.calculate_failure_density,
    ReliabilityMetrics.calculate_success_rate.
  rewrite (subscript_lookup _ _ _ Ht), (subscript_lookup _ _ _ Hf),
    (subscript_lookup _ _ _ He), (subscript_lookup _ _ _ Hp).
  cbn [mbind result_bind Num.eq_int Num.add Num.truediv].
  destruct (Z.eqb_spec total 0) as [E|Hn].
  { exists 0%float, 0%float. repeat split; vm_compute; reflexivity. }
  destruct (int_truediv_range (failures + errors) total ltac:(lia) ltac:(lia))
    as (fd & Hfd & Rfd).
  destruct (int_truediv_range passed total ltac:(lia) ltac:(lia)) as (sr & Hsr & Rsr).
  rewrite Hfd, Hsr. cbn [mbind result_bind Num.mul Num.fmul]. rewrite float_of_Z_100.
  cbn [mbind result_bind].
  exists (fd * 100)%float, (sr * 100)%float.
  split; [reflexivity|]. split; [reflexivity|].
  split; apply in_range_within.
  - refine (_ : in_range (fd * 100) (1 * 100)).
    apply range_mul_r; try exact small_one; try exact small_100. exact Rfd.
  - refine (_ : in_range (sr * 100) (1 * 100)).
    apply range_mul_r; try exact small_one; try exact small_100. exact Rsr.
Qed.

Lemma rates_within_bounds_witness :
  exists density rate : float,
    ReliabilityMetrics.calculate_failure_density scenario_run = Ok (PFloat density) /\
    ReliabilityMetrics.calculate_success_rate scenario_run = Ok (PFloat rate) /\
    within (PFloat density) /\ within (PFloat rate).
Proof.
  apply (rates_within_bounds scenario_run 100 95 3 2 0);
    try lia; vm_compute; reflexivity.
Defined.

(** X5: the three metrics subscript the run, the calculator reads it with
    [get]: on a run without [total_tests] the failure density and the
    success rate raise KeyError('total_tests'), the average time raises
    KeyError for [execution_time] first and for [total_tests] otherwise,
    while the reliability scorer returns 0.0 and the performance scorer 0.0
    or 100.0. *)
Theorem metrics_missing_keys (jd : dict) (jacoco : option dict) :
  jd !! "total_tests" = None ->
  ReliabilityMetrics.calculate_failure_density jd = Raise (KeyError "total_tests") /\
  ReliabilityMetrics.calculate_success_rate jd = Raise (KeyError "total_tests") /\
  (jd !! "execution_time" = None ->
   PerformanceMetrics.calculate_avg_test_time jd = Raise (KeyError "execution_time")) /\
  (jd !! "execution_time" <> None ->
   PerformanceMetrics.calculate_avg_test_time jd = Raise (KeyError "total_tests")) /\
  score (returned calculate_reliability_score (calculator (Some jd) jacoco))
    = Ok (PFloat 0) /\
  (score (returned calculate_performance_score (calculator (Some jd) jacoco))
     = Ok (PFloat 0) \/
   score (returned calculate_performance_score (calculator (Some jd) jacoco))
     = Ok (PFloat 100)).
Proof.
  intros Ht.
  unfold ReliabilityMetrics.calculate_failure_density,
    ReliabilityMetrics.calculate_success_rate, PerformanceMetrics.calculate_avg_test_time.
  rewrite (subscript_missing _ _ Ht).
  split; [reflexivity|]. split; [reflexivity|].
  split; [intros Hx; rewrite (subscript_missing _ _ Hx); reflexivity|].
  split.
  { intros Hx. destruct (jd !! "execution_time") as [t|] eqn:E; [|congruence].
    rewrite (subscript_lookup _ _ _ E). reflexivity. }
  run_method. rewrite (get_missing _ _ Ht).
  destruct (Dict.truth (Some jd)); cbn [negb Num.eq_int Z.eqb orb mret Py_ret fst score
                                         mbind result_bind].
  - split; [reflexivity|]. right. reflexivity.
  - split; [reflexivity|]. left. reflexivity.
Qed.

Lemma metrics_missing_keys_witness :
  ReliabilityMetrics.calculate_failure_density bare_cov = Raise (KeyError "total_tests").
Proof.
  apply (metrics_missing_keys bare_cov None).
  vm_compute. reflexivity.
Defined.

(** X6: a run with [total_tests] 0 has failure density 0.0, which the
    reliability tab shows with the status Excelente, and its performance
    status is Excelente whatever the time is; the calculator gives the
    same run the reliability score 0.0. *)
Theorem zero_tests_status (jd : dict) (jacoco : option dict) (total_time : pyval) :
  jd !! "total_tests" = Some (PInt 0) ->
  ReliabilityMetrics.calculate_failure_density jd = Ok (PFloat 0) /\
  ReliabilityMetrics.calculate_success_rate jd = Ok (PFloat 0) /\
  (ReliabilityMetrics.calculate_failure_density jd
     ≫= ReliabilityMetrics.get_reliability_status)
    = Ok (status_record "Excelente" "success") /\
  PerformanceMetrics.get_performance_status total_time (PInt 0)
    = Ok (status_record "Excelente" "success") /\
  returned calculate_reliability_score (calculator (Some jd) jacoco)
    = Ok (PFloat 0, no_tests).
Proof.
  intros Ht.
  unfold ReliabilityMetrics.calculate_failure_density,
    ReliabilityMetrics.calculate_success_rate.
  rewrite (subscript_lookup _ _ _ Ht). cbn [mbind result_bind Num.eq_int Z.eqb].
  split; [reflexivity|]. split; [reflexivity|]. split; [reflexivity|].
  split; [reflexivity|].
  run_method. rewrite (truth_of_lookup _ _ _ Ht), (get_lookup _ _ _ Ht). reflexivity.
Qed.

Lemma zero_tests_status_witness :
  ReliabilityMetrics.calculate_failure_density empty_run = Ok (PFloat 0).
Proof.
  apply (zero_tests_status empty_run None (PInt 0)).
  vm_compute. reflexivity.
Defined.

(** X7: whatever a status function returns, its record has one of the
    four status names and a colour that [_get_status_color] knows: the
    fallback grey is never shown for a status. *)
Theorem status_colors_known (d : dict) :
  (exists v, ReliabilityMetrics.get_reliability_status v = Ok d) \/
  (exists v, MaintainabilityMetrics.get_maintainability_status v = Ok d) \/
  (exists t n, PerformanceMetrics.get_performance_status t n = Ok d) ->
  exists status color hex : string,
    d !! "status" = Some (PStr status) /\
    In status ["Excelente"; "Bueno"; "Aceptable"; "Pobre"] /\
    d !! "color" = Some (PStr color) /\
    QualityDashboard._get_status_color (PStr color) = Ok hex /\
    In hex ["#28a745"; "#17a2b8"; "#ffc107"; "#dc3545"].
Proof.
  assert (Hrec : forall s c h,
    In (s, c, h) [ ("Excelente", "success", "#28a745"); ("Bueno", "info", "#17a2b8");
                   ("Aceptable", "warning", "#ffc107"); ("Pobre", "danger", "#dc3545") ] ->
    d = status_record s c ->
    exists status color hex : string,
      d !! "status" = Some (PStr status) /\
      In status ["Excelente"; "Bueno"; "Aceptable"; "Pobre"] /\
      d !! "color" = Some (PStr color) /\
      QualityDashboard._get_status_color (PStr color) = Ok hex /\
      In hex ["#28a745"; "#17a2b8"; "#ffc107"; "#dc3545"]).
  { intros s c h Hin ->. exists s, c, h. cbn [In] in Hin.
    destruct Hin as [E|[E|[E|[E|[]]]]]; injection E as <- <- <-;
      (split; [vm_compute; reflexivity|]); (split; [cbn; tauto|]);
      (split; [vm_compute; reflexivity|]); (split; [vm_compute; reflexivity|]);
      cbn; tauto. }
  intros [[v H]|[[v H]|(t & n & H)]].
  - unfold ReliabilityMetrics.get_reliability_status in H.
    repeat (match type of H with
            | context [Num.lt ?a ?b] => destruct (Num.lt a b) as [[]|]
            end; cbn [mbind result_bind] in H); try discriminate;
      injection H as <-; eapply Hrec; try reflexivity; cbn; tauto.
  - unfold MaintainabilityMetrics.get_maintainability_status in H.
    repeat (match type of H with
            | context [Num.ge ?a ?b] => destruct (Num.ge a b) as [[]|]
            end; cbn [mbind result_bind] in H); try discriminate;
      injection H as <-; eapply Hrec; try reflexivity; cbn; tauto.
  - unfold PerformanceMetrics.get_performance_status in H.
    destruct (Num.gt n (PInt 0)) as [[]|]; cbn [mbind result_bind] in H; try discriminate.
    + destruct (Num.truediv t n) as [avg|]; cbn [mbind result_bind] in H; try discriminate.
      repeat (match type of H with
              | context [Num.lt ?a ?b] => destruct (Num.lt a b) as [[]|]
              end; cbn [mbind result_bind] in H); try discriminate;
        injection H as <-; eapply Hrec; try reflexivity; cbn; tauto.
    + repeat (match type of H with
              | context [Num.lt ?a ?b] => destruct (Num.lt a b) as [[]|]
              end; cbn [mbind result_bind] in H); try discriminate;
        injection H as <-; eapply Hrec; try reflexivity; cbn; tauto.
Qed.

Lemma status_colors_known_witness :
  exists status color hex : string,
    status_record "Bueno" "info" !! "status" = Some (PStr status) /\
    In status ["Excelente"; "Bueno"; "Aceptable"; "Pobre"] /\
    status_record "Bueno" "info" !! "color" = Some (PStr color) /\
    QualityDashboard._get_status_color (PStr color) = Ok hex /\
    In hex ["#28a745"; "#17a2b8"; "#ffc107"; "#dc3545"].
Proof.
  apply (status_colors_known (status_record "Bueno" "info")).
  left. exists (PInt 7). vm_compute. reflexivity.
Defined.

(** ** The two maintainability formulas *)

(** The product of two doubles does not depend on their order. *)
Lemma SFmul_comm (x y : spec_float) : SFmul prec emax x y = SFmul prec emax y x.
Proof.
  destruct x as [sx|sx| |sx mx ex], y as [sy|sy| |sy my ey]; cbn [SFmul];
    rewrite ?(xorb_comm sx sy); try reflexivity.
  rewrite (Pos.mul_comm mx my), (Z.add_comm ex ey). reflexivity.
Qed.

Lemma float_mul_comm (x y : float) : (x * y = y * x)%float.
Proof.
  rewrite <- (SF2Prim_Prim2SF (x * y)), <- (SF2Prim_Prim2SF (y * x)).
  rewrite !FloatAxioms.mul_spec. f_equal. apply SFmul_comm.
Qed.

(** X8: on every non-empty coverage summary the testability score of
    the maintainability tab and the maintainability score of the
    calculator are the same value, or the same exception, though one is
    written [cov * weight] and the other [weight * cov]. *)
Theorem testability_agrees (jc : dict) (junit : option dict) :
  Dict.truth (Some jc) = true ->
  MaintainabilityMetrics.get_testability_score jc
  = score (returned calculate_maintainability_score (calculator junit (Some jc))).
Proof.
  intros Ht. unfold MaintainabilityMetrics.get_testability_score.
  run_method. rewrite Ht. cbn [negb]. unfold lift.
  destruct (Dict.get jc "line_coverage" (PInt 0)) as [zl|fl|sl|ll|dl];
    cbn [Num.mul Num.fmul mbind result_bind fst score]; try reflexivity;
  [ destruct (Num.float_of_Z zl) as [fl|] eqn:El; cbn [mbind result_bind fst score];
    [|reflexivity] | ];
  rewrite (float_mul_comm fl 0.6);
  (destruct (Dict.get jc "branch_coverage" (PInt 0)) as [zb|fb|sb|lb|db];
    cbn [Num.mul Num.fmul Num.add mbind result_bind mret Py_ret fst score];
    try reflexivity;
   [ destruct (Num.float_of_Z zb) as [fb|] eqn:Eb; cbn [mbind result_bind fst score];
     [|reflexivity] | ];
   rewrite (float_mul_comm fb 0.4);
   cbn [Num.add Fmt.fixed mbind result_bind mret Py_ret fst score];
   rewrite ?El, ?Eb;
   cbn [Num.add Fmt.fixed mbind result_bind mret Py_ret fst score];
   reflexivity).
Qed.

Lemma testability_agrees_witness :
  MaintainabilityMetrics.get_testability_score scenario_cov
  = score (returned calculate_maintainability_score scenario).
Proof.
  apply (testability_agrees scenario_cov (Some scenario_run)).
  vm_compute. reflexivity.
Defined.

(** *** The score grows with the coverage *)

(** A double under a bound far from overflow is far from overflow. *)
Lemma small_below (x b : float) :
  small (Prim2SF b) -> in_range x b -> small (Prim2SF x).
Proof.
  intros Hb R. apply (in_range_units x b Hb) in R as [F Hu].
  pose proof (Prim2SF_valid x) as Vx. pose proof (Prim2SF_valid b) as Vb.
  destruct (Prim2SF x) as [s|s| |[] m e]; cbn [Order.fin_nonneg small] in *;
    try contradiction; try exact I.
  destruct (Prim2SF b) as [sb|sb| |[] mb eb]; cbn [small] in Hb; try contradiction.
  - exfalso. pose proof (Order.units_pos U m e) as P.
    destruct (Order.valid_finite _ _ _ Vx) as (_ & He & _).
    specialize (P ltac:(unfold U; lia)). cbn [Order.units] in *.
    exact (Z.lt_irrefl _ (Z.lt_le_trans _ _ _ P Hu)).
  - destruct (Order.valid_finite _ _ _ Vx) as (_ & He & Hm & Hn).
    destruct (Order.valid_finite _ _ _ Vb) as (_ & Heb & Hmb & _).
    destruct (Z.le_gt_cases e eb) as [Hle|Hgt]; [exact (Z.le_trans _ _ _ Hle Hb)|].
    exfalso. cbn [Order.units] in Hu.
    assert (Hn' : 2 ^ 52 <= Z.pos m) by (apply Hn; clear - Hgt Heb; lia).
    replace (e - U) with ((e - eb) + (eb - U)) in Hu by (clear; lia).
    rewrite (Z.pow_add_r 2 (e - eb) (eb - U)) in Hu by (clear - Hgt Heb; unfold U; lia).
    assert (Hp : 0 < 2 ^ (eb - U)) by (apply Z.pow_pos_nonneg; clear - Heb; unfold U; lia).
    assert (H2 : 2 ^ 1 <= 2 ^ (e - eb)) by (apply Z.pow_le_mono_r; clear - Hgt; lia).
    change (2 ^ 1) with 2 in H2. change (2 ^ 52) with 4503599627370496 in Hn'.
    change (2 ^ 53) with 9007199254740992 in Hmb.
    set (A := 2 ^ (e - eb)) in *. set (B := 2 ^ (eb - U)) in *. clearbody A B.
    clear Hn Vx Vb He Heb Hm Hgt Hb F.
    assert (H1 : 9007199254740992 <= Z.pos m * A).
    { change 9007199254740992 with (4503599627370496 * 2).
      apply Z.mul_le_mono_nonneg; lia. }
    assert (H3 : 9007199254740992 * B <= Z.pos m * A * B)
      by (apply Z.mul_le_mono_nonneg_r; lia).
    assert (H4 : Z.pos mb * B < 9007199254740992 * B)
      by (apply Z.mul_lt_mono_pos_r; lia).
    rewrite Z.mul_assoc in Hu. lia.
Qed.

(** X9: the maintainability score does not fall when a coverage
    rises: for float percentages of [0, 100], the score at a line and a
    branch coverage is at most the score at a higher line and a higher
    branch coverage. *)
Theorem maintainability_monotone (jc jc' : dict) (junit : option dict)
    (lc bc lc' bc' : float) :
  jc !! "line_coverage" = Some (PFloat lc) ->
  jc !! "branch_coverage" = Some (PFloat bc) ->
  jc' !! "line_coverage" = Some (PFloat lc') ->
  jc' !! "branch_coverage" = Some (PFloat bc') ->
  in_range lc lc' -> in_range lc' 100 ->
  in_range bc bc' -> in_range bc' 100 ->
  exists s s' : float,
    score (returned calculate_maintainability_score (calculator junit (Some jc)))
      = Ok (PFloat s) /\
    score (returned calculate_maintainability_score (calculator junit (Some jc')))
      = Ok (PFloat s') /\
    Num.le (PFloat s) (PFloat s') = Ok true.
Proof.
  intros Hl Hb Hl' Hb' Rl Rl' Rb Rb'.
  exists (0.6 * lc + 0.4 * bc)%float, (0.6 * lc' + 0.4 * bc')%float.
  split.
  { run_method. rewrite (truth_of_lookup _ _ _ Hl). cbn [negb].
    rewrite (get_lookup _ _ _ Hl), (get_lookup _ _ _ Hb). reflexivity. }
  split.
  { run_method. rewrite (truth_of_lookup _ _ _ Hl'). cbn [negb].
    rewrite (get_lookup _ _ _ Hl'), (get_lookup _ _ _ Hb'). reflexivity. }
  assert (S6 : small (Prim2SF 0.6)) by (vm_compute; discriminate).
  assert (S4 : small (Prim2SF 0.4)) by (vm_compute; discriminate).
  assert (S60 : small (Prim2SF (0.6 * 100))) by (vm_compute; discriminate).
  assert (S40 : small (Prim2SF (0.4 * 100))) by (vm_compute; discriminate).
  assert (S100 : small (Prim2SF (0.6 * 100 + 0.4 * 100))) by (vm_compute; discriminate).
  pose proof (small_below lc' 100 small_100 Rl') as Sl.
  pose proof (small_below bc' 100 small_100 Rb') as Sb.
  pose proof (range_mul_l 0.6 lc' 100 S6 small_100 S60 Rl') as Pl.
  pose proof (range_mul_l 0.4 bc' 100 S4 small_100 S40 Rb') as Pb.
  pose proof (small_below _ _ S60 Pl) as Sl6.
  pose proof (small_below _ _ S40 Pb) as Sb4.
  pose proof (range_add _ _ _ _ S60 S40 S100 Pl Pb) as Psum.
  pose proof (small_below _ _ S100 Psum) as Ssum.
  assert (R : in_range (0.6 * lc + 0.4 * bc) (0.6 * lc' + 0.4 * bc')).
  { apply range_add; try assumption; apply range_mul_l; assumption. }
  destruct R as [_ R].
  unfold Num.le, Num.compare. cbn [mbind result_bind].
  rewrite Flt.leb_compare in R.
  destruct (Num.float_compare _ _) as [[]|]; try discriminate; reflexivity.
Qed.

Lemma maintainability_monotone_witness :
  exists s s' : float,
    score (returned calculate_maintainability_score
             (calculator None (Some (Dict.of_list
                [("line_coverage", PFloat 50); ("branch_coverage", PFloat 25)]))))
      = Ok (PFloat s) /\
    score (returned calculate_maintainability_score (calculator None (Some full_cov)))
      = Ok (PFloat s') /\
    Num.le (PFloat s) (PFloat s') = Ok true.
Proof.
  apply (maintainability_monotone _ full_cov None 50 25 100 100);
    try (vm_compute; reflexivity); split; vm_compute; reflexivity.
Defined.

(** ** The performance status and the performance score *)

Lemma eq_int_float_zero (t : float) : Num.eq_int (PFloat t) 0 = (t =? 0)%float.
Proof.
  unfold Num.eq_int, Num.Z_float_compare.
  rewrite FloatAxioms.eqb_spec, Flt.Prim2SF_zero. unfold SFeqb.
  destruct (Prim2SF t) as [s|[]| |s m e]; cbn [SFcompare]; try reflexivity.
  destruct (Z.leb_spec 0 e) as [He|He].
  - assert (Hp : 0 < 2 ^ e) by (apply Z.pow_pos_nonneg; lia).
    destruct s; destruct (Z.compare_spec 0 (Z.neg m * 2 ^ e));
      destruct (Z.compare_spec 0 (Z.pos m * 2 ^ e)); try reflexivity; nia.
  - destruct s; reflexivity.
Qed.

(** A double below a positive double is below every larger one. *)
Lemma float_lt_le_trans (x c d : float) (mc md : positive) (ec ed : Z) :
  Prim2SF c = S754_finite false mc ec -> Prim2SF d = S754_finite false md ed ->
  units (Prim2SF c) <= units (Prim2SF d) ->
  Num.float_compare x c = Some Lt -> Num.float_compare x d = Some Lt.
Proof.
  intros Ec Ed Hcd. rewrite !Flt.float_compare_spec.
  pose proof (Prim2SF_valid x) as Vx. pose proof (Prim2SF_valid c) as Vc.
  pose proof (Prim2SF_valid d) as Vd. rewrite Ec, Ed in *.
  destruct (Prim2SF x) as [s|[]| |[] m e]; cbn [SFcompare]; try discriminate;
    try reflexivity.
  change (SFcompare (S754_finite false m e) (S754_finite false mc ec) = Some Lt ->
          SFcompare (S754_finite false m e) (S754_finite false md ed) = Some Lt).
  rewrite !(Order.compare_finite_units U U_low) by assumption.
  intros [= H]. f_equal. apply Z.compare_lt_iff. apply Z.compare_lt_iff in H.
  exact (Z.lt_le_trans _ _ _ H Hcd).
Qed.

Lemma below_tenth_below_half (x : float) :
  Num.float_compare x 0.1 = Some Lt -> Num.float_compare x 0.5 = Some Lt.
Proof.
  apply (float_lt_le_trans x 0.1 0.5 7205759403792794 4503599627370496 (-56) (-53));
    try reflexivity.
  apply Z.leb_le. vm_compute. reflexivity.
Qed.

(** X10: on a run with an int [total_tests > 0] that converts to a
    double and a float [execution_time], when the performance tab shows
    the status Excelente or Bueno the performance score of the calculator
    is 100.0. *)
Theorem fast_status_full_score (jd : dict) (jacoco : option dict) (n : Z) (t fn : float)
    (d : dict) :
  jd !! "total_tests" = Some (PInt n) ->
  jd !! "execution_time" = Some (PFloat t) ->
  0 < n ->
  Num.float_of_Z n = Ok fn ->
  PerformanceMetrics.get_performance_status (PFloat t) (PInt n) = Ok d ->
  d !! "status" = Some (PStr "Excelente") \/ d !! "status" = Some (PStr "Bueno") ->
  score (returned calculate_performance_score (calculator (Some jd) jacoco))
    = Ok (PFloat 100).
Proof.
  intros Ht Htime Hn Hfn Hst Hd.
  assert (Hn0 : (n =? 0) = false) by (apply Z.eqb_neq; lia).
  (* the status: the average is below the threshold *)
  assert (Hfast : Num.float_compare (t / fn) 0.5 = Some Lt).
  { unfold PerformanceMetrics.get_performance_status, Num.gt, Num.lt in Hst.
    cbn [Num.compare mbind result_bind Num.truediv] in Hst.
    rewrite Hfn in Hst. cbn [mbind result_bind] in Hst. rewrite Hn0 in Hst.
    destruct (Z.compare_spec n 0); try lia.
    cbn [mbind result_bind Num.compare] in Hst.
    destruct (Num.float_compare (t / fn) 0.1) as [[]|] eqn:E1;
      try exact (below_tenth_below_half _ E1);
      (destruct (Num.float_compare (t / fn) 0.5) as [[]|] eqn:E2; try reflexivity;
       exfalso; cbn [mbind result_bind] in Hst;
       destruct (Num.float_compare (t / fn) 1) as [[]|];
       cbn [mbind result_bind] in Hst;
       injection Hst as <-; destruct Hd as [Hd|Hd]; vm_compute in Hd; discriminate). }
  (* the score *)
  run_method. rewrite (truth_of_lookup _ _ _ Ht). cbn [negb].
  rewrite (get_lookup _ _ _ Ht), (get_lookup _ _ _ Htime).
  cbn [Num.eq_int]. rewrite Hn0. cbn [orb].
  destruct (match Num.Z_float_compare 0 t with Some Eq => true | _ => false end) eqn:Ez;
    [reflexivity|].
  pose proof (eq_int_float_zero t) as Hz. cbn [Num.eq_int] in Hz. rewrite Ez in Hz.
  unfold lift. cbn [Num.truediv]. rewrite Hfn. cbn [mbind result_bind]. rewrite Hn0.
  unfold Num.le, Num.lt. cbn [Num.compare mbind result_bind].
  change PERFORMANCE_THRESHOLD with 0.5%float. rewrite Hfast.
  cbn [mret Py_ret mbind result_bind].
  destruct (Num.Z_float_compare 0 t) as [[]|];
    cbn [Num.truediv mbind result_bind mret Py_ret Fmt.fixed fst score];
    rewrite ?Hfn; cbn [mbind result_bind]; rewrite <- ?Hz;
    cbn [mbind result_bind mret Py_ret Fmt.fixed fst score]; reflexivity.
Qed.

Definition quick_run : dict :=
  Dict.of_list [("total_tests", PInt 10); ("execution_time", PFloat 2.5)].

Lemma fast_status_full_score_witness :
  score (returned calculate_performance_score (calculator (Some quick_run) None))
    = Ok (PFloat 100).
Proof.
  apply (fast_status_full_score quick_run None 10 2.5 10
           (status_record "Bueno" "info"));
    try lia; try (vm_compute; reflexivity).
  right. vm_compute. reflexivity.
Defined.

(** ** The composite record *)

(** The double a score is read as by the weighted sum and by the
    two-decimal format. *)
Definition reads_as (v : pyval) (f : float) : Prop :=
  (forall w, Num.fmul w v = Ok (PFloat (w * f))) /\
  (forall d, Fmt.fixed d v = Ok (Fmt.fixed_float d f)).

Lemma reads_as_float (f : float) : reads_as (PFloat f) f.
Proof. split; reflexivity. Qed.

Lemma fmul_reads (w : float) (v x : pyval) :
  Num.fmul w v = Ok x -> exists f, reads_as v f.
Proof.
  destruct v as [z|f|s|l|d]; cbn [Num.fmul]; try discriminate.
  - destruct (Num.float_of_Z z) as [f|] eqn:E; [|discriminate]. intros _. exists f.
    split; intros; cbn [Num.fmul Fmt.fixed]; rewrite E; reflexivity.
  - intros _. exists f. apply reads_as_float.
Qed.

(** The record [calculate_weighted_quality_score] builds. *)
Definition weighted_details (wqs : pyval) (rating rating_color : string)
    (rs ms ps : pyval) (dr dm dp : dict) (calculation : string) : dict :=
  Dict.of_list
    [ ("weighted_quality_score", wqs);
      ("rating", PStr rating);
      ("rating_color", PStr rating_color);
      ("weights", PDict (Dict.of_list
         [ ("reliability", PFloat WEIGHT_RELIABILITY);
           ("maintainability", PFloat WEIGHT_MAINTAINABILITY);
           ("performance", PFloat WEIGHT_PERFORMANCE) ]));
      ("scores", PDict (Dict.of_list
         [ ("reliability", rs);
           ("maintainability", ms);
           ("performance", ps) ]));
      ("details", PDict (Dict.of_list
         [ ("reliability", PDict dr);
           ("maintainability", PDict dm);
           ("performance", PDict dp) ]));
      ("formula", PStr "WQS = (0.40 × RS) + (0.40 × MS) + (0.20 × PS)");
      ("standard", PStr "ISO/IEC 25010:2011, Section 4.1");
      ("calculation", PStr calculation) ].

Lemma run_pair {A : Type} (m : Py A) (self : QualityRatingCalculator) (a : A) :
  readonly m -> returned m self = Ok a -> m self = (Ok a, self).
Proof.
  intros R. specialize (R self). unfold state_after, returned in *.
  destruct (m self) as [r self']; cbn in *. intros ->. subst. reflexivity.
Qed.

Lemma rating_loop_letter (wqs : pyval) (rating : string) :
  rating_loop RATING_RANGES wqs = Ok rating -> In rating ["A"; "B"; "C"; "D"; "E"].
Proof.
  unfold RATING_RANGES. cbn [rating_loop].
  repeat (match goal with
          | |- context [between ?a wqs ?b] => destruct (between a wqs b) as [[]|]
          end; cbn [mbind result_bind]); try discriminate;
    intros [= <-]; cbn; tauto.
Qed.

(** From the three scores to the composite record. *)
Lemma weighted_run (self : QualityRatingCalculator)
    (rs ms ps : pyval) (dr dm dp : dict) (fr fm fp : float) :
  returned calculate_reliability_score self = Ok (rs, dr) ->
  returned calculate_maintainability_score self = Ok (ms, dm) ->
  returned calculate_performance_score self = Ok (ps, dp) ->
  reads_as rs fr -> reads_as ms fm -> reads_as ps fp ->
  let w := (WEIGHT_RELIABILITY * fr + WEIGHT_MAINTAINABILITY * fm
            + WEIGHT_PERFORMANCE * fp)%float in
  exists rating color calculation,
    rating_loop RATING_RANGES (PFloat w) = Ok rating /\
    In rating ["A"; "B"; "C"; "D"; "E"] /\
    RATING_COLORS !! rating = Some color /\
    calculate_weighted_quality_score self
    = (Ok (PFloat w, weighted_details (PFloat w) rating color rs ms ps dr dm dp calculation),
       self).
Proof.
  intros Hr Hm Hp [Mr Fr] [Mm Fm] [Mp Fp] w.
  apply (run_pair _ _ _ readonly_reliability) in Hr.
  apply (run_pair _ _ _ readonly_maintainability) in Hm.
  apply (run_pair _ _ _ readonly_performance) in Hp.
  destruct (get_rating_letter (PFloat w) self (or_intror (ex_intro _ w eq_refl)))
    as (rating & Hrat & Hin).
  unfold returned, _get_rating, lift in Hrat. cbn [fst] in Hrat.
  destruct (rating_color_total rating Hin) as [color Hcol].
  exists rating, color. eexists.
  split; [exact Hrat|]. split; [exact Hin|].
  split.
  { unfold Dict.subscript in Hcol. destruct (RATING_COLORS !! rating); congruence. }
  unfold calculate_weighted_quality_score, mbind at 1, Py_bind at 1.
  rewrite Hr. unfold mbind at 1, Py_bind at 1. rewrite Hm.
  unfold mbind at 1, Py_bind at 1. rewrite Hp.
  unfold mbind, Py_bind, _get_rating, lift. rewrite Mr, Mm, Mp.
  cbn [Num.add]. fold w. rewrite Hrat, Hcol, !Fr, !Fm, !Fp. cbn [Fmt.fixed].
  reflexivity.
Qed.

(** The composite record, read back from a call that returned. *)
Lemma weighted_inversion (self : QualityRatingCalculator) (wqs : pyval) (d : dict) :
  returned calculate_weighted_quality_score self = Ok (wqs, d) ->
  exists (rs ms ps : pyval) (dr dm dp : dict) (fr fm fp : float) (rating color : string),
    returned calculate_reliability_score self = Ok (rs, dr) /\
    returned calculate_maintainability_score self = Ok (ms, dm) /\
    returned calculate_performance_score self = Ok (ps, dp) /\
    reads_as rs fr /\ reads_as ms fm /\ reads_as ps fp /\
    wqs = PFloat (WEIGHT_RELIABILITY * fr + WEIGHT_MAINTAINABILITY * fm
                  + WEIGHT_PERFORMANCE * fp) /\
    d !! "weighted_quality_score" = Some wqs /\
    returned (_get_rating wqs) self = Ok rating /\
    In rating ["A"; "B"; "C"; "D"; "E"] /\
    d !! "rating" = Some (PStr rating) /\
    RATING_COLORS !! rating = Some color /\
    d !! "rating_color" = Some (PStr color) /\
    Dict.path (PDict d) ["scores"; "reliability"] = Ok rs /\
    Dict.path (PDict d) ["scores"; "maintainability"] = Ok ms /\
    Dict.path (PDict d) ["scores"; "performance"] = Ok ps /\
    Dict.path (PDict d) ["details"; "reliability"] = Ok (PDict dr) /\
    Dict.path (PDict d) ["details"; "maintainability"] = Ok (PDict dm) /\
    Dict.path (PDict d) ["details"; "performance"] = Ok (PDict dp).
Proof.
  intros H.
  pose proof H as H0.
  unfold returned, calculate_weighted_quality_score, mbind at 1, Py_bind at 1 in H0.
  destruct (calculate_reliability_score self) as [[[rs dr]|e] s1] eqn:Er;
    [|discriminate H0].
  assert (Hr : returned calculate_reliability_score self = Ok (rs, dr))
    by (unfold returned; rewrite Er; reflexivity).
  rewrite (run_pair _ _ _ readonly_reliability Hr) in Er. injection Er as <-.
  unfold mbind at 1, Py_bind at 1 in H0.
  destruct (calculate_maintainability_score self) as [[[ms dm]|e] s2] eqn:Em;
    [|discriminate H0].
  assert (Hm : returned calculate_maintainability_score self = Ok (ms, dm))
    by (unfold returned; rewrite Em; reflexivity).
  rewrite (run_pair _ _ _ readonly_maintainability Hm) in Em. injection Em as <-.
  unfold mbind at 1, Py_bind at 1 in H0.
  destruct (calculate_performance_score self) as [[[ps dp]|e] s3] eqn:Ep;
    [|discriminate H0].
  assert (Hp : returned calculate_performance_score self = Ok (ps, dp))
    by (unfold returned; rewrite Ep; reflexivity).
  rewrite (run_pair _ _ _ readonly_performance Hp) in Ep. injection Ep as <-.
  unfold mbind at 1, Py_bind at 1, lift at 1 in H0.
  destruct (Num.fmul WEIGHT_RELIABILITY rs) as [wr|] eqn:E1; [|discriminate H0].
  unfold mbind at 1, Py_bind at 1, lift at 1 in H0.
  destruct (Num.fmul WEIGHT_MAINTAINABILITY ms) as [wm|] eqn:E2; [|discriminate H0].
  unfold mbind at 1, Py_bind at 1, lift at 1 in H0.
  destruct (Num.fmul WEIGHT_PERFORMANCE ps) as [wp|] eqn:E3; [|discriminate H0].
  clear H0.
  destruct (fmul_reads _ _ _ E1) as [fr Rr].
  destruct (fmul_reads _ _ _ E2) as [fm Rm].
  destruct (fmul_reads _ _ _ E3) as [fp Rp].
  destruct (weighted_run self rs ms ps dr dm dp fr fm fp Hr Hm Hp Rr Rm Rp)
    as (rating & color & calc & Hrat & Hin & Hcol & Hrun).
  unfold returned in H. rewrite Hrun in H. cbn [fst] in H. injection H as <- <-.
  exists rs, ms, ps, dr, dm, dp, fr, fm, fp, rating, color.
  repeat match goal with |- _ /\ _ => split end;
    try assumption; try reflexivity;
    unfold weighted_details; read_entry.
Qed.

(** X11: whenever [calculate_weighted_quality_score] returns, the score
    it returns is the double [0.4 * RS + 0.4 * MS + 0.2 * PS] of the three
    scores the scorers return, its record holds that score, those three
    scores and the three records of the scorers, the rating is the one
    [_get_rating] gives the score, one of the five letters, and the colour
    is the colour of that rating. *)
Theorem weighted_record (self : QualityRatingCalculator) (wqs : pyval) (d : dict) :
  returned calculate_weighted_quality_score self = Ok (wqs, d) ->
  exists (rs ms ps : pyval) (dr dm dp : dict) (fr fm fp : float) (rating color : string),
    returned calculate_reliability_score self = Ok (rs, dr) /\
    returned calculate_maintainability_score self = Ok (ms, dm) /\
    returned calculate_performance_score self = Ok (ps, dp) /\
    reads_as rs fr /\ reads_as ms fm /\ reads_as ps fp /\
    wqs = PFloat (WEIGHT_RELIABILITY * fr + WEIGHT_MAINTAINABILITY * fm
                  + WEIGHT_PERFORMANCE * fp) /\
    d !! "weighted_quality_score" = Some wqs /\
    returned (_get_rating wqs) self = Ok rating /\
    In rating ["A"; "B"; "C"; "D"; "E"] /\
    d !! "rating" = Some (PStr rating) /\
    RATING_COLORS !! rating = Some color /\
    d !! "rating_color" = Some (PStr color) /\
    Dict.path (PDict d) ["scores"; "reliability"] = Ok rs /\
    Dict.path (PDict d) ["scores"; "maintainability"] = Ok ms /\
    Dict.path (PDict d) ["scores"; "performance"] = Ok ps /\
    Dict.path (PDict d) ["details"; "reliability"] = Ok (PDict dr) /\
    Dict.path (PDict d) ["details"; "maintainability"] = Ok (PDict dm) /\
    Dict.path (PDict d) ["details"; "performance"] = Ok (PDict dp).
Proof. exact (weighted_inversion self wqs d). Qed.

Definition scenario_details : dict :=
  match returned calculate_weighted_quality_score scenario with
  | Ok (_, d) => d
  | Raise _ => ∅
  end.

Lemma weighted_record_witness :
  exists (rs ms ps : pyval) (dr dm dp : dict) (fr fm fp : float) (rating color : string),
    returned calculate_reliability_score scenario = Ok (rs, dr) /\
    returned calculate_maintainability_score scenario = Ok (ms, dm) /\
    returned calculate_performance_score scenario = Ok (ps, dp) /\
    reads_as rs fr /\ reads_as ms fm /\ reads_as ps fp /\
    PFloat 89.6 = PFloat (WEIGHT_RELIABILITY * fr + WEIGHT_MAINTAINABILITY * fm
                          + WEIGHT_PERFORMANCE * fp) /\
    scenario_details !! "weighted_quality_score" = Some (PFloat 89.6) /\
    returned (_get_rating (PFloat 89.6)) scenario = Ok rating /\
    In rating ["A"; "B"; "C"; "D"; "E"] /\
    scenario_details !! "rating" = Some (PStr rating) /\
    RATING_COLORS !! rating = Some color /\
    scenario_details !! "rating_color" = Some (PStr color) /\
    Dict.path (PDict scenario_details) ["scores"; "reliability"] = Ok rs /\
    Dict.path (PDict scenario_details) ["scores"; "maintainability"] = Ok ms /\
    Dict.path (PDict scenario_details) ["scores"; "performance"] = Ok ps /\
    Dict.path (PDict scenario_details) ["details"; "reliability"] = Ok (PDict dr) /\
    Dict.path (PDict scenario_details) ["details"; "maintainability"] = Ok (PDict dm) /\
    Dict.path (PDict scenario_details) ["details"; "performance"] = Ok (PDict dp).
Proof.
  apply (weighted_record scenario (PFloat 89.6) scenario_details).
  vm_compute. reflexivity.
Defined.

(** X12: [get_quality_metrics] raises what
    [calculate_weighted_quality_score] raises, and where that returns, it
    returns the score, the rating and the colour of its record and the
    three scores recorded there. *)
Theorem quality_metrics_agree (self : QualityRatingCalculator) :
  match returned calculate_weighted_quality_score self with
  | Raise e => returned get_quality_metrics self = Raise e
  | Ok (wqs, d) =>
      exists q, returned get_quality_metrics self = Ok q /\
        weighted_quality_score q = wqs /\
        d !! "rating" = Some (rating q) /\
        d !! "rating_color" = Some (rating_color q) /\
        Dict.path (PDict d) ["scores"; "reliability"] = Ok (reliability_score q) /\
        Dict.path (PDict d) ["scores"; "maintainability"] = Ok (maintainability_score q) /\
        Dict.path (PDict d) ["scores"; "performance"] = Ok (performance_score q)
  end.
Proof.
  destruct (returned calculate_weighted_quality_score self) as [[wqs d]|e] eqn:H.
  - destruct (weighted_inversion self wqs d H)
      as (rs & ms & ps & dr & dm & dp & fr & fm & fp & letter & color
          & Hr & Hm & Hp & _ & _ & _ & _ & _ & _ & _ & Hrat & _ & Hcol & Hsr & Hsm & Hsp & _).
    apply (run_pair _ _ _ readonly_reliability) in Hr.
    apply (run_pair _ _ _ readonly_maintainability) in Hm.
    apply (run_pair _ _ _ readonly_performance) in Hp.
    apply (run_pair _ _ _ readonly_weighted_quality_score) in H.
    eexists. split.
    + unfold returned, get_quality_metrics, mbind, Py_bind. rewrite Hr, Hm, Hp, H.
      unfold lift. rewrite (subscript_lookup _ _ _ Hrat), (subscript_lookup _ _ _ Hcol).
      reflexivity.
    + cbn [weighted_quality_score rating rating_color reliability_score
           maintainability_score performance_score].
      repeat split; assumption.
  - pose proof H as H0.
    unfold returned, get_quality_metrics, mbind at 1, Py_bind at 1.
    unfold returned, calculate_weighted_quality_score, mbind at 1, Py_bind at 1 in H0.
    destruct (calculate_reliability_score self) as [[[rs dr]|e1] s1] eqn:Er;
      [|cbn [fst] in H0 |- *; injection H0 as ->; reflexivity].
    assert (Hr : returned calculate_reliability_score self = Ok (rs, dr))
      by (unfold returned; rewrite Er; reflexivity).
    rewrite (run_pair _ _ _ readonly_reliability Hr) in Er. injection Er as <-.
    unfold mbind at 1, Py_bind at 1. unfold mbind at 1, Py_bind at 1 in H0.
    destruct (calculate_maintainability_score self) as [[[ms dm]|e2] s2] eqn:Em;
      [|cbn [fst] in H0 |- *; injection H0 as ->; reflexivity].
    assert (Hm : returned calculate_maintainability_score self = Ok (ms, dm))
      by (unfold returned; rewrite Em; reflexivity).
    rewrite (run_pair _ _ _ readonly_maintainability Hm) in Em. injection Em as <-.
    unfold mbind at 1, Py_bind at 1. unfold mbind at 1, Py_bind at 1 in H0.
    destruct (calculate_performance_score self) as [[[ps dp]|e3] s3] eqn:Ep;
      [|cbn [fst] in H0 |- *; injection H0 as ->; reflexivity].
    assert (Hp : returned calculate_performance_score self = Ok (ps, dp))
      by (unfold returned; rewrite Ep; reflexivity).
    rewrite (run_pair _ _ _ readonly_performance Hp) in Ep. injection Ep as <-.
    clear H0. unfold mbind at 1, Py_bind at 1. unfold returned in H.
    destruct (calculate_weighted_quality_score self) as [[a|e4] s4];
      cbn [fst] in H; [discriminate|]. cbn [fst]. injection H as ->. reflexivity.
Qed.

(** ** The description of a rating *)

(** X13: [get_rating_description] never raises on a string: it returns
    a record with a title, a description, a recommendation and an icon,
    all strings, and for a string that is none of A, B, C, D that record is
    the one of E, titled Crítico. *)
Theorem rating_description_total (r : string) (self : QualityRatingCalculator) :
  exists (info : dict) (title description recommendation icon : string),
    returned (get_rating_description (PStr r)) self = Ok info /\
    info !! "title" = Some (PStr title) /\
    info !! "description" = Some (PStr description) /\
    info !! "recommendation" = Some (PStr recommendation) /\
    info !! "icon" = Some (PStr icon) /\
    (~ In r ["A"; "B"; "C"; "D"] ->
     returned (get_rating_description (PStr r)) self
       = returned (get_rating_description (PStr "E")) self /\
     title = "Crítico").
Proof.
  assert (HE : Dict.subscript descriptions "E"
               = Ok (Dict.of_list
                   [ ("title", PStr "Crítico");
                     ("description",
                      PStr "Requiere Atención Inmediata - La calidad es inaceptable");
                     ("recommendation",
                      PStr "Revisión completa del código y estrategia de testing urgente");
                     ("icon", PStr "🚨") ])).
  { unfold descriptions. read_entry. }
  unfold returned, get_rating_description, mbind, Py_bind, lift. rewrite HE.
  cbn [mret Py_ret fst].
  assert (HEE : descriptions !! "E" = Some (Dict.of_list
                   [ ("title", PStr "Crítico");
                     ("description",
                      PStr "Requiere Atención Inmediata - La calidad es inaceptable");
                     ("recommendation",
                      PStr "Revisión completa del código y estrategia de testing urgente");
                     ("icon", PStr "🚨") ])).
  { unfold Dict.subscript in HE. destruct (descriptions !! "E"); congruence. }
  rewrite HEE. cbn [default].
  unfold descriptions at 1 2. rewrite !of_list_lookup. cbn [assoc_last].
  destruct (String.eqb_spec r "E") as [->|NE].
  { cbn [default]. do 5 eexists. split; [reflexivity|].
    do 4 (split; [read_entry|]). intros _. split; reflexivity. }
  destruct (String.eqb_spec r "D") as [->|ND].
  { cbn [default]. do 5 eexists. split; [reflexivity|].
    do 4 (split; [read_entry|]). intros H. exfalso. apply H. cbn. tauto. }
  destruct (String.eqb_spec r "C") as [->|NC].
  { cbn [default]. do 5 eexists. split; [reflexivity|].
    do 4 (split; [read_entry|]). intros H. exfalso. apply H. cbn. tauto. }
  destruct (String.eqb_spec r "B") as [->|NB].
  { cbn [default]. do 5 eexists. split; [reflexivity|].
    do 4 (split; [read_entry|]). intros H. exfalso. apply H. cbn. tauto. }
  destruct (String.eqb_spec r "A") as [->|NA].
  { cbn [default]. do 5 eexists. split; [reflexivity|].
    do 4 (split; [read_entry|]). intros H. exfalso. apply H. cbn. tauto. }
  cbn [default]. do 5 eexists. split; [reflexivity|].
  do 4 (split; [read_entry|]). intros _. split; reflexivity.
Qed.

Lemma rating_description_total_witness :
  returned (get_rating_description (PStr "F")) (calculator None None)
  = returned (get_rating_description (PStr "E")) (calculator None None).
Proof.
  destruct (rating_description_total "F" (calculator None None))
    as (info & t & d & rc & i & _ & _ & _ & _ & _ & H).
  apply H. cbn [In]. intros [E|[E|[E|[E|[]]]]]; discriminate E.
Defined.

(** ** The reports *)

Import Report.

(** One step of reading a report: the f-strings and the entries of the
    composite record. *)
Ltac report_step :=
  cbn [append fstring lit str_of fixed_of rule times Report.get_of join_of has_key
       mbind result_bind Fmt.str Fmt.fixed Num.mul Num.fmul
       Dict.path foldl Dict.item Dict.get_of Dict.contains Dict.get default];
  unfold Dict.subscript, Dict.contains, Dict.get;
  rewrite ?of_list_lookup;
  cbv [assoc_last String.eqb Ascii.eqb Bool.eqb].

Lemma description_of_letter (letter : string) (self : QualityRatingCalculator) :
  In letter ["A"; "B"; "C"; "D"; "E"] ->
  exists title description recommendation icon : string,
    get_rating_description (PStr letter) self
    = (Ok (Dict.of_list [ ("title", PStr title); ("description", PStr description);
                          ("recommendation", PStr recommendation);
                          ("icon", PStr icon) ]), self).
Proof.
  cbn [In]. intros [<-|[<-|[<-|[<-|[<-|[]]]]]]; do 4 eexists;
    unfold get_rating_description, descriptions, mbind, Py_bind, lift, Dict.subscript;
    rewrite !of_list_lookup; cbv [assoc_last String.eqb Ascii.eqb Bool.eqb];
    cbn [default mret Py_ret]; reflexivity.
Qed.

Section Reports.

Variables (self : QualityRatingCalculator) (w : float) (letter color calculation : string)
  (rs ms ps : pyval) (dr dm dp : dict) (fr fm fp : float).
Hypothesis run :
  calculate_weighted_quality_score self
  = (Ok (PFloat w, weighted_details (PFloat w) letter color rs ms ps dr dm dp calculation),
     self).
Hypothesis letter_known : In letter ["A"; "B"; "C"; "D"; "E"].
Hypothesis reliability_reads : reads_as rs fr.
Hypothesis maintainability_reads : reads_as ms fm.
Hypothesis performance_reads : reads_as ps fp.

(** What the reports print of the three records. *)
Definition printable_reliability : Prop :=
  exists (standard formula calc : string) (fault_density : float),
    dr !! "standard" = Some (PStr standard) /\
    dr !! "formula" = Some (PStr formula) /\
    dr !! "calculation" = Some (PStr calc) /\
    dr !! "fault_density" = Some (PFloat fault_density).

Definition printable_maintainability : Prop :=
  exists (s1 s2 s3 formula calc : string),
    dm !! "standards" = Some (PList [PStr s1; PStr s2; PStr s3]) /\
    dm !! "formula" = Some (PStr formula) /\
    dm !! "calculation" = Some (PStr calc).

Definition printable_performance : Prop :=
  exists (standard formula calc : string),
    dp !! "standard" = Some (PStr standard) /\
    dp !! "formula" = Some (PStr formula) /\
    dp !! "calculation" = Some (PStr calc).

Ltac open_text_report Hinfo :=
  unfold returned, generate_text_report, mbind at 1, Py_bind at 1; rewrite run;
  unfold mbind at 1, Py_bind at 1, lift at 1, weighted_details at 1;
  report_step; unfold mbind at 1, Py_bind at 1; rewrite Hinfo;
  unfold lift, weighted_details; cbn [fst].

Ltac open_html_report Hinfo :=
  unfold returned, generate_html_report, mbind at 1, Py_bind at 1; rewrite run;
  unfold mbind at 1, Py_bind at 1, lift at 1, weighted_details at 1;
  report_step; unfold mbind at 1, Py_bind at 1; rewrite Hinfo;
  unfold mbind at 1, Py_bind at 1, lift at 1, weighted_details at 1;
  report_step;
  unfold lift, weighted_details; cbn [fst].

Ltac read_report :=
  repeat (report_step;
          rewrite ?(proj1 reliability_reads), ?(proj1 maintainability_reads),
            ?(proj1 performance_reads), ?(proj2 reliability_reads),
            ?(proj2 maintainability_reads), ?(proj2 performance_reads),
            ?float_of_Z_100).

(** Without the [standard] entry of the reliability record both reports
    raise. *)
Lemma reports_need_reliability :
  dr !! "standard" = None ->
  returned generate_text_report self = Raise (KeyError "standard") /\
  returned generate_html_report self = Raise (KeyError "standard").
Proof.
  intros Hst.
  destruct (description_of_letter letter self letter_known) as (ti & de & re & ic & Hinfo).
  split.
  - open_text_report Hinfo. read_report. rewrite Hst. reflexivity.
  - open_html_report Hinfo. read_report. rewrite Hst. reflexivity.
Qed.

(** With the reliability record complete and the maintainability record
    the one of a guard, both reports raise at its formula. *)
Lemma reports_need_maintainability :
  printable_reliability ->
  dm !! "standards" = None -> dm !! "formula" = None ->
  returned generate_text_report self = Raise (KeyError "formula") /\
  returned generate_html_report self = Raise (KeyError "formula").
Proof.
  intros (st & fo & ca & fd & H1 & H2 & H3 & H4) Hs Hf.
  destruct (description_of_letter letter self letter_known) as (ti & de & re & ic & Hinfo).
  split.
  - open_text_report Hinfo.
    repeat (read_report; rewrite ?H1, ?H2, ?H3, ?H4, ?Hs, ?Hf). reflexivity.
  - open_html_report Hinfo.
    repeat (read_report; rewrite ?H1, ?H2, ?H3, ?H4, ?Hs, ?Hf). reflexivity.
Qed.

(** With the first two records complete and the performance record the
    one of a guard, both reports raise at its standard. *)
Lemma reports_need_performance :
  printable_reliability -> printable_maintainability ->
  dp !! "standard" = None ->
  returned generate_text_report self = Raise (KeyError "standard") /\
  returned generate_html_report self = Raise (KeyError "standard").
Proof.
  intros (st & fo & ca & fd & H1 & H2 & H3 & H4) (s1 & s2 & s3 & mf & mc & H5 & H6 & H7) Hs.
  destruct (description_of_letter letter self letter_known) as (ti & de & re & ic & Hinfo).
  split.
  - open_text_report Hinfo.
    repeat (read_report; cbn [join_items]; rewrite ?H1, ?H2, ?H3, ?H4, ?H5, ?H6, ?H7, ?Hs).
    reflexivity.
  - open_html_report Hinfo.
    repeat (read_report; cbn [join_items]; rewrite ?H1, ?H2, ?H3, ?H4, ?H5, ?H6, ?H7, ?Hs).
    reflexivity.
Qed.

(** With the three records complete both reports are strings: the text
    report is its lines joined by newlines, the second of them the title
    and the seventh the composite score with two decimals; the HTML report
    opens with the document type. *)
Lemma reports_printed_content :
  printable_reliability -> printable_maintainability -> printable_performance ->
  exists (lines : list string) (rest : string),
    returned generate_text_report self = Ok (String.concat nl lines) /\
    nth 1%nat lines "" = "REPORTE DE CALIDAD DE SOFTWARE" /\
    nth 6%nat lines "" = "Puntuación WQS: " +:+ Fmt.fixed_float 2 w +:+ "/100" /\
    returned generate_html_report self = Ok (nl +:+ "        <!DOCTYPE html>" +:+ rest).
Proof.
  intros (st & fo & ca & fd & H1 & H2 & H3 & H4) (s1 & s2 & s3 & mf & mc & H5 & H6 & H7)
    (pst & pf & pc & H8 & H9 & H10).
  destruct (description_of_letter letter self letter_known) as (ti & de & re & ic & Hinfo).
  do 2 eexists. split; [|split; [|split]].
  - open_text_report Hinfo.
    repeat (read_report; cbn [join_items];
            rewrite ?H1, ?H2, ?H3, ?H4, ?H5, ?H6, ?H7, ?H8, ?H9, ?H10).
    cbn [app]. reflexivity.
  - reflexivity.
  - reflexivity.
  - open_html_report Hinfo.
    repeat (read_report; cbn [join_items];
            rewrite ?H1, ?H2, ?H3, ?H4, ?H5, ?H6, ?H7, ?H8, ?H9, ?H10).
    reflexivity.
Qed.

(** With the three records complete both reports are strings. *)
Lemma reports_printed :
  printable_reliability -> printable_maintainability -> printable_performance ->
  (exists text, returned generate_text_report self = Ok text) /\
  (exists html, returned generate_html_report self = Ok html).
Proof.
  intros Pr Pm Pp.
  destruct (reports_printed_content Pr Pm Pp) as (lines & rest & Ht & _ & _ & Hh).
  split; eexists; eassumption.
Qed.

End Reports.

(** *** The records of the scorers on complete summaries *)

Lemma reliability_full_record (jd : dict) (jacoco : option dict) (total : Z) :
  junit_invariants jd -> jd !! "total_tests" = Some (PInt total) -> 0 < total ->
  exists (f : float) (dr : dict),
    returned calculate_reliability_score (calculator (Some jd) jacoco)
      = Ok (PFloat f, dr) /\
    printable_reliability dr.
Proof.
  intros (total' & passed & failures & errors & skipped & t & Ht & _ & Hf & He & _ & _
          & Hp & Hfl & Her & Hsk & Hsum & _ & _) Ht' Hpos.
  rewrite Ht in Ht'. injection Ht' as ->.
  run_method. rewrite (truth_of_lookup _ _ _ Ht). cbn [negb].
  rewrite (get_lookup _ _ _ Ht), (get_lookup _ _ _ Hf), (get_lookup _ _ _ He).
  cbn [Num.eq_int].
  destruct (Z.eqb_spec total 0) as [E|Hn]; [lia|].
  destruct (int_truediv_range (failures + errors) total ltac:(lia) ltac:(lia))
    as (fd & Hfd & Rfd).
  cbn [lift Num.add Num.truediv].
  destruct (Z.eqb_spec total 0) as [|_]; [contradiction|].
  rewrite Hfd.
  cbn [mbind result_bind Num.sub Num.mul Num.fmul]. rewrite float_of_Z_1, float_of_Z_100.
  cbn [mbind result_bind Num.sub Num.mul Num.fmul Fmt.fixed mret Py_ret fst].
  do 2 eexists. split; [reflexivity|].
  do 4 eexists. repeat split; read_entry.
Qed.

Lemma maintainability_full_record (junit : option dict) (jc : dict) :
  jacoco_invariants jc ->
  exists (f : float) (dm : dict),
    returned calculate_maintainability_score (calculator junit (Some jc))
      = Ok (PFloat f, dm) /\
    printable_maintainability dm.
Proof.
  intros (lc & bc & Hl & Hb & Wl & Wb).
  destruct (within_float lc Wl) as (fl & Rl & Ml & Fl).
  destruct (within_float bc Wb) as (fb & Rb & Mb & Fb).
  run_method. rewrite (truth_of_lookup _ _ _ Hl). cbn [negb].
  rewrite (get_lookup _ _ _ Hl), (get_lookup _ _ _ Hb).
  unfold lift. rewrite Ml, Mb, !Fl, !Fb.
  cbn [mbind result_bind Num.add Fmt.fixed mret Py_ret fst].
  do 2 eexists. split; [reflexivity|].
  do 5 eexists. repeat split; read_entry.
Qed.

Lemma performance_full_record (jd : dict) (jacoco : option dict) (n : Z) (t fn : float) :
  jd !! "total_tests" = Some (PInt n) ->
  jd !! "execution_time" = Some (PFloat t) ->
  0 < n -> (0 <? t)%float = true -> Num.float_of_Z n = Ok fn ->
  exists (ps : pyval) (dp : dict),
    returned calculate_performance_score (calculator (Some jd) jacoco) = Ok (ps, dp) /\
    percent ps /\ printable_performance dp.
Proof.
  intros Ht Htime Hn Hpos Hfn.
  pose proof (Flt.pos_of_ltb t Hpos) as Ptime.
  pose proof (average_nonneg n t fn Hn Hpos Hfn) as Havg.
  assert (Hps : exists ps, score_of_average (t / fn) = Ok ps /\ percent ps).
  { destruct (score_of_average_cases (t / fn) Havg) as [[_ Hs]|[_ (x & Hs & Hx)]].
    - exists (PFloat 100). split; [exact Hs|].
      right. eexists. split; [reflexivity|exact in_range_100].
    - exists x. split; [exact Hs|].
      destruct Hx as [->|(f & -> & Hnn & Hlt)]; [left; reflexivity|].
      right. exists f. split; [reflexivity|]. apply within_in_range. split.
      + unfold Num.le, Num.compare. cbn [mbind result_bind].
        destruct (Flt.zero_le_nonneg f Hnn) as [-> | ->]; reflexivity.
      + unfold Num.lt, Num.compare in Hlt. unfold Num.le, Num.compare.
        cbn [mbind result_bind] in *.
        destruct (option_map CompOpp (Num.Z_float_compare 100 f)) as [[]|];
          try discriminate; reflexivity. }
  destruct Hps as (ps & Hps & Pps). exists ps.
  destruct (percent_float ps Pps) as (_ & _ & _ & (s2 & Hs2)).
  run_method. rewrite (truth_of_lookup _ _ _ Ht). cbn [negb].
  rewrite (get_lookup _ _ _ Ht), (get_lookup _ _ _ Htime).
  cbn [Num.eq_int]. rewrite (Flt.zero_lt_pos t Ptime).
  destruct (Z.eqb_spec n 0) as [|_]; [lia|]. cbn [orb].
  unfold lift. cbn [Num.truediv]. rewrite Hfn. cbn [mbind result_bind].
  destruct (Z.eqb_spec n 0) as [|_]; [lia|].
  rewrite (Flt.pos_not_zero t Ptime).
  unfold score_of_average in Hps.
  destruct (Num.le (PFloat (t / fn)) (PFloat PERFORMANCE_THRESHOLD)) as [fast|] eqn:Efast;
    [|discriminate].
  cbn [mbind result_bind] in Hps.
  assert (Hrest : Num.lt (PInt 0) (PFloat t) = Ok true)
    by (unfold Num.lt, Num.compare; rewrite (Flt.zero_lt_pos t Ptime); reflexivity).
  destruct fast.
  - injection Hps as <-. cbn [mret Py_ret]. rewrite Hrest.
    cbn [mbind result_bind Fmt.fixed mret Py_ret fst].
    eexists. split; [reflexivity|]. split; [exact Pps|].
    do 3 eexists. repeat split; read_entry.
  - cbn [Num.truediv] in Hps. destruct (t / fn =? 0)%float; [discriminate|].
    cbn [mbind result_bind] in Hps.
    destruct (Num.mul _ (PInt 100)) as [scaled|]; [|discriminate].
    cbn [mbind result_bind] in Hps. rewrite Hps, Hrest.
    cbn [mbind result_bind Fmt.fixed mret Py_ret fst]. rewrite Hs2.
    cbn [mbind result_bind mret Py_ret fst].
    eexists. split; [reflexivity|]. split; [exact Pps|].
    do 3 eexists. repeat split; read_entry.
Qed.

Lemma percent_reads (v : pyval) : percent v -> exists f, reads_as v f.
Proof.
  intros [->|(f & -> & _)].
  - exists 100%float. split; intros; cbn [Num.fmul Fmt.fixed]; rewrite float_of_Z_100;
      reflexivity.
  - exists f. apply reads_as_float.
Qed.

(** The scorers on the summaries of the data model, as pairs. *)
Lemma maintainability_returns (junit jacoco : option dict) :
  summary jacoco_invariants jacoco ->
  exists (f : float) (dm : dict),
    returned calculate_maintainability_score (calculator junit jacoco) = Ok (PFloat f, dm).
Proof.
  intros H. destruct (maintainability_percent junit jacoco H) as (f & Hs & _).
  destruct (run_scorer _ _ _ readonly_maintainability Hs) as [dm Hd].
  exists f, dm. unfold returned. rewrite Hd. reflexivity.
Qed.

Lemma performance_returns (junit jacoco : option dict) :
  summary junit_invariants junit ->
  exists (ps : pyval) (dp : dict) (fp : float),
    returned calculate_performance_score (calculator junit jacoco) = Ok (ps, dp) /\
    reads_as ps fp.
Proof.
  intros H. destruct (performance_percent junit jacoco H) as (ps & Hs & P).
  destruct (run_scorer _ _ _ readonly_performance Hs) as [dp Hd].
  destruct (percent_reads ps P) as [fp R].
  exists ps, dp, fp. split; [|exact R]. unfold returned. rewrite Hd. reflexivity.
Qed.

(** *** When the reports can be written *)

(** X14: with a JUnit summary that is absent or empty, or whose
    [total_tests] is the int 0, and any coverage summary of the data
    model, both reports raise KeyError('standard'): the record of the
    reliability guard has no such entry. *)
Theorem reports_fail_without_tests (junit jacoco : option dict) :
  Dict.truth junit = false \/
  (exists jd, junit = Some jd /\ jd !! "total_tests" = Some (PInt 0)) ->
  summary jacoco_invariants jacoco ->
  returned generate_text_report (calculator junit jacoco) = Raise (KeyError "standard") /\
  returned generate_html_report (calculator junit jacoco) = Raise (KeyError "standard").
Proof.
  intros Hj Hc.
  destruct (maintainability_returns junit jacoco Hc) as (fm & dm & Hm).
  assert (Hrp : exists dr ps dp,
    returned calculate_reliability_score (calculator junit jacoco) = Ok (PFloat 0, dr) /\
    dr !! "standard" = None /\
    returned calculate_performance_score (calculator junit jacoco) = Ok (PFloat ps, dp)).
  { destruct Hj as [Hj|(jd & -> & Ht)].
    - exists no_junit, 0%float, no_junit. run_method.
      destruct junit as [jd|]; [rewrite Hj|];
        (split; [reflexivity|]); (split; [vm_compute; reflexivity|reflexivity]).
    - exists no_tests, 100%float, no_signal. run_method.
      rewrite (truth_of_lookup _ _ _ Ht), (get_lookup _ _ _ Ht).
      split; [reflexivity|]. split; [vm_compute; reflexivity|reflexivity]. }
  destruct Hrp as (dr & ps & dp & Hr & Hst & Hp).
  destruct (weighted_run _ _ _ _ _ _ _ _ _ _ Hr Hm Hp
              (reads_as_float _) (reads_as_float _) (reads_as_float _))
    as (letter & color & calc & _ & Hin & _ & Hrun).
  eapply reports_need_reliability;
    try exact Hrun; try exact Hin; try exact Hst; try apply reads_as_float.
Qed.

Lemma reports_fail_without_tests_witness :
  returned generate_text_report (calculator (Some empty_run) (Some scenario_cov))
  = Raise (KeyError "standard").
Proof.
  apply (reports_fail_without_tests (Some empty_run) (Some scenario_cov)).
  - right. exists empty_run. split; [reflexivity|]. vm_compute. reflexivity.
  - right. exists (PInt 85), (PInt 70). repeat split; vm_compute; reflexivity.
Defined.

(** X15: with a JUnit summary of the data model that has tests, and a
    coverage summary that is absent or empty, both reports raise
    KeyError('formula'): they print the reliability section and fail in
    the maintainability one. *)
Theorem reports_fail_without_coverage (jd : dict) (jacoco : option dict) (total : Z) :
  junit_invariants jd -> jd !! "total_tests" = Some (PInt total) -> 0 < total ->
  Dict.truth jacoco = false ->
  returned generate_text_report (calculator (Some jd) jacoco) = Raise (KeyError "formula") /\
  returned generate_html_report (calculator (Some jd) jacoco) = Raise (KeyError "formula").
Proof.
  intros Hj Ht Hpos Hc.
  destruct (reliability_full_record jd jacoco total Hj Ht Hpos) as (fr & dr & Hr & Pr).
  destruct (performance_returns (Some jd) jacoco (or_intror Hj)) as (ps & dp & fp & Hp & Rp).
  assert (Hm : returned calculate_maintainability_score (calculator (Some jd) jacoco)
               = Ok (PFloat 0, no_jacoco)).
  { run_method. destruct jacoco as [jc|]; [rewrite Hc|]; reflexivity. }
  destruct (weighted_run _ _ _ _ _ _ _ _ _ _ Hr Hm Hp
              (reads_as_float _) (reads_as_float _) Rp)
    as (letter & color & calc & _ & Hin & _ & Hrun).
  eapply reports_need_maintainability;
    try exact Hrun; try exact Hin; try exact Pr; try exact Rp; try apply reads_as_float;
    vm_compute; reflexivity.
Qed.

Lemma reports_fail_without_coverage_witness :
  returned generate_text_report (calculator (Some scenario_run) None)
  = Raise (KeyError "formula").
Proof.
  apply (reports_fail_without_coverage scenario_run None 100).
  - exists 100, 95, 3, 2, 0, 45%float.
    repeat split; try lia; try (vm_compute; reflexivity).
    exists 100%float. vm_compute. reflexivity.
  - vm_compute. reflexivity.
  - lia.
  - reflexivity.
Defined.

(** X16: with both summaries of the data model present and tests run,
    but an [execution_time] equal to zero, both reports raise
    KeyError('standard'): the performance record is the note of the
    guard. *)
Theorem reports_fail_without_time (jd jc : dict) (total : Z) (t : float) :
  junit_invariants jd -> jd !! "total_tests" = Some (PInt total) -> 0 < total ->
  jd !! "execution_time" = Some (PFloat t) -> (t =? 0)%float = true ->
  jacoco_invariants jc ->
  returned generate_text_report (calculator (Some jd) (Some jc))
    = Raise (KeyError "standard") /\
  returned generate_html_report (calculator (Some jd) (Some jc))
    = Raise (KeyError "standard").
Proof.
  intros Hj Ht Hpos Htime Hz Hc.
  destruct (reliability_full_record jd (Some jc) total Hj Ht Hpos) as (fr & dr & Hr & Pr).
  destruct (maintainability_full_record (Some jd) jc Hc) as (fm & dm & Hm & Pm).
  assert (Hp : returned calculate_performance_score (calculator (Some jd) (Some jc))
               = Ok (PFloat 100, no_signal)).
  { run_method. rewrite (truth_of_lookup _ _ _ Ht). cbn [negb].
    rewrite (get_lookup _ _ _ Ht), (get_lookup _ _ _ Htime), (eq_int_float_zero t), Hz.
    rewrite orb_true_r. reflexivity. }
  destruct (weighted_run _ _ _ _ _ _ _ _ _ _ Hr Hm Hp
              (reads_as_float _) (reads_as_float _) (reads_as_float _))
    as (letter & color & calc & _ & Hin & _ & Hrun).
  eapply reports_need_performance;
    try exact Hrun; try exact Hin; try exact Pr; try exact Pm; try apply reads_as_float.
  vm_compute. reflexivity.
Qed.

Definition untimed_run : dict :=
  Dict.of_list
    [ ("total_tests", PInt 4); ("passed", PInt 4); ("failures", PInt 0);
      ("errors", PInt 0); ("skipped", PInt 0); ("execution_time", PFloat 0) ].

Lemma reports_fail_without_time_witness :
  returned generate_text_report (calculator (Some untimed_run) (Some scenario_cov))
  = Raise (KeyError "standard").
Proof.
  apply (reports_fail_without_time untimed_run scenario_cov 4 0).
  - exists 4, 4, 0, 0, 0, 0%float.
    repeat split; try lia; try (vm_compute; reflexivity).
    exists 4%float. vm_compute. reflexivity.
  - vm_compute. reflexivity.
  - lia.
  - vm_compute. reflexivity.
  - reflexivity.
  - exists (PInt 85), (PInt 70). repeat split; vm_compute; reflexivity.
Defined.

(** X17: with both summaries of the data model present, tests run and
    an [execution_time] above zero, both reports are written. *)
Theorem reports_written (jd jc : dict) (total : Z) (t : float) :
  junit_invariants jd -> jd !! "total_tests" = Some (PInt total) -> 0 < total ->
  jd !! "execution_time" = Some (PFloat t) -> (0 <? t)%float = true ->
  jacoco_invariants jc ->
  (exists text,
     returned generate_text_report (calculator (Some jd) (Some jc)) = Ok text) /\
  (exists html,
     returned generate_html_report (calculator (Some jd) (Some jc)) = Ok html).
Proof.
  intros Hj Ht Hpos Htime Hz Hc.
  destruct (reliability_full_record jd (Some jc) total Hj Ht Hpos) as (fr & dr & Hr & Pr).
  destruct (maintainability_full_record (Some jd) jc Hc) as (fm & dm & Hm & Pm).
  assert (Hfn : exists fn, Num.float_of_Z total = Ok fn).
  { destruct Hj as (total' & passed & failures & errors & skipped & t' & Ht' & _ & _ & _
                    & _ & _ & _ & _ & _ & _ & _ & _ & Hfn).
    rewrite Ht in Ht'. injection Ht' as <-. exact Hfn. }
  destruct Hfn as [fn Hfn].
  destruct (performance_full_record jd (Some jc) total t fn Ht Htime Hpos Hz Hfn)
    as (ps & dp & Hp & Pps & Pp).
  destruct (percent_reads ps Pps) as [fp Rp].
  destruct (weighted_run _ _ _ _ _ _ _ _ _ _ Hr Hm Hp
              (reads_as_float _) (reads_as_float _) Rp)
    as (letter & color & calc & _ & Hin & _ & Hrun).
  eapply reports_printed;
    try exact Hrun; try exact Hin; try exact Pr; try exact Pm; try exact Pp;
    try exact Rp; try apply reads_as_float.
Qed.

Lemma reports_written_witness :
  (exists text, returned generate_text_report scenario = Ok text) /\
  (exists html, returned generate_html_report scenario = Ok html).
Proof.
  apply (reports_written scenario_run scenario_cov 100 45).
  - exists 100, 95, 3, 2, 0, 45%float.
    repeat split; try lia; try (vm_compute; reflexivity).
    exists 100%float. vm_compute. reflexivity.
  - vm_compute. reflexivity.
  - lia.
  - vm_compute. reflexivity.
  - vm_compute. reflexivity.
  - exists (PInt 85), (PInt 70). repeat split; vm_compute; reflexivity.
Defined.

(** ** The composite score grows with each score *)

(** X18: between two calculators whose three scores are doubles of
    [0, 100], each score of the first at most the matching score of the
    second, the composite score of the first is at most the composite
    score of the second. *)
Theorem weighted_score_monotone (self self' : QualityRatingCalculator)
    (fr fm fp fr' fm' fp' : float) :
  score (returned calculate_reliability_score self) = Ok (PFloat fr) ->
  score (returned calculate_maintainability_score self) = Ok (PFloat fm) ->
  score (returned calculate_performance_score self) = Ok (PFloat fp) ->
  score (returned calculate_reliability_score self') = Ok (PFloat fr') ->
  score (returned calculate_maintainability_score self') = Ok (PFloat fm') ->
  score (returned calculate_performance_score self') = Ok (PFloat fp') ->
  in_range fr fr' -> in_range fr' 100 ->
  in_range fm fm' -> in_range fm' 100 ->
  in_range fp fp' -> in_range fp' 100 ->
  exists w w' : float,
    score (returned calculate_weighted_quality_score self) = Ok (PFloat w) /\
    score (returned calculate_weighted_quality_score self') = Ok (PFloat w') /\
    Num.le (PFloat w) (PFloat w') = Ok true.
Proof.
  intros Hr Hm Hp Hr' Hm' Hp' Rr Rr' Rm Rm' Rp Rp'.
  destruct (run_scorer _ _ _ readonly_reliability Hr) as [dr Er].
  destruct (run_scorer _ _ _ readonly_maintainability Hm) as [dm Em].
  destruct (run_scorer _ _ _ readonly_performance Hp) as [dp Ep].
  destruct (run_scorer _ _ _ readonly_reliability Hr') as [dr' Er'].
  destruct (run_scorer _ _ _ readonly_maintainability Hm') as [dm' Em'].
  destruct (run_scorer _ _ _ readonly_performance Hp') as [dp' Ep'].
  assert (Pr : returned calculate_reliability_score self = Ok (PFloat fr, dr))
    by (unfold returned; rewrite Er; reflexivity).
  assert (Pm : returned calculate_maintainability_score self = Ok (PFloat fm, dm))
    by (unfold returned; rewrite Em; reflexivity).
  assert (Pp : returned calculate_performance_score self = Ok (PFloat fp, dp))
    by (unfold returned; rewrite Ep; reflexivity).
  assert (Pr' : returned calculate_reliability_score self' = Ok (PFloat fr', dr'))
    by (unfold returned; rewrite Er'; reflexivity).
  assert (Pm' : returned calculate_maintainability_score self' = Ok (PFloat fm', dm'))
    by (unfold returned; rewrite Em'; reflexivity).
  assert (Pp' : returned calculate_performance_score self' = Ok (PFloat fp', dp'))
    by (unfold returned; rewrite Ep'; reflexivity).
  destruct (weighted_run _ _ _ _ _ _ _ _ _ _ Pr Pm Pp
              (reads_as_float _) (reads_as_float _) (reads_as_float _))
    as (l1 & c1 & k1 & _ & _ & _ & Hrun).
  destruct (weighted_run _ _ _ _ _ _ _ _ _ _ Pr' Pm' Pp'
              (reads_as_float _) (reads_as_float _) (reads_as_float _))
    as (l2 & c2 & k2 & _ & _ & _ & Hrun').
  do 2 eexists.
  split; [unfold returned; rewrite Hrun; reflexivity|].
  split; [unfold returned; rewrite Hrun'; reflexivity|].
  assert (S4 : small (Prim2SF 0.4)) by (vm_compute; discriminate).
  assert (S2 : small (Prim2SF 0.2)) by (vm_compute; discriminate).
  assert (S40 : small (Prim2SF (0.4 * 100))) by (vm_compute; discriminate).
  assert (S20 : small (Prim2SF (0.2 * 100))) by (vm_compute; discriminate).
  assert (S80 : small (Prim2SF (0.4 * 100 + 0.4 * 100))) by (vm_compute; discriminate).
  assert (S100 : small (Prim2SF (0.4 * 100 + 0.4 * 100 + 0.2 * 100)))
    by (vm_compute; discriminate).
  pose proof (small_below _ _ small_100 Rr') as Sr.
  pose proof (small_below _ _ small_100 Rm') as Sm.
  pose proof (small_below _ _ small_100 Rp') as Sp.
  pose proof (range_mul_l 0.4 fr' 100 S4 small_100 S40 Rr') as Br.
  pose proof (range_mul_l 0.4 fm' 100 S4 small_100 S40 Rm') as Bm.
  pose proof (range_mul_l 0.2 fp' 100 S2 small_100 S20 Rp') as Bp.
  pose proof (small_below _ _ S40 Br) as Sr4.
  pose proof (small_below _ _ S40 Bm) as Sm4.
  pose proof (small_below _ _ S20 Bp) as Sp2.
  pose proof (range_add _ _ _ _ S40 S40 S80 Br Bm) as Brm.
  pose proof (small_below _ _ S80 Brm) as Srm.
  pose proof (range_add _ _ _ _ S80 S20 S100 Brm Bp) as Ball.
  pose proof (small_below _ _ S100 Ball) as Sall.
  assert (R : in_range (0.4 * fr + 0.4 * fm + 0.2 * fp) (0.4 * fr' + 0.4 * fm' + 0.2 * fp')).
  { apply range_add; try assumption.
    - apply range_add; try assumption; apply range_mul_l; assumption.
    - apply range_mul_l; assumption. }
  destruct R as [_ R].
  unfold Num.le, Num.compare. cbn [mbind result_bind].
  rewrite Flt.leb_compare in R.
  change WEIGHT_RELIABILITY with 0.4%float.
  change WEIGHT_MAINTAINABILITY with 0.4%float.
  change WEIGHT_PERFORMANCE with 0.2%float.
  destruct (Num.float_compare _ _) as [[]|]; try discriminate; reflexivity.
Qed.

Lemma weighted_score_monotone_witness :
  exists w w' : float,
    score (returned calculate_weighted_quality_score (calculator None None))
      = Ok (PFloat w) /\
    score (returned calculate_weighted_quality_score scenario) = Ok (PFloat w') /\
    Num.le (PFloat w) (PFloat w') = Ok true.
Proof.
  apply (weighted_score_monotone (calculator None None) scenario 0 0 0 95 79 100);
    try (vm_compute; reflexivity); split; vm_compute; reflexivity.
Defined.

(** ** The average time of the performance tab *)

(** X19: on a run with an int [total_tests > 0] that converts to a
    double and a float [execution_time > 0], the average time of the
    performance tab is the [avg_test_time] entry of the record of
    [calculate_performance_score]. *)
Theorem avg_test_time_agrees (jd : dict) (jacoco : option dict) (n : Z) (t fn : float) :
  jd !! "total_tests" = Some (PInt n) ->
  jd !! "execution_time" = Some (PFloat t) ->
  0 < n -> (0 <? t)%float = true -> Num.float_of_Z n = Ok fn ->
  PerformanceMetrics.calculate_avg_test_time jd
  = detail (returned calculate_performance_score (calculator (Some jd) jacoco))
      ["avg_test_time"].
Proof.
  intros Ht Htime Hn Hpos Hfn.
  pose proof (average_nonneg n t fn Hn Hpos Hfn) as Havg.
  assert (Hd : detail (returned calculate_performance_score (calculator (Some jd) jacoco))
                 ["avg_test_time"] = Ok (PFloat (t / fn))).
  { destruct (score_of_average_cases (t / fn) Havg) as [[_ Hs]|[_ (x & Hs & Hx)]].
    - exact (proj2 (performance_run jd jacoco n t fn Ht Htime Hn Hpos Hfn _ Hs
                      (fixed_float_ok 2 100))).
    - refine (proj2 (performance_run jd jacoco n t fn Ht Htime Hn Hpos Hfn _ Hs _)).
      destruct Hx as [->|(f & -> & _)]; [|apply fixed_float_ok].
      eexists. exact fixed_int_100. }
  rewrite Hd. unfold PerformanceMetrics.calculate_avg_test_time.
  rewrite (subscript_lookup _ _ _ Ht), (subscript_lookup _ _ _ Htime).
  cbn [mbind result_bind Num.eq_int Num.truediv].
  destruct (Z.eqb_spec n 0) as [|_]; [lia|].
  rewrite Hfn. reflexivity.
Qed.

Lemma avg_test_time_agrees_witness :
  PerformanceMetrics.calculate_avg_test_time scenario_run
  = detail (returned calculate_performance_score scenario) ["avg_test_time"].
Proof.
  apply (avg_test_time_agrees scenario_run (Some scenario_cov) 100 45 100);
    try lia; vm_compute; reflexivity.
Defined.

(** ** The coverage the parser extracts *)

Section Extracted.
Import JaCoCoParser.

Variable int : string -> result Z.

(** The counts of a counter are not negative. *)
Definition counted (counter : element) : Prop :=
  forall name z, In name ["missed"; "covered"] ->
    int_attribute int counter name = Ok z -> 0 <= z.

(** Every coverage of the dict is a double of [0, 100]. *)
Definition coverage_keys : list string :=
  ["line_coverage"; "branch_coverage"; "instruction_coverage"; "complexity_coverage"].

Definition percentages (d : dict) : Prop :=
  forall key v, In key coverage_keys -> d !! key = Some v ->
    exists f, v = PFloat f /\ in_range f 100.

Lemma coverage_percent (missed covered : Z) (coverage : pyval) :
  0 <= missed -> 0 <= covered ->
  (if 0 <? missed + covered
   then ratio ← Num.truediv (PInt covered) (PInt (missed + covered));
        Num.mul ratio (PInt 100)
   else Ok (PFloat 0.0)) = Ok coverage ->
  exists f, coverage = PFloat f /\ in_range f 100.
Proof.
  intros Hm Hc. destruct (Z.ltb_spec 0 (missed + covered)) as [Hpos|Hz].
  - cbn [Num.truediv]. destruct (Z.eqb_spec (missed + covered) 0) as [|_]; [lia|].
    destruct (int_truediv_range covered (missed + covered) ltac:(lia) Hpos)
      as (q & Hq & Rq).
    rewrite Hq. cbn [mbind result_bind Num.mul Num.fmul]. rewrite float_of_Z_100.
    cbn [mbind result_bind]. intros [= <-]. eexists. split; [reflexivity|].
    refine (_ : in_range (q * 100) (1 * 100)).
    apply range_mul_r; try exact small_one; try exact small_100. exact Rq.
  - intros [= <-]. exists 0%float. split; [reflexivity|exact in_range_0].
Qed.

Lemma percentages_insert (d : dict) (key : string) (v : pyval) :
  percentages d ->
  (In key coverage_keys -> exists f, v = PFloat f /\ in_range f 100) ->
  percentages (<[key := v]> d).
Proof.
  intros Hd Hv k x Hk. destruct (decide (key = k)) as [->|Hne].
  - rewrite lookup_insert_eq. intros [= <-]. exact (Hv Hk).
  - rewrite lookup_insert_ne by exact Hne. exact (Hd k x Hk).
Qed.

Lemma count_percentages (d d' : dict) (counter : element) :
  counted counter -> percentages d -> count int d counter = Ok d' -> percentages d'.
Proof.
  intros Hc Hd. unfold count.
  destruct (int_attribute int counter "missed") as [missed|] eqn:Em; [|discriminate].
  destruct (int_attribute int counter "covered") as [covered|] eqn:Ec; [|discriminate].
  cbn [mbind result_bind].
  pose proof (Hc "missed" _ (or_introl eq_refl) Em) as Hm.
  pose proof (Hc "covered" _ (or_intror (or_introl eq_refl)) Ec) as Hcv.
  destruct (if 0 <? missed + covered then _ else _) as [coverage|] eqn:E; [|discriminate].
  cbn [mbind result_bind].
  pose proof (coverage_percent missed covered coverage Hm Hcv E) as P.
  repeat match goal with
         | |- context [type_is ?c ?n] => destruct (type_is c n)
         end;
    intros [= <-]; try exact Hd;
    repeat (apply percentages_insert; [|
      first [ intros _; exact P
            | cbn [coverage_keys In]; intros [H|[H|[H|[H|[]]]]]; discriminate H ] ]);
    exact Hd.
Qed.

Lemma extract_raised (found : list element) (e : pyexc) :
  foldl (fun acc counter => counters ← acc; count int counters counter) (Raise e) found
  = Raise e.
Proof. induction found as [|c rest IH]; [reflexivity|exact IH]. Qed.

Lemma extract_from (found : list element) (acc d : dict) :
  Forall counted found -> percentages acc ->
  foldl (fun acc counter => counters ← acc; count int counters counter) (Ok acc) found
    = Ok d ->
  percentages d.
Proof.
  revert acc. induction found as [|c rest IH]; intros acc Hf Ha; cbn [foldl].
  - intros [= <-]. exact Ha.
  - inversion Hf as [|? ? Hc Hrest]; subst. cbn [mbind result_bind].
    destruct (count int acc c) as [acc'|e] eqn:E.
    + apply IH; [exact Hrest|]. exact (count_percentages _ _ _ Hc Ha E).
    + rewrite extract_raised. discriminate.
Qed.

Lemma extracted_percentages (found : list element) (d : dict) :
  Forall counted found -> _extract_counters int found = Ok d -> percentages d.
Proof.
  intros Hf He. apply (extract_from found ∅ d Hf); [|exact He].
  intros k x _ H. rewrite lookup_empty in H. discriminate.
Qed.

(** X20: whatever [int] reads, when the counts of the counters found
    are not negative every coverage that [_extract_counters] records, of
    lines, branches, instructions or complexity, is a double between 0
    and 100. *)
Theorem extracted_coverage_bounds (found : list element) (d : dict) :
  Forall counted found ->
  _extract_counters int found = Ok d ->
  forall key v, In key coverage_keys -> d !! key = Some v ->
    exists f, v = PFloat f /\ within (PFloat f).
Proof.
  intros Hf He key v Hk Hv.
  destruct (extracted_percentages found d Hf He key v Hk Hv) as (f & -> & R).
  exists f. split; [reflexivity|]. apply in_range_within. exact R.
Qed.

(** X21: the coverage summary extracted from counters whose counts
    are not negative, with a line and a branch counter among them, gets a
    maintainability score between 0 and 100. *)
Theorem extracted_coverage_scored (found : list element) (d : dict)
    (junit : option dict) :
  Forall counted found ->
  _extract_counters int found = Ok d ->
  d !! "line_coverage" <> None -> d !! "branch_coverage" <> None ->
  exists f,
    score (returned calculate_maintainability_score (calculator junit (Some d)))
      = Ok (PFloat f) /\
    within (PFloat f).
Proof.
  intros Hf He Hl Hb.
  destruct (d !! "line_coverage") as [lc|] eqn:El; [|congruence].
  destruct (d !! "branch_coverage") as [bc|] eqn:Eb; [|congruence].
  destruct (extracted_percentages found d Hf He "line_coverage" lc
              ltac:(cbn; tauto) El) as (fl & -> & Wl).
  destruct (extracted_percentages found d Hf He "branch_coverage" bc
              ltac:(cbn; tauto) Eb) as (fb & -> & Wb).
  assert (Hinv : summary jacoco_invariants (Some d)).
  { right. exists (PFloat fl), (PFloat fb).
    split; [exact El|]. split; [exact Eb|].
    split; apply in_range_within; assumption. }
  destruct (maintainability_percent junit (Some d) Hinv) as (f & Hs & R).
  exists f. split; [exact Hs|]. apply in_range_within. exact R.
Qed.

(** X22: a later counter overwrites an earlier one of its type: after
    one more line counter, the line entries of the summary are those of
    that counter, and every other entry is as it was. *)
Theorem last_line_counter_wins (found : list element) (counter : element) (d0 d : dict) :
  _extract_counters int found = Ok d0 ->
  type_is counter "LINE" = true ->
  _extract_counters int (found ++ [counter]) = Ok d ->
  exists (missed covered : Z) (coverage : pyval),
    int_attribute int counter "missed" = Ok missed /\
    int_attribute int counter "covered" = Ok covered /\
    (if 0 <? missed + covered
     then ratio ← Num.truediv (PInt covered) (PInt (missed + covered));
          Num.mul ratio (PInt 100)
     else Ok (PFloat 0)) = Ok coverage /\
    d !! "line_coverage" = Some coverage /\
    d !! "lines_covered" = Some (PInt covered) /\
    d !! "lines_total" = Some (PInt (missed + covered)) /\
    forall key, ~ In key ["line_coverage"; "lines_covered"; "lines_total"] ->
      d !! key = d0 !! key.
Proof.
  intros H0 Hty. unfold _extract_counters in *. rewrite foldl_app, H0.
  cbn [foldl mbind result_bind]. unfold count.
  destruct (int_attribute int counter "missed") as [missed|]; [|discriminate].
  destruct (int_attribute int counter "covered") as [covered|]; [|discriminate].
  cbn [mbind result_bind].
  destruct (if 0 <? missed + covered then _ else _) as [coverage|] eqn:E; [|discriminate].
  cbn [mbind result_bind]. rewrite Hty. intros [= <-].
  exists missed, covered, coverage.
  split; [reflexivity|]. split; [reflexivity|]. split; [exact E|].
  split; [rewrite !lookup_insert_ne by discriminate; apply lookup_insert_eq|].
  split; [rewrite lookup_insert_ne by discriminate; apply lookup_insert_eq|].
  split; [apply lookup_insert_eq|].
  intros key Hk. cbn [In] in Hk.
  rewrite !lookup_insert_ne by (intros <-; tauto). reflexivity.
Qed.

End Extracted.

(** A reader for the examples below: on a non-empty string of the digits
    0 to 9 it returns the int Python's [int] returns. It is not Python's
    [int], which also reads a sign, blanks around the numeral and
    underscores between digits: on those, and on everything else, it
    raises ValueError. The theorems above hold for every reader. *)
Fixpoint decimal_digits (acc : Z) (s : string) : result Z :=
  match s with
  | EmptyString => Ok acc
  | String c rest =>
      let n := Z.of_nat (Ascii.nat_of_ascii c) in
      if (48 <=? n) && (n <=? 57) then decimal_digits (10 * acc + (n - 48)) rest
      else Raise ValueError
  end.

Definition decimal (s : string) : result Z :=
  match s with
  | EmptyString => Raise ValueError
  | _ => decimal_digits 0 s
  end.

Lemma decimal_digits_nonneg (s : string) (acc z : Z) :
  0 <= acc -> decimal_digits acc s = Ok z -> 0 <= z.
Proof.
  revert acc. induction s as [|c rest IH]; intros acc Ha; cbn [decimal_digits].
  - intros [= <-]. exact Ha.
  - destruct (Z.leb_spec 48 (Z.of_nat (Ascii.nat_of_ascii c)));
      destruct (Z.leb_spec (Z.of_nat (Ascii.nat_of_ascii c)) 57);
      cbn [andb]; try discriminate.
    apply IH. lia.
Qed.

Lemma decimal_counted (counter : JaCoCoParser.element) : counted decimal counter.
Proof.
  intros name z _. unfold JaCoCoParser.int_attribute.
  destruct (counter !! name) as [s|]; [|intros [= <-]; lia].
  unfold decimal. destruct s as [|c rest]; [discriminate|].
  apply decimal_digits_nonneg. lia.
Qed.

(** A report with a line counter and a branch counter. *)
Definition two_counters : list JaCoCoParser.element :=
  [ Dict.of_list [("type", "LINE"); ("missed", "15"); ("covered", "85")];
    Dict.of_list [("type", "BRANCH"); ("missed", "3"); ("covered", "7")] ].

Definition two_counters_summary : dict :=
  match JaCoCoParser._extract_counters decimal two_counters with
  | Ok d => d
  | Raise _ => ∅
  end.

Definition last_summary : dict :=
  match JaCoCoParser._extract_counters decimal
          (two_counters ++ [Dict.of_list [("type", "LINE"); ("missed", "1"); ("covered", "3")]])
  with
  | Ok d => d
  | Raise _ => ∅
  end.

Lemma extracted_coverage_bounds_witness :
  exists f, PFloat 85 = PFloat f /\ within (PFloat f).
Proof.
  apply (extracted_coverage_bounds decimal two_counters two_counters_summary)
    with (key := "line_coverage").
  - repeat constructor; apply decimal_counted.
  - vm_compute. reflexivity.
  - cbn. tauto.
  - vm_compute. reflexivity.
Defined.

Lemma extracted_coverage_scored_witness :
  exists f,
    score (returned calculate_maintainability_score
             (calculator None (Some two_counters_summary))) = Ok (PFloat f) /\
    within (PFloat f).
Proof.
  apply (extracted_coverage_scored decimal two_counters two_counters_summary None).
  - repeat constructor; apply decimal_counted.
  - vm_compute. reflexivity.
  - vm_compute. discriminate.
  - vm_compute. discriminate.
Defined.

Lemma last_line_counter_wins_witness :
  exists (missed covered : Z) (coverage : pyval),
    JaCoCoParser.int_attribute decimal
      (Dict.of_list [("type", "LINE"); ("missed", "1"); ("covered", "3")]) "missed"
      = Ok missed /\
    JaCoCoParser.int_attribute decimal
      (Dict.of_list [("type", "LINE"); ("missed", "1"); ("covered", "3")]) "covered"
      = Ok covered /\
    (if 0 <? missed + covered
     then ratio ← Num.truediv (PInt covered) (PInt (missed + covered));
          Num.mul ratio (PInt 100)
     else Ok (PFloat 0)) = Ok coverage /\
    last_summary !! "line_coverage" = Some coverage /\
    last_summary !! "lines_covered" = Some (PInt covered) /\
    last_summary !! "lines_total" = Some (PInt (missed + covered)) /\
    forall key, ~ In key ["line_coverage"; "lines_covered"; "lines_total"] ->
      last_summary !! key = two_counters_summary !! key.
Proof.
  apply (last_line_counter_wins decimal two_counters).
  - vm_compute. reflexivity.
  - vm_compute. reflexivity.
  - vm_compute. reflexivity.
Defined.

(** ** Two calls of a report *)

(** On complete summaries the reports and their content. *)
Lemma reports_written_content (jd jc : dict) (total : Z) (t : float) :
  junit_invariants jd -> jd !! "total_tests" = Some (PInt total) -> 0 < total ->
  jd !! "execution_time" = Some (PFloat t) -> (0 <? t)%float = true ->
  jacoco_invariants jc ->
  exists (w : float) (lines : list string) (rest : string),
    score (returned calculate_weighted_quality_score (calculator (Some jd) (Some jc)))
      = Ok (PFloat w) /\
    returned generate_text_report (calculator (Some jd) (Some jc))
      = Ok (String.concat nl lines) /\
    nth 1%nat lines "" = "REPORTE DE CALIDAD DE SOFTWARE" /\
    nth 6%nat lines "" = "Puntuación WQS: " +:+ Fmt.fixed_float 2 w +:+ "/100" /\
    returned generate_html_report (calculator (Some jd) (Some jc))
      = Ok (nl +:+ "        <!DOCTYPE html>" +:+ rest).
Proof.
  intros Hj Ht Hpos Htime Hz Hc.
  destruct (reliability_full_record jd (Some jc) total Hj Ht Hpos) as (fr & dr & Hr & Pr).
  destruct (maintainability_full_record (Some jd) jc Hc) as (fm & dm & Hm & Pm).
  assert (Hfn : exists fn, Num.float_of_Z total = Ok fn).
  { destruct Hj as (total' & passed & failures & errors & skipped & t' & Ht' & _ & _ & _
                    & _ & _ & _ & _ & _ & _ & _ & _ & Hfn).
    rewrite Ht in Ht'. injection Ht' as <-. exact Hfn. }
  destruct Hfn as [fn Hfn].
  destruct (performance_full_record jd (Some jc) total t fn Ht Htime Hpos Hz Hfn)
    as (ps & dp & Hp & Pps & Pp).
  destruct (percent_reads ps Pps) as [fp Rp].
  destruct (weighted_run _ _ _ _ _ _ _ _ _ _ Hr Hm Hp
              (reads_as_float _) (reads_as_float _) Rp)
    as (letter & color & calc & _ & Hin & _ & Hrun).
  set (w := (WEIGHT_RELIABILITY * fr + WEIGHT_MAINTAINABILITY * fm
             + WEIGHT_PERFORMANCE * fp)%float) in *.
  exists w.
  enough (Hrep : exists (lines : list string) (rest : string),
    returned generate_text_report (calculator (Some jd) (Some jc))
      = Ok (String.concat nl lines) /\
    nth 1%nat lines "" = "REPORTE DE CALIDAD DE SOFTWARE" /\
    nth 6%nat lines "" = "Puntuación WQS: " +:+ Fmt.fixed_float 2 w +:+ "/100" /\
    returned generate_html_report (calculator (Some jd) (Some jc))
      = Ok (nl +:+ "        <!DOCTYPE html>" +:+ rest)).
  { destruct Hrep as (lines & rest & H1 & H2 & H3 & H4). exists lines, rest.
    split; [unfold returned; rewrite Hrun; reflexivity|]. repeat split; assumption. }
  eapply reports_printed_content;
    try exact Hrun; try exact Hin; try exact Pr; try exact Pm; try exact Pp;
    try exact Rp; try apply reads_as_float.
Qed.

(** C9: with only the coverage summary loaded, [generate_text_report] and
    [generate_html_report] return no string: both raise
    KeyError('standard'), on the first call and on a second one, though
    what the claim says of two calls holds wherever a report is written.
    No call changes [junit_data] or [jacoco_data], whatever the calculator
    holds; and on complete summaries, with tests run and a time above zero,
    both calls of a report return one and the same string, for the text
    report the lines joined by newlines, the title among them and the
    composite score with two decimals, for the HTML report a document that
    opens with its document type. *)
Theorem reports_raise_without_junit :
  let absent := calculator None (Some scenario_cov) in
  (returned generate_text_report absent = Raise (KeyError "standard") /\
   returned generate_text_report (state_after generate_text_report absent)
     = Raise (KeyError "standard") /\
   returned generate_html_report absent = Raise (KeyError "standard") /\
   returned generate_html_report (state_after generate_html_report absent)
     = Raise (KeyError "standard")) /\
  (forall self : QualityRatingCalculator,
     state_after generate_text_report self = self /\
     state_after generate_html_report self = self) /\
  (forall (jd jc : dict) (total : Z) (t : float),
     junit_invariants jd -> jd !! "total_tests" = Some (PInt total) -> 0 < total ->
     jd !! "execution_time" = Some (PFloat t) -> (0 <? t)%float = true ->
     jacoco_invariants jc ->
     let self := calculator (Some jd) (Some jc) in
     exists (w : float) (lines : list string) (rest : string),
       score (returned calculate_weighted_quality_score self) = Ok (PFloat w) /\
       returned generate_text_report self = Ok (String.concat nl lines) /\
       returned generate_text_report (state_after generate_text_report self)
         = Ok (String.concat nl lines) /\
       nth 1%nat lines "" = "REPORTE DE CALIDAD DE SOFTWARE" /\
       nth 6%nat lines "" = "Puntuación WQS: " +:+ Fmt.fixed_float 2 w +:+ "/100" /\
       returned generate_html_report self
         = Ok (nl +:+ "        <!DOCTYPE html>" +:+ rest) /\
       returned generate_html_report (state_after generate_html_report self)
         = Ok (nl +:+ "        <!DOCTYPE html>" +:+ rest)).
Proof.
  cbv zeta. split; [|split].
  - rewrite !(readonly_text_report _), !(readonly_html_report _).
    destruct reports_without_junit as [Ht Hh]. repeat split; assumption.
  - intros self. split; [apply readonly_text_report|apply readonly_html_report].
  - intros jd jc total t Hj Ht Hpos Htime Hz Hc.
    destruct (reports_written_content jd jc total t Hj Ht Hpos Htime Hz Hc)
      as (w & lines & rest & Hw & H1 & H2 & H3 & H4).
    exists w, lines, rest.
    rewrite !(readonly_text_report _), !(readonly_html_report _).
    repeat split; assumption.
Qed.
